(** * Crystal Core: RBAC permission resolver, permission cache, Sheets data
      adapter and Sheets client (circuit breaker, retry), as a shallow embedding.

    Sources embedded here:
    - lib/utils            ([parseBoolean], [safeJsonParse], [generateId], [now])
    - lib/sheets/client    ([CircuitBreaker], [retryWithBackoff], [SheetsClient])
    - lib/data/sheets      (row mappers and the [sheetsAdapter] methods)
    - lib/rbac/permissions (cache and resolver)
    - lib/rbac/roles       ([assignRole], [revokeRole])

    Asynchronous functions are modelled sequentially: an [Async A] is a
    function from the world (remote spreadsheet, clock, network behaviour,
    circuit breaker, permission cache) to a result and a new world. A
    rejected promise is [Throw]; the world changes made before the rejection
    are kept, as in JavaScript. A call that is in flight while another
    handler runs is modelled by cutting the function at one of its awaits
    (see [getUserPermissions_suspended]). *)

From Stdlib Require Import ZArith NArith Ascii String.
From stdpp Require Import gmap strings list pretty.

Local Open Scope string_scope.
Local Open Scope N_scope.
Local Open Scope list_scope.

(** ** JavaScript values held in sheet cells *)

(** A cell of a sheet row has TypeScript type [any]. Numbers are integers here
    (no NaN and no fractions): no function below does arithmetic on a cell. *)
Inductive JsValue : Type :=
| JUndefined
| JNull
| JBool (b : bool)
| JNum (n : Z)
| JStr (s : string).

#[global] Instance JsValue_eq_dec : EqDecision JsValue.
Proof. solve_decision. Defined.

(** [a === b] on the values above. *)
Definition strict_eq (a b : JsValue) : bool := bool_decide (a = b).

(** JavaScript truthiness, as used by [||], [&&] and [if]. *)
Definition truthy (v : JsValue) : bool :=
  match v with
  | JUndefined | JNull => false
  | JBool b => b
  | JNum n => negb (Z.eqb n 0)
  | JStr s => negb (String.eqb s "")
  end.

(** [v || d] *)
Definition js_or (v d : JsValue) : JsValue := if truthy v then v else d.

(** [row[i]]: reading past the end of an array gives [undefined]. *)
Definition cell (row : list JsValue) (i : nat) : JsValue := nth i row JUndefined.

(** ** lib/utils *)

Definition upper_char (c : ascii) : ascii :=
  let n := N_of_ascii c in
  if (97 <=? n) && (n <=? 122) then ascii_of_N (n - 32) else c.

Definition lower_char (c : ascii) : ascii :=
  let n := N_of_ascii c in
  if (65 <=? n) && (n <=? 90) then ascii_of_N (n + 32) else c.

(** [String.prototype.toUpperCase] on the ASCII letters; other bytes are kept
    (no non-ASCII character upper-cases to one of the letters T, R, U, E). *)
Fixpoint toUpperCase (s : string) : string :=
  match s with
  | EmptyString => EmptyString
  | String c r => String (upper_char c) (toUpperCase r)
  end.

Fixpoint toLowerCase (s : string) : string :=
  match s with
  | EmptyString => EmptyString
  | String c r => String (lower_char c) (toLowerCase r)
  end.

Definition parseBoolean (value : JsValue) : bool :=
  match value with
  | JBool b => b
  | JStr s => String.eqb (toUpperCase s) "TRUE"
  | _ => false
  end.

(** Two strings are equal case-insensitively when they agree after folding
    both to lower case. *)
Definition eq_ignore_case (s t : string) : Prop := toLowerCase s = toLowerCase t.


(** The value of a parsed [conditions] cell. *)
#[warnings="-register-all"]
Inductive Json : Type :=
| JsonNull
| JsonBool (b : bool)
| JsonNum (n : Z)
| JsonStr (s : string)
| JsonArr (items : list Json)
| JsonObj (fields : list (string * Json)).

(** Built-ins of the JavaScript runtime that the code calls and this
    development does not define: [JSON.parse] ([None] when it throws),
    [parseInt] ([None] for NaN), [crypto.randomUUID] (the n-th identifier
    handed out) and [Date.prototype.toISOString] of a millisecond instant. *)
Class JsRuntime : Type := {
  JSON_parse : JsValue -> option Json;
  parseInt : JsValue -> option Z;
  randomUUID : nat -> string;
  toISOString : N -> string
}.

(** [safeJsonParse(value, fallback)] *)
Definition safeJsonParse `{JsRuntime} (value : JsValue) (fallback : Json) : Json :=
  if negb (truthy value) then fallback
  else match JSON_parse value with
       | Some v => v
       | None => fallback
       end.

(** ** lib/data/types and lib/rbac/types *)

Module Role.
Record t : Type := mk {
  role_id : JsValue;
  role_code : JsValue;
  role_name : JsValue;
  description : JsValue;
  is_active : bool;
  created_at : JsValue;
  updated_at : JsValue
}.
End Role.

Module RoleAssignment.
Record t : Type := mk {
  assignment_id : JsValue;
  user_id : JsValue;
  role_id : JsValue;
  site_code : JsValue;
  assigned_by : JsValue;
  assigned_at : JsValue;
  expires_at : JsValue;
  is_active : bool
}.
End RoleAssignment.

Module AppModule.
Record t : Type := mk {
  module_id : JsValue;
  module_code : JsValue;
  module_name : JsValue;
  description : JsValue;
  icon : JsValue;
  route : JsValue;
  is_active : bool;
  sort_order : Z;
  created_at : JsValue;
  updated_at : JsValue
}.
End AppModule.

Module Permission.
Record t : Type := mk {
  permission_id : JsValue;
  role_id : JsValue;
  module_code : JsValue;
  action : JsValue;
  resource : JsValue;
  conditions : JsValue;
  is_active : bool;
  created_at : JsValue;
  updated_at : JsValue
}.
End Permission.

Module SystemLog.
(** The argument of [createSystemLog]: a [SystemLog] without [log_id] and
    [timestamp]. *)
Record t : Type := mk {
  level : string;
  user_id : option string;
  module_code : option string;
  action : option string;
  message : string;
  details : option string;
  correlation_id : option string;
  ip_address : option string;
  user_agent : option string
}.
End SystemLog.

Module UserPermission.
Record t : Type := mk {
  module_code : JsValue;
  action : JsValue;
  resource : JsValue;
  conditions : Json
}.
End UserPermission.

Module UserRole.
Record t : Type := mk {
  role_id : JsValue;
  role_code : JsValue;
  role_name : JsValue;
  site_code : JsValue
}.
End UserRole.

Module CacheEntry.
Record t : Type := mk {
  permissions : list UserPermission.t;
  expiresAt : N
}.
End CacheEntry.

(** ** Errors *)

(** A thrown value: [code] and [response.status] are what [retryWithBackoff]
    inspects. *)
Record JsError : Type := {
  err_code : option string;
  err_status : option N;
  err_message : string
}.

(** [new Error(message)] *)
Definition Error (message : string) : JsError :=
  {| err_code := None; err_status := None; err_message := message |}.

Inductive Result (A : Type) : Type :=
| Ok (a : A)
| Throw (e : JsError).
Arguments Ok {A} a.
Arguments Throw {A} e.

(** ** lib/sheets/client: the circuit breaker's own state *)

Inductive BreakerState : Type := CLOSED | OPEN | HALF_OPEN.

#[global] Instance BreakerState_eq_dec : EqDecision BreakerState.
Proof. solve_decision. Defined.

Module CircuitBreaker.
Record t : Type := mk {
  failures : N;
  state : BreakerState;
  nextAttempt : option N
}.

Definition threshold : N := 5.
Definition timeout : N := 60000.

(** Field initialisers of the class. *)
Definition new : t := {| failures := 0; state := CLOSED; nextAttempt := None |}.

(** The test [this.nextAttempt && Date.now() < this.nextAttempt]. *)
Definition cooling_down (cb : t) (date_now : N) : bool :=
  match nextAttempt cb with
  | Some at_ => negb (at_ =? 0) && (date_now <? at_)
  | None => false
  end.

Definition onSuccess (cb : t) : t :=
  {| failures := 0; state := CLOSED; nextAttempt := nextAttempt cb |}.

Definition onFailure (date_now : N) (cb : t) : t :=
  let failures' := failures cb + 1 in
  if threshold <=? failures' then
    {| failures := failures'; state := OPEN; nextAttempt := Some (date_now + timeout) |}
  else
    {| failures := failures'; state := state cb; nextAttempt := nextAttempt cb |}.

Definition getState (cb : t) : BreakerState := state cb.
End CircuitBreaker.

(** ** The world an asynchronous function runs in *)

(** What the remote service answers to one HTTP request: how long the request
    takes, and the error it is rejected with, if any. *)
Record NetReply : Type := {
  latency : N;
  failure : option JsError
}.

(** Sheet name to rows, each row a list of cells (row 1 is the header). *)
Abbreviation Spreadsheet := (gmap string (list (list JsValue))).

Record World : Type := {
  spreadsheet : Spreadsheet;            (* the remote spreadsheet *)
  clock : N;                            (* Date.now(), in milliseconds *)
  network : nat -> NetReply;            (* the answer to the n-th request *)
  requests : nat;                       (* requests sent so far *)
  circuitBreaker : CircuitBreaker.t;    (* the module-level [circuitBreaker] *)
  permissionCache : gmap string CacheEntry.t;
  uuids : nat                           (* identifiers generated so far *)
}.

Definition set_spreadsheet (s : Spreadsheet) (w : World) : World :=
  {| spreadsheet := s; clock := clock w; network := network w;
     requests := requests w; circuitBreaker := circuitBreaker w;
     permissionCache := permissionCache w; uuids := uuids w |}.

Definition set_circuitBreaker (cb : CircuitBreaker.t) (w : World) : World :=
  {| spreadsheet := spreadsheet w; clock := clock w; network := network w;
     requests := requests w; circuitBreaker := cb;
     permissionCache := permissionCache w; uuids := uuids w |}.

Definition set_permissionCache (c : gmap string CacheEntry.t) (w : World) : World :=
  {| spreadsheet := spreadsheet w; clock := clock w; network := network w;
     requests := requests w; circuitBreaker := circuitBreaker w;
     permissionCache := c; uuids := uuids w |}.

(** Time passes: [d] milliseconds later. *)
Definition advance (d : N) (w : World) : World :=
  {| spreadsheet := spreadsheet w; clock := clock w + d; network := network w;
     requests := requests w; circuitBreaker := circuitBreaker w;
     permissionCache := permissionCache w; uuids := uuids w |}.

(** One request has been sent and answered after [d] milliseconds. *)
Definition answered (d : N) (w : World) : World :=
  {| spreadsheet := spreadsheet w; clock := clock w + d; network := network w;
     requests := S (requests w); circuitBreaker := circuitBreaker w;
     permissionCache := permissionCache w; uuids := uuids w |}.

Definition next_uuid (w : World) : World :=
  {| spreadsheet := spreadsheet w; clock := clock w; network := network w;
     requests := requests w; circuitBreaker := circuitBreaker w;
     permissionCache := permissionCache w; uuids := S (uuids w) |}.

(** ** Asynchronous computations *)

Definition Async (A : Type) : Type := World -> Result A * World.

Definition ret {A} (a : A) : Async A := fun w => (Ok a, w).

Definition throw {A} (e : JsError) : Async A := fun w => (Throw e, w).

(** [const x = await m; k x] *)
Definition bind {A B} (m : Async A) (k : A -> Async B) : Async B :=
  fun w => match m w with
           | (Ok a, w') => k a w'
           | (Throw e, w') => (Throw e, w')
           end.

(** [try { body } catch (error) { handler }] *)
Definition try_catch {A} (body : Async A) (handler : JsError -> Async A) : Async A :=
  fun w => match body w with
           | (Ok a, w') => (Ok a, w')
           | (Throw e, w') => handler e w'
           end.

Notation "'await' x <- m 'in' k" := (bind m (fun x => k))
  (at level 10, x name, m at level 100, k at level 200).
Notation "'run' m 'in' k" := (bind m (fun _ => k))
  (at level 10, m at level 100, k at level 200).

(** [await new Promise(resolve => setTimeout(resolve, ms))] *)
Definition sleep (ms : N) : Async unit := fun w => (Ok tt, advance ms w).

Definition generateId `{JsRuntime} : Async string :=
  fun w => (Ok (randomUUID (uuids w)), next_uuid w).

Definition now `{JsRuntime} : Async string :=
  fun w => (Ok (toISOString (clock w)), w).

(** ** The remote service behind [this.sheets.spreadsheets.values]

    The Google Sheets service is outside the repository. It is modelled as
    far as the adapter relies on it: a request either fails with the error
    the network gives it, leaving the spreadsheet as it is, or takes
    effect at once. *)

Definition sheet_rows (s : Spreadsheet) (sheetName : string) : list (list JsValue) :=
  default [] (s !! sheetName).

Definition http_request {A} (effect : Spreadsheet -> A * Spreadsheet) : Async A :=
  fun w =>
    let reply := network w (requests w) in
    let w' := answered (latency reply) w in
    match failure reply with
    | Some e => (Throw e, w')
    | None => let '(a, s) := effect (spreadsheet w') in (Ok a, set_spreadsheet s w')
    end.

(** The range [`A${rowNumber}:X${rowNumber}`]: one row, the first
    [range_width] columns. *)
Record RowRange : Type := {
  range_row : nat;
  range_width : nat
}.

(** Writing a row over an existing one replaces the cells of the range and
    keeps the cells to their right. A position past the end of the sheet is
    left alone here (the service would grow the sheet): [revokeRole] only
    writes over a row it has just read. *)
Definition overwrite_cells (width : nat) (new old : list JsValue) : list JsValue :=
  take width new ++ drop width old.

Fixpoint overwrite_rows (width position : nat) (values rows : list (list JsValue))
  : list (list JsValue) :=
  match values with
  | [] => rows
  | v :: vs => overwrite_rows width (S position) vs (alter (overwrite_cells width v) position rows)
  end.

(** [values.get]: the handler returns [response.data.values || []]. *)
Definition values_get (sheetName : string) : Async (list (list JsValue)) :=
  http_request (fun s => (sheet_rows s sheetName, s)).

(** [values.update] with [valueInputOption: 'RAW']. *)
Definition values_update (sheetName : string) (range : RowRange) (values : list (list JsValue))
  : Async unit :=
  http_request (fun s =>
    (tt, <[sheetName := overwrite_rows (range_width range) (range_row range - 1)%nat values
                          (sheet_rows s sheetName)]> s)).

(** [values.append] with [insertDataOption: 'INSERT_ROWS']. *)
Definition values_append (sheetName : string) (values : list (list JsValue)) : Async unit :=
  http_request (fun s => (tt, <[sheetName := sheet_rows s sheetName ++ values]> s)).

(** ** lib/sheets/client *)

Definition breaker_open_error : JsError :=
  Error "Circuit breaker is OPEN - Sheets API temporarily unavailable".

(** [CircuitBreaker.execute(fn)] on the module-level [circuitBreaker]. *)
Definition execute {A} (fn : Async A) : Async A :=
  fun w =>
    let cb := circuitBreaker w in
    if bool_decide (CircuitBreaker.state cb = OPEN)
       && CircuitBreaker.cooling_down cb (clock w)
    then (Throw breaker_open_error, w)
    else
      let w0 :=
        if bool_decide (CircuitBreaker.state cb = OPEN)
        then set_circuitBreaker
               (CircuitBreaker.mk (CircuitBreaker.failures cb) HALF_OPEN
                                  (CircuitBreaker.nextAttempt cb)) w
        else w in
      match fn w0 with
      | (Ok result, w1) =>
          (Ok result, set_circuitBreaker (CircuitBreaker.onSuccess (circuitBreaker w1)) w1)
      | (Throw error, w1) =>
          (Throw error,
           set_circuitBreaker (CircuitBreaker.onFailure (clock w1) (circuitBreaker w1)) w1)
      end.

Definition delays : list N := [200; 500; 1000].

Definition isRetryable (error : JsError) : bool :=
  bool_decide (err_code error = Some "ETIMEDOUT")
  || bool_decide (err_code error = Some "ECONNRESET")
  || match err_status error with Some st => 500 <=? st | None => false end
  || bool_decide (err_status error = Some 429).

(** The [for] loop of [retryWithBackoff] at index [i], with [remaining]
    iterations to go ([remaining = maxRetries - i]). *)
Fixpoint retry_loop {A} (fn : Async A) (maxRetries i remaining : nat) : Async A :=
  match remaining with
  | O => throw (Error "Max retries exceeded")
  | S remaining' =>
      try_catch fn (fun error =>
        if negb (isRetryable error) || Nat.eqb i (maxRetries - 1)
        then throw error
        else run sleep (nth i delays 0) in
             retry_loop fn maxRetries (S i) remaining')
  end.

Definition retryWithBackoff {A} (fn : Async A) : Async A := retry_loop fn 3 0 3.

Module SheetsClient.

(** [read(sheetName)]; every caller in the adapter omits the range. *)
Definition read (sheetName : string) : Async (list (list JsValue)) :=
  execute (retryWithBackoff (values_get sheetName)).

Definition write (sheetName : string) (range : RowRange) (values : list (list JsValue))
  : Async unit :=
  execute (retryWithBackoff (values_update sheetName range values)).

Definition append (sheetName : string) (values : list (list JsValue)) : Async unit :=
  execute (retryWithBackoff (values_append sheetName values)).

Definition getCircuitBreakerState : Async BreakerState :=
  fun w => (Ok (CircuitBreaker.getState (circuitBreaker w)), w).

End SheetsClient.

(** ** lib/data/sheets: row mappers *)

Definition mapRowToRole (row : list JsValue) : Role.t :=
  {| Role.role_id := cell row 0;
     Role.role_code := cell row 1;
     Role.role_name := cell row 2;
     Role.description := cell row 3;
     Role.is_active := parseBoolean (cell row 4);
     Role.created_at := cell row 5;
     Role.updated_at := cell row 6 |}.

Definition mapRowToRoleAssignment (row : list JsValue) : RoleAssignment.t :=
  {| RoleAssignment.assignment_id := cell row 0;
     RoleAssignment.user_id := cell row 1;
     RoleAssignment.role_id := cell row 2;
     RoleAssignment.site_code := js_or (cell row 3) JUndefined;
     RoleAssignment.assigned_by := cell row 4;
     RoleAssignment.assigned_at := cell row 5;
     RoleAssignment.expires_at := js_or (cell row 6) JUndefined;
     RoleAssignment.is_active := parseBoolean (cell row 7) |}.

(** [parseInt(row[7]) || 0] *)
Definition parse_sort_order `{JsRuntime} (v : JsValue) : Z :=
  match parseInt v with
  | Some n => n
  | None => 0%Z
  end.

Definition mapRowToModule `{JsRuntime} (row : list JsValue) : AppModule.t :=
  {| AppModule.module_id := cell row 0;
     AppModule.module_code := cell row 1;
     AppModule.module_name := cell row 2;
     AppModule.description := cell row 3;
     AppModule.icon := cell row 4;
     AppModule.route := cell row 5;
     AppModule.is_active := parseBoolean (cell row 6);
     AppModule.sort_order := parse_sort_order (cell row 7);
     AppModule.created_at := cell row 8;
     AppModule.updated_at := cell row 9 |}.

Definition mapRowToPermission (row : list JsValue) : Permission.t :=
  {| Permission.permission_id := cell row 0;
     Permission.role_id := cell row 1;
     Permission.module_code := cell row 2;
     Permission.action := cell row 3;
     Permission.resource := cell row 4;
     Permission.conditions := js_or (cell row 5) JUndefined;
     Permission.is_active := parseBoolean (cell row 6);
     Permission.created_at := cell row 7;
     Permission.updated_at := cell row 8 |}.

(** ** Array helpers *)

(** [rows.slice(1)] *)
Definition slice1 {A} (rows : list A) : list A := drop 1 rows.

(** [xs.find(p) || null] for arrays of objects *)
Definition find_first {A} (p : A -> bool) (xs : list A) : option A := List.find p xs.

(** [xs.findIndex(p)]; [None] stands for -1. *)
Fixpoint findIndex {A} (p : A -> bool) (xs : list A) : option nat :=
  match xs with
  | [] => None
  | x :: r => if p x then Some 0%nat else option_map S (findIndex p r)
  end.

(** Insertion into a list already ordered by [sort_order], before the first
    element that does not come earlier. *)
Fixpoint insert_by_sort_order (m : AppModule.t) (ms : list AppModule.t) : list AppModule.t :=
  match ms with
  | [] => [m]
  | x :: r =>
      if (AppModule.sort_order m <=? AppModule.sort_order x)%Z
      then m :: x :: r
      else x :: insert_by_sort_order m r
  end.

(** [ms.sort((a, b) => a.sort_order - b.sort_order)]: a stable sort. *)
Definition sort_by_sort_order (ms : list AppModule.t) : list AppModule.t :=
  foldr insert_by_sort_order [] ms.

(** [new Set()] ... [add] ... [Array.from]: insertion order, no duplicates. *)
Definition set_add (v : JsValue) (s : list JsValue) : list JsValue :=
  if bool_decide (v ∈ s) then s else s ++ [v].

(** [s || ''] for an optional string *)
Definition or_empty (s : option string) : string := default "" s.

(** A string argument is truthy when it is present and not empty. *)
Definition given (s : option string) : bool :=
  match s with
  | Some v => negb (String.eqb v "")
  | None => false
  end.

(** ** lib/data/sheets: the adapter ([dataService] is [sheetsAdapter]) *)

Module NewRoleAssignment.
(** [Omit<RoleAssignment, 'assignment_id' | 'assigned_at'>], as built by
    [assignRole] in lib/rbac/roles. *)
Record t : Type := mk {
  user_id : string;
  role_id : string;
  site_code : option string;
  assigned_by : string;
  expires_at : option string;
  is_active : bool
}.
End NewRoleAssignment.

Definition optional (s : option string) : JsValue :=
  match s with
  | Some v => JStr v
  | None => JUndefined
  end.

Module sheetsAdapter.
Section WithRuntime.
Context `{JsRuntime}.

Definition getRoles : Async (list Role.t) :=
  await rows <- SheetsClient.read "ROLES" in
  ret (map mapRowToRole (slice1 rows)).

Definition getRoleById (roleId : JsValue) : Async (option Role.t) :=
  await roles <- getRoles in
  ret (find_first (fun r => strict_eq (Role.role_id r) roleId) roles).

Definition getRoleAssignments (userId : string) : Async (list RoleAssignment.t) :=
  await rows <- SheetsClient.read "ROLE_ASSIGNMENTS" in
  let assignments := map mapRowToRoleAssignment (slice1 rows) in
  ret (filter (fun a => strict_eq (RoleAssignment.user_id a) (JStr userId)
                        && RoleAssignment.is_active a) assignments).

(** The row [assignRole] appends. *)
Definition assignment_row (assignment_id assigned_at : string)
    (assignment : NewRoleAssignment.t) : list JsValue :=
  [ JStr assignment_id;
    JStr (NewRoleAssignment.user_id assignment);
    JStr (NewRoleAssignment.role_id assignment);
    JStr (or_empty (NewRoleAssignment.site_code assignment));
    JStr (NewRoleAssignment.assigned_by assignment);
    JStr assigned_at;
    JStr (or_empty (NewRoleAssignment.expires_at assignment));
    JStr (if NewRoleAssignment.is_active assignment then "TRUE" else "FALSE") ].

Definition assignRole (assignment : NewRoleAssignment.t) : Async RoleAssignment.t :=
  await assignment_id <- generateId in
  await assigned_at <- now in
  let row := assignment_row assignment_id assigned_at assignment in
  run SheetsClient.append "ROLE_ASSIGNMENTS" [row] in
  ret {| RoleAssignment.assignment_id := JStr assignment_id;
         RoleAssignment.user_id := JStr (NewRoleAssignment.user_id assignment);
         RoleAssignment.role_id := JStr (NewRoleAssignment.role_id assignment);
         RoleAssignment.site_code := optional (NewRoleAssignment.site_code assignment);
         RoleAssignment.assigned_by := JStr (NewRoleAssignment.assigned_by assignment);
         RoleAssignment.assigned_at := JStr assigned_at;
         RoleAssignment.expires_at := optional (NewRoleAssignment.expires_at assignment);
         RoleAssignment.is_active := NewRoleAssignment.is_active assignment |}.

(** The row [revokeRole] writes back for an assignment. *)
Definition revoked_row (assignment : RoleAssignment.t) : list JsValue :=
  [ RoleAssignment.assignment_id assignment;
    RoleAssignment.user_id assignment;
    RoleAssignment.role_id assignment;
    js_or (RoleAssignment.site_code assignment) (JStr "");
    RoleAssignment.assigned_by assignment;
    RoleAssignment.assigned_at assignment;
    js_or (RoleAssignment.expires_at assignment) (JStr "");
    JStr "FALSE" ].

Definition revokeRole (assignmentId : string) : Async unit :=
  await rows <- SheetsClient.read "ROLE_ASSIGNMENTS" in
  let assignments := map mapRowToRoleAssignment (slice1 rows) in
  match findIndex (fun a => strict_eq (RoleAssignment.assignment_id a) (JStr assignmentId))
                  assignments with
  | None => throw (Error ("Assignment not found: " +:+ assignmentId))
  | Some index =>
      match assignments !! index with
      | None => throw (Error "Cannot set properties of undefined (setting 'is_active')")
      | Some assignment =>
          let rowNumber := (index + 2)%nat in
          SheetsClient.write "ROLE_ASSIGNMENTS"
            {| range_row := rowNumber; range_width := 8 |}
            [revoked_row assignment]
      end
  end.

Definition getModules : Async (list AppModule.t) :=
  await rows <- SheetsClient.read "MODULES" in
  ret (map mapRowToModule (slice1 rows)).

Definition getActiveModules : Async (list AppModule.t) :=
  await modules <- getModules in
  ret (sort_by_sort_order (filter (fun m => AppModule.is_active m) modules)).

Definition getPermissions (roleId : JsValue) : Async (list Permission.t) :=
  await rows <- SheetsClient.read "PERMISSIONS" in
  let permissions := map mapRowToPermission (slice1 rows) in
  ret (filter (fun p => strict_eq (Permission.role_id p) roleId
                        && Permission.is_active p) permissions).

(** The row [createSystemLog] appends. *)
Definition system_log_row (log_id timestamp : string) (log : SystemLog.t) : list JsValue :=
  [ JStr log_id;
    JStr timestamp;
    JStr (SystemLog.level log);
    JStr (or_empty (SystemLog.user_id log));
    JStr (or_empty (SystemLog.module_code log));
    JStr (or_empty (SystemLog.action log));
    JStr (SystemLog.message log);
    JStr (or_empty (SystemLog.details log));
    JStr (or_empty (SystemLog.correlation_id log));
    JStr (or_empty (SystemLog.ip_address log));
    JStr (or_empty (SystemLog.user_agent log)) ].

Definition createSystemLog (log : SystemLog.t) : Async unit :=
  await log_id <- generateId in
  await timestamp <- now in
  let row := system_log_row log_id timestamp log in
  SheetsClient.append "SYSTEM_LOG" [row].

End WithRuntime.
End sheetsAdapter.

(** ** lib/rbac/permissions *)

Section Resolver.
Context `{JsRuntime}.

Definition CACHE_TTL : N := 5 * 60 * 1000.

(** [null] is [None]. *)
Definition getCachedPermissions (userId : string) : Async (option (list UserPermission.t)) :=
  fun w =>
    match permissionCache w !! userId with
    | None => (Ok None, w)
    | Some entry =>
        if CacheEntry.expiresAt entry <? clock w
        then (Ok None, set_permissionCache (delete userId (permissionCache w)) w)
        else (Ok (Some (CacheEntry.permissions entry)), w)
    end.

Definition setCachedPermissions (userId : string) (permissions : list UserPermission.t)
  : Async unit :=
  fun w =>
    (Ok tt,
     set_permissionCache
       (<[userId := {| CacheEntry.permissions := permissions;
                       CacheEntry.expiresAt := clock w + CACHE_TTL |}]> (permissionCache w)) w).

Definition invalidatePermissionCache (userId : option string) : Async unit :=
  fun w =>
    match userId with
    | Some u =>
        if negb (String.eqb u "")
        then (Ok tt, set_permissionCache (delete u (permissionCache w)) w)
        else (Ok tt, set_permissionCache ∅ w)
    | None => (Ok tt, set_permissionCache ∅ w)
    end.

(** The loop [for (const assignment of assignments)] of [getUserRoles]. *)
Fixpoint roles_loop (assignments : list RoleAssignment.t) (roles : list UserRole.t)
  : Async (list UserRole.t) :=
  match assignments with
  | [] => ret roles
  | assignment :: rest =>
      await role <- sheetsAdapter.getRoleById (RoleAssignment.role_id assignment) in
      match role with
      | Some r =>
          if Role.is_active r
          then roles_loop rest
                 (roles ++ [ {| UserRole.role_id := Role.role_id r;
                                UserRole.role_code := Role.role_code r;
                                UserRole.role_name := Role.role_name r;
                                UserRole.site_code := RoleAssignment.site_code assignment |} ])
          else roles_loop rest roles
      | None => roles_loop rest roles
      end
  end.

Definition getUserRoles (userId : string) : Async (list UserRole.t) :=
  try_catch
    (await assignments <- sheetsAdapter.getRoleAssignments userId in
     roles_loop assignments [])
    (fun _ => ret []).

Definition toUserPermission (perm : Permission.t) : UserPermission.t :=
  {| UserPermission.module_code := Permission.module_code perm;
     UserPermission.action := Permission.action perm;
     UserPermission.resource := Permission.resource perm;
     UserPermission.conditions := safeJsonParse (Permission.conditions perm) (JsonObj []) |}.

(** The loop [for (const role of roles)] of [getUserPermissions]; the inner
    loop pushes one [UserPermission] per permission, in order. *)
Fixpoint permissions_loop (roles : list UserRole.t) (allPermissions : list UserPermission.t)
  : Async (list UserPermission.t) :=
  match roles with
  | [] => ret allPermissions
  | role :: rest =>
      await permissions <- sheetsAdapter.getPermissions (UserRole.role_id role) in
      permissions_loop rest (allPermissions ++ map toUserPermission permissions)
  end.

Definition getUserPermissions (userId : string) : Async (list UserPermission.t) :=
  await cached <- getCachedPermissions userId in
  match cached with
  | Some permissions => ret permissions
  | None =>
      try_catch
        (await roles <- getUserRoles userId in
         await allPermissions <- permissions_loop roles [] in
         run setCachedPermissions userId allPermissions in
         ret allPermissions)
        (fun _ => ret [])
  end.

(** The callback of [permissions.some] in [hasPermission]. *)
Definition permission_allows (moduleCode action : string) (resource : option string)
    (perm : UserPermission.t) : bool :=
  if negb (strict_eq (UserPermission.module_code perm) (JStr "*"))
     && negb (strict_eq (UserPermission.module_code perm) (JStr moduleCode))
  then false
  else if negb (strict_eq (UserPermission.action perm) (JStr "*"))
          && negb (strict_eq (UserPermission.action perm) (JStr action))
  then false
  else if given resource
          && negb (strict_eq (UserPermission.resource perm) (JStr "*"))
          && negb (strict_eq (UserPermission.resource perm) (optional resource))
  then false
  else true.

Definition hasPermission (userId moduleCode action : string) (resource : option string)
  : Async bool :=
  try_catch
    (await permissions <- getUserPermissions userId in
     ret (existsb (permission_allows moduleCode action resource) permissions))
    (fun _ => ret false).

Definition canAccessModule (userId moduleCode : string) : Async bool :=
  try_catch
    (await permissions <- getUserPermissions userId in
     ret (existsb (fun perm =>
                     strict_eq (UserPermission.module_code perm) (JStr "*")
                     || strict_eq (UserPermission.module_code perm) (JStr moduleCode))
                  permissions))
    (fun _ => ret false).

(** The loop [for (const perm of permissions)] of [getUserModules];
    [moduleCodes] is the set built so far. *)
Fixpoint modules_loop (permissions : list UserPermission.t) (moduleCodes : list JsValue)
  : Async (list JsValue) :=
  match permissions with
  | [] => ret moduleCodes
  | perm :: rest =>
      if strict_eq (UserPermission.module_code perm) (JStr "*")
      then await allModules <- sheetsAdapter.getActiveModules in
           ret (map AppModule.module_code allModules)
      else modules_loop rest (set_add (UserPermission.module_code perm) moduleCodes)
  end.

Definition getUserModules (userId : string) : Async (list JsValue) :=
  try_catch
    (await permissions <- getUserPermissions userId in
     modules_loop permissions [])
    (fun _ => ret []).

Definition hasRole (userId roleCode : string) : Async bool :=
  try_catch
    (await roles <- getUserRoles userId in
     ret (existsb (fun r => strict_eq (UserRole.role_code r) (JStr roleCode)) roles))
    (fun _ => ret false).

Definition isAdmin (userId : string) : Async bool :=
  await super <- hasRole userId "SUPER_ADMIN" in
  if super then ret true else hasRole userId "ADMIN".

(** ** lib/rbac/roles *)

Definition assignRole (userId roleId assignedBy : string) (siteCode expiresAt : option string)
  : Async unit :=
  run sheetsAdapter.assignRole
        {| NewRoleAssignment.user_id := userId;
           NewRoleAssignment.role_id := roleId;
           NewRoleAssignment.site_code := siteCode;
           NewRoleAssignment.assigned_by := assignedBy;
           NewRoleAssignment.expires_at := expiresAt;
           NewRoleAssignment.is_active := true |} in
  invalidatePermissionCache (Some userId).

Definition revokeRole (assignmentId userId : string) : Async unit :=
  run sheetsAdapter.revokeRole assignmentId in
  invalidatePermissionCache (Some userId).

End Resolver.

(** ** What the spreadsheet holds for a user

    The resolver's computation with the storage calls replaced by direct
    look-ups in a spreadsheet: what a resolution that meets no failure
    returns. *)

Section Stored.
Context `{JsRuntime}.

Definition stored_roles (s : Spreadsheet) : list Role.t :=
  map mapRowToRole (slice1 (sheet_rows s "ROLES")).

Definition stored_role (s : Spreadsheet) (roleId : JsValue) : option Role.t :=
  find_first (fun r => strict_eq (Role.role_id r) roleId) (stored_roles s).

Definition stored_assignments (s : Spreadsheet) (userId : string) : list RoleAssignment.t :=
  filter (fun a => strict_eq (RoleAssignment.user_id a) (JStr userId)
                   && RoleAssignment.is_active a)
         (map mapRowToRoleAssignment (slice1 (sheet_rows s "ROLE_ASSIGNMENTS"))).

Fixpoint collect_roles (s : Spreadsheet) (assignments : list RoleAssignment.t)
    (roles : list UserRole.t) : list UserRole.t :=
  match assignments with
  | [] => roles
  | assignment :: rest =>
      match stored_role s (RoleAssignment.role_id assignment) with
      | Some r =>
          if Role.is_active r
          then collect_roles s rest
                 (roles ++ [ {| UserRole.role_id := Role.role_id r;
                                UserRole.role_code := Role.role_code r;
                                UserRole.role_name := Role.role_name r;
                                UserRole.site_code := RoleAssignment.site_code assignment |} ])
          else collect_roles s rest roles
      | None => collect_roles s rest roles
      end
  end.

Definition stored_user_roles (s : Spreadsheet) (userId : string) : list UserRole.t :=
  collect_roles s (stored_assignments s userId) [].

Definition stored_permissions (s : Spreadsheet) (roleId : JsValue) : list Permission.t :=
  filter (fun p => strict_eq (Permission.role_id p) roleId && Permission.is_active p)
         (map mapRowToPermission (slice1 (sheet_rows s "PERMISSIONS"))).

Fixpoint collect_permissions (s : Spreadsheet) (roles : list UserRole.t)
    (allPermissions : list UserPermission.t) : list UserPermission.t :=
  match roles with
  | [] => allPermissions
  | role :: rest =>
      collect_permissions s rest
        (allPermissions ++ map toUserPermission (stored_permissions s (UserRole.role_id role)))
  end.

Definition stored_user_permissions (s : Spreadsheet) (userId : string)
  : list UserPermission.t :=
  collect_permissions s (stored_user_roles s userId) [].

(** The active modules of a spreadsheet, in sheet order. *)
Definition stored_active_modules (s : Spreadsheet) : list AppModule.t :=
  filter (fun m => AppModule.is_active m) (map mapRowToModule (slice1 (sheet_rows s "MODULES"))).

End Stored.

(** ** Conditions on the world *)

(** The storage layer raises on every call: every request is rejected. *)
Definition every_request_fails (w : World) : Prop :=
  forall n, failure (network w n) <> None.

(** The breaker lets calls through and no request from now on is rejected. *)
Definition healthy (w : World) : Prop :=
  CircuitBreaker.state (circuitBreaker w) = CLOSED
  /\ forall n, (requests w <= n)%nat -> failure (network w n) = None.

(** What a read-only operation may change: time passes and requests are
    sent (and the breaker keeps its accounts); the spreadsheet, the cache
    and the network's behaviour stay. *)
Definition reads_only (w w' : World) : Prop :=
  network w' = network w
  /\ permissionCache w' = permissionCache w
  /\ uuids w' = uuids w
  /\ spreadsheet w' = spreadsheet w
  /\ clock w <= clock w'
  /\ (requests w <= requests w')%nat.

(** The states the breaker is in between two calls. *)
Definition breaker_ok (cb : CircuitBreaker.t) : Prop :=
  match CircuitBreaker.state cb with
  | CLOSED => CircuitBreaker.failures cb < CircuitBreaker.threshold
  | OPEN =>
      CircuitBreaker.threshold <= CircuitBreaker.failures cb
      /\ exists t, CircuitBreaker.nextAttempt cb = Some t /\ 0 < t
  | HALF_OPEN => False
  end.

(** [failed_calls fn n w w']: from [w], [n] calls of [execute fn] in a row
    fail, time passing freely before each, and leave the world [w']. *)
Inductive failed_calls {A} (fn : Async A) : nat -> World -> World -> Prop :=
| failed_calls_none w : failed_calls fn 0 w w
| failed_calls_more n w w1 d e w2 :
    failed_calls fn n w w1 ->
    execute fn (advance d w1) = (Throw e, w2) ->
    failed_calls fn (S n) w w2.

(** ** Permission matching as the specification words it *)

(** A granted field matches a requested one exactly or by the wildcard. *)
Definition field_matches (granted : JsValue) (requested : string) : Prop :=
  granted = JStr requested \/ granted = JStr "*".

(** Module and action match and, when a resource is given, the resource
    matches. *)
Definition matches_when_given (moduleCode action : string) (resource : option string)
    (perm : UserPermission.t) : Prop :=
  field_matches (UserPermission.module_code perm) moduleCode
  /\ field_matches (UserPermission.action perm) action
  /\ match resource with
     | Some r => field_matches (UserPermission.resource perm) r
     | None => True
     end.

(** The same, with the resource compared only when it is given and not the
    empty string. *)
Definition matches_when_nonempty (moduleCode action : string) (resource : option string)
    (perm : UserPermission.t) : Prop :=
  field_matches (UserPermission.module_code perm) moduleCode
  /\ field_matches (UserPermission.action perm) action
  /\ match resource with
     | Some r => r = "" \/ field_matches (UserPermission.resource perm) r
     | None => True
     end.

(** ** Sample data *)

(** A runtime to evaluate examples with: [parseInt] on numeric cells only,
    [JSON.parse] always throwing, counters printed in decimal. *)
Definition sample_runtime : JsRuntime :=
  {| JSON_parse := fun _ => None;
     parseInt := fun v => match v with JNum n => Some n | _ => None end;
     randomUUID := fun n => "uuid-" +:+ pretty n;
     toISOString := fun t => pretty t |}.

Definition roles_header : list JsValue :=
  map JStr ["role_id"; "role_code"; "role_name"; "description"; "is_active";
            "created_at"; "updated_at"].

Definition assignments_header : list JsValue :=
  map JStr ["assignment_id"; "user_id"; "role_id"; "site_code"; "assigned_by";
            "assigned_at"; "expires_at"; "is_active"].

Definition permissions_header : list JsValue :=
  map JStr ["permission_id"; "role_id"; "module_code"; "action"; "resource";
            "conditions"; "is_active"; "created_at"; "updated_at"].

Definition admin_role_row : list JsValue :=
  map JStr ["r-admin"; "ADMIN"; "Administrator"; "Site-level admin access"; "TRUE";
            "2026-01-20T16:30:00.000Z"; "2026-01-20T16:30:00.000Z"].

(** An assignment of ADMIN to user [U], active, with the given expiry cell. *)
Definition admin_assignment_row (expires_at : string) : list JsValue :=
  map JStr ["a-1"; "U"; "r-admin"; ""; "SYSTEM"; "2026-01-20T16:30:00.000Z";
            expires_at; "TRUE"].

(** An active permission of ADMIN on HR/create with the given resource. *)
Definition hr_create_row (resource : string) : list JsValue :=
  map JStr ["p-1"; "r-admin"; "HR"; "create"; resource; ""; "TRUE";
            "2026-01-20T16:30:00.000Z"; "2026-01-20T16:30:00.000Z"].

Definition sample_spreadsheet (expires_at resource : string) : Spreadsheet :=
  <["ROLES" := [roles_header; admin_role_row]]>
  (<["ROLE_ASSIGNMENTS" := [assignments_header; admin_assignment_row expires_at]]>
  (<["PERMISSIONS" := [permissions_header; hr_create_row resource]]> ∅)).

Definition modules_header : list JsValue :=
  map JStr ["module_id"; "module_code"; "module_name"; "description"; "icon"; "route";
            "is_active"; "sort_order"; "created_at"; "updated_at"].

Definition module_row (code : string) (is_active : string) (sort_order : Z) : list JsValue :=
  [JStr ("m-" +:+ code); JStr code; JStr code; JStr ""; JStr "dashboard";
   JStr ("/" +:+ code); JStr is_active; JNum sort_order;
   JStr "2026-01-20T16:30:00.000Z"; JStr "2026-01-20T16:30:00.000Z"].

(** The role of user [U] is granted everything on everything; of the three
    registered modules, WMS is switched off. *)
Definition wildcard_spreadsheet : Spreadsheet :=
  <["MODULES" := [modules_header; module_row "DASHBOARD" "TRUE" 2;
                  module_row "WMS" "FALSE" 3; module_row "HR" "TRUE" 1]]>
  (<["PERMISSIONS" :=
       [permissions_header;
        map JStr ["p-2"; "r-admin"; "*"; "*"; "*"; ""; "TRUE";
                  "2026-01-20T16:30:00.000Z"; "2026-01-20T16:30:00.000Z"]]]>
     (sample_spreadsheet "" "*")).

Definition connection_reset : JsError :=
  {| err_code := Some "ECONNRESET"; err_status := None; err_message := "socket hang up" |}.

Definition always_ok : nat -> NetReply :=
  fun _ => {| latency := 40; failure := None |}.

Definition always_down : nat -> NetReply :=
  fun _ => {| latency := 40; failure := Some connection_reset |}.

(** The first [k] requests are rejected, the later ones answered. *)
Definition down_until (k : nat) : nat -> NetReply :=
  fun n => {| latency := 40;
              failure := if (n <? k)%nat then Some connection_reset else None |}.

Definition info_log : SystemLog.t :=
  {| SystemLog.level := "INFO"; SystemLog.user_id := Some "U";
     SystemLog.module_code := None; SystemLog.action := None;
     SystemLog.message := "role assigned"; SystemLog.details := None;
     SystemLog.correlation_id := None; SystemLog.ip_address := None;
     SystemLog.user_agent := None |}.

(** A fresh process on 2026-11-02T00:00:00Z: empty cache, new breaker. *)
Definition fresh_world (s : Spreadsheet) (net : nat -> NetReply) : World :=
  {| spreadsheet := s; clock := 1793577600000; network := net; requests := 0;
     circuitBreaker := CircuitBreaker.new; permissionCache := ∅; uuids := 0 |}.

(** * Further parts of the code *)

From Stdlib Require Import Sorting.Sorted.

(** ** lib/data/types: users and site configuration *)

Module User.
Record t : Type := mk {
  user_id : JsValue;
  email : JsValue;
  name : JsValue;
  auth_provider : JsValue;
  is_active : bool;
  created_at : JsValue;
  updated_at : JsValue;
  last_login_at : JsValue;
  metadata : JsValue
}.
End User.

Module NewUser.
(** The argument of [createUser]: a [User] without its timestamps, the
    identifier optional. *)
Record t : Type := mk {
  user_id : option string;
  email : string;
  name : string;
  auth_provider : string;
  is_active : bool;
  last_login_at : option string;
  metadata : option string
}.
End NewUser.

Module UserUpdates.
(** [Partial<User>]: [None] is a key that is not there. *)
Record t : Type := mk {
  user_id : option string;
  email : option string;
  name : option string;
  auth_provider : option string;
  is_active : option bool;
  created_at : option string;
  updated_at : option string;
  last_login_at : option string;
  metadata : option string
}.
End UserUpdates.

Module SiteConfig.
Record t : Type := mk {
  config_id : JsValue;
  site_code : JsValue;
  config_key : JsValue;
  config_value : JsValue;
  data_type : JsValue;
  description : JsValue;
  is_active : bool;
  created_at : JsValue;
  updated_at : JsValue
}.
End SiteConfig.

(** ** lib/data/sheets: the other row mappers *)

Definition mapRowToUser (row : list JsValue) : User.t :=
  {| User.user_id := cell row 0;
     User.email := cell row 1;
     User.name := cell row 2;
     User.auth_provider := cell row 3;
     User.is_active := parseBoolean (cell row 4);
     User.created_at := cell row 5;
     User.updated_at := cell row 6;
     User.last_login_at := js_or (cell row 7) JUndefined;
     User.metadata := js_or (cell row 8) JUndefined |}.

Definition mapRowToSiteConfig (row : list JsValue) : SiteConfig.t :=
  {| SiteConfig.config_id := cell row 0;
     SiteConfig.site_code := cell row 1;
     SiteConfig.config_key := cell row 2;
     SiteConfig.config_value := cell row 3;
     SiteConfig.data_type := cell row 4;
     SiteConfig.description := cell row 5;
     SiteConfig.is_active := parseBoolean (cell row 6);
     SiteConfig.created_at := cell row 7;
     SiteConfig.updated_at := cell row 8 |}.

(** ** lib/sheets/client: [batchRead] *)

(** The object [result] after the [forEach]: one key per range, a later
    range of the same name writing over an earlier one. The service
    answers one value range per requested range, in order; ranges are
    sheet names here, as in [read]. *)
Definition batch_result (s : Spreadsheet) (ranges : list string)
  : gmap string (list (list JsValue)) :=
  foldl (fun result range => <[range := sheet_rows s range]> result) ∅ ranges.

(** [values.batchGet] followed by the handler of [batchRead]. *)
Definition values_batchGet (ranges : list string)
  : Async (gmap string (list (list JsValue))) :=
  http_request (fun s => (batch_result s ranges, s)).

Definition batchRead (ranges : list string) : Async (gmap string (list (list JsValue))) :=
  execute (retryWithBackoff (values_batchGet ranges)).

(** ** lib/data/sheets: the other methods of the adapter *)

Module dataService.
Section WithRuntime.
Context `{JsRuntime}.

Definition getUsers : Async (list User.t) :=
  await rows <- SheetsClient.read "USERS" in
  ret (map mapRowToUser (slice1 rows)).

Definition getUserById (userId : string) : Async (option User.t) :=
  await users <- getUsers in
  ret (find_first (fun u => strict_eq (User.user_id u) (JStr userId)) users).

(** The row [createUser] and [updateUser] write for a user. *)
Definition user_row (user : User.t) : list JsValue :=
  [ User.user_id user;
    User.email user;
    User.name user;
    User.auth_provider user;
    JStr (if User.is_active user then "TRUE" else "FALSE");
    User.created_at user;
    User.updated_at user;
    js_or (User.last_login_at user) (JStr "");
    js_or (User.metadata user) (JStr "") ].

Definition createUser (user : NewUser.t) : Async User.t :=
  await user_id <-
    (if given (NewUser.user_id user) then ret (or_empty (NewUser.user_id user))
     else generateId) in
  await created_at <- now in
  await updated_at <- now in
  let newUser :=
    {| User.user_id := JStr user_id;
       User.email := JStr (NewUser.email user);
       User.name := JStr (NewUser.name user);
       User.auth_provider := JStr (NewUser.auth_provider user);
       User.is_active := NewUser.is_active user;
       User.created_at := JStr created_at;
       User.updated_at := JStr updated_at;
       User.last_login_at := optional (NewUser.last_login_at user);
       User.metadata := optional (NewUser.metadata user) |} in
  run SheetsClient.append "USERS" [user_row newUser] in
  ret newUser.

(** [{ ...user, ...updates }] field by field. *)
Definition overridden (old : JsValue) (update : option string) : JsValue :=
  match update with
  | Some v => JStr v
  | None => old
  end.

(** What [{ ...undefined }] leaves of a user: no field. *)
Definition no_user : User.t :=
  User.mk JUndefined JUndefined JUndefined JUndefined false
          JUndefined JUndefined JUndefined JUndefined.

Definition updateUser (userId : string) (updates : UserUpdates.t) : Async User.t :=
  await users <- getUsers in
  match findIndex (fun u => strict_eq (User.user_id u) (JStr userId)) users with
  | None => throw (Error ("User not found: " +:+ userId))
  | Some index =>
      let user := default no_user (users !! index) in
      await updated_at <- now in
      let updatedUser :=
        {| User.user_id := overridden (User.user_id user) (UserUpdates.user_id updates);
           User.email := overridden (User.email user) (UserUpdates.email updates);
           User.name := overridden (User.name user) (UserUpdates.name updates);
           User.auth_provider :=
             overridden (User.auth_provider user) (UserUpdates.auth_provider updates);
           User.is_active := default (User.is_active user) (UserUpdates.is_active updates);
           User.created_at :=
             overridden (User.created_at user) (UserUpdates.created_at updates);
           User.updated_at := JStr updated_at;
           User.last_login_at :=
             overridden (User.last_login_at user) (UserUpdates.last_login_at updates);
           User.metadata := overridden (User.metadata user) (UserUpdates.metadata updates) |} in
      let rowNumber := (index + 2)%nat in
      run SheetsClient.write "USERS" {| range_row := rowNumber; range_width := 9 |}
            [user_row updatedUser] in
      ret updatedUser
  end.

Definition getSiteConfig (siteCode : string) : Async (list SiteConfig.t) :=
  await rows <- SheetsClient.read "SITE_CONFIG" in
  let configs := map mapRowToSiteConfig (slice1 rows) in
  ret (filter (fun c => strict_eq (SiteConfig.site_code c) (JStr siteCode)
                        && SiteConfig.is_active c) configs).

(** [config?.config_value || null] *)
Definition getConfigValue (siteCode key : string) : Async JsValue :=
  await configs <- getSiteConfig siteCode in
  match find_first (fun c => strict_eq (SiteConfig.config_key c) (JStr key)) configs with
  | Some config => ret (js_or (SiteConfig.config_value config) JNull)
  | None => ret JNull
  end.

End WithRuntime.
End dataService.

(** ** The API routes that call the resolver and the adapter

    The handlers as [requireAuth] calls them, with the verified user's
    identifier; [NextResponse.json(body)] is [JsonBody body] and
    [NextResponse.json({ error }, { status })] is [JsonError status error]. *)

Inductive Response (B : Type) : Type :=
| JsonBody (body : B)
| JsonError (status : N) (error : string).
Arguments JsonBody {B} body.
Arguments JsonError {B} status error.

Module RolesRequest.
(** The body of POST /api/admin/roles, with the types [assignRole] and
    [revokeRole] declare for its fields. *)
Record t : Type := mk {
  action : string;
  userId : string;
  roleId : string;
  siteCode : option string;
  expiresAt : option string;
  assignmentId : string
}.
End RolesRequest.

Module AuthUser.
(** lib/auth/types: the verified user. *)
Record t : Type := mk {
  id : string;
  email : string;
  name : string
}.
End AuthUser.

Module LoginUser.
(** The [user] object of the login response. *)
Record t : Type := mk {
  id : JsValue;
  email : JsValue;
  name : JsValue
}.
End LoginUser.

Module Profile.
(** The [user] object of GET /api/me. *)
Record t : Type := mk {
  user_id : JsValue;
  email : JsValue;
  name : JsValue;
  is_active : bool;
  last_login_at : JsValue
}.
End Profile.

Section Routes.
Context `{JsRuntime}.

(** GET /api/roles *)
Definition GET_roles (user_id : string) : Async (Response (list UserRole.t)) :=
  try_catch
    (await roles <- getUserRoles user_id in
     ret (JsonBody roles))
    (fun error => ret (JsonError 500 (err_message error))).

(** GET /api/me *)
Definition GET_me (user_id : string) : Async (Response Profile.t) :=
  try_catch
    (await dbUser <- dataService.getUserById user_id in
     match dbUser with
     | None => ret (JsonError 404 "User not found")
     | Some dbUser =>
         ret (JsonBody {| Profile.user_id := User.user_id dbUser;
                          Profile.email := User.email dbUser;
                          Profile.name := User.name dbUser;
                          Profile.is_active := User.is_active dbUser;
                          Profile.last_login_at := User.last_login_at dbUser |})
     end)
    (fun error => ret (JsonError 500 (err_message error))).

(** GET /api/modules *)
Definition GET_modules (user_id : string) : Async (Response (list AppModule.t)) :=
  try_catch
    (await moduleCodes <- getUserModules user_id in
     await allModules <- sheetsAdapter.getActiveModules in
     let accessibleModules :=
       filter (fun m => bool_decide (AppModule.module_code m ∈ moduleCodes)) allModules in
     ret (JsonBody accessibleModules))
    (fun error => ret (JsonError 500 (err_message error))).

(** GET /api/admin/roles *)
Definition GET_admin_roles (user_id : string) : Async (Response (list Role.t)) :=
  try_catch
    (await userIsAdmin <- isAdmin user_id in
     if negb userIsAdmin
     then ret (JsonError 403 "Forbidden - Admin access required")
     else await roles <- sheetsAdapter.getRoles in
          ret (JsonBody roles))
    (fun error => ret (JsonError 500 (err_message error))).

(** POST /api/admin/roles; [JsonBody tt] is [{ success: true }]. *)
Definition POST_admin_roles (user_id : string) (body : RolesRequest.t)
  : Async (Response unit) :=
  try_catch
    (await userIsAdmin <- isAdmin user_id in
     if negb userIsAdmin
     then ret (JsonError 403 "Forbidden - Admin access required")
     else if String.eqb (RolesRequest.action body) "assign"
     then run assignRole (RolesRequest.userId body) (RolesRequest.roleId body) user_id
                (RolesRequest.siteCode body) (RolesRequest.expiresAt body) in
          ret (JsonBody tt)
     else if String.eqb (RolesRequest.action body) "revoke"
     then run revokeRole (RolesRequest.assignmentId body) (RolesRequest.userId body) in
          ret (JsonBody tt)
     else ret (JsonError 400 "Invalid action"))
    (fun error => ret (JsonError 500 (err_message error))).

(** POST /api/auth/login with [action: 'login'], from the point where
    [verifyFirebaseToken] has returned [user]. [dbUser.user_id] is
    [user.id]: [getUserById] found the row by strict equality with it. *)
Definition login (user : AuthUser.t) : Async (Response LoginUser.t) :=
  try_catch
    (await found <- dataService.getUserById (AuthUser.id user) in
     await dbUser <-
       match found with
       | None =>
           dataService.createUser
             {| NewUser.user_id := Some (AuthUser.id user);
                NewUser.email := AuthUser.email user;
                NewUser.name := AuthUser.name user;
                NewUser.auth_provider := "google";
                NewUser.is_active := true;
                NewUser.last_login_at := None;
                NewUser.metadata := None |}
       | Some dbUser =>
           await last_login_at <- now in
           run dataService.updateUser (AuthUser.id user)
                 {| UserUpdates.user_id := None; UserUpdates.email := None;
                    UserUpdates.name := None; UserUpdates.auth_provider := None;
                    UserUpdates.is_active := None; UserUpdates.created_at := None;
                    UserUpdates.updated_at := None;
                    UserUpdates.last_login_at := Some last_login_at;
                    UserUpdates.metadata := None |} in
           ret dbUser
       end in
     ret (JsonBody {| LoginUser.id := User.user_id dbUser;
                  LoginUser.email := User.email dbUser;
                  LoginUser.name := User.name dbUser |}))
    (fun error =>
       ret (JsonError 401 (if String.eqb (err_message error) ""
                           then "Authentication failed"
                           else err_message error))).

End Routes.

(** ** Conditions and measures used below *)

(** [m] keeps [P]: when [P] holds before, it holds after, whatever [m]
    returns or throws. *)
Definition keeps {A} (P : World -> Prop) (m : Async A) : Prop :=
  forall w r w', P w -> m w = (r, w') -> P w'.

(** No entry of the cache expires more than the time to live from now. *)
Definition cache_fresh (w : World) : Prop :=
  forall userId entry,
    permissionCache w !! userId = Some entry ->
    CacheEntry.expiresAt entry <= clock w + CACHE_TTL.

(** The time [count] requests take, from request number [first] on. *)
Fixpoint latency_sum (net : nat -> NetReply) (first count : nat) : N :=
  match count with
  | O => 0
  | S count' => latency (net first) + latency_sum net (S first) count'
  end.

(** The time [retryWithBackoff] has slept in all when it has retried
    [retries] times. *)
Definition slept_after (retries : nat) : N := nth retries [0; 200; 700] 0.

(** An assignment switched off. *)
Definition set_inactive (a : RoleAssignment.t) : RoleAssignment.t :=
  {| RoleAssignment.assignment_id := RoleAssignment.assignment_id a;
     RoleAssignment.user_id := RoleAssignment.user_id a;
     RoleAssignment.role_id := RoleAssignment.role_id a;
     RoleAssignment.site_code := RoleAssignment.site_code a;
     RoleAssignment.assigned_by := RoleAssignment.assigned_by a;
     RoleAssignment.assigned_at := RoleAssignment.assigned_at a;
     RoleAssignment.expires_at := RoleAssignment.expires_at a;
     RoleAssignment.is_active := false |}.

(** The role a user gets from an assignment: the first row of ROLES with the
    assignment's role id, if it is active. *)
Definition role_of_assignment (s : Spreadsheet) (a : RoleAssignment.t) : option UserRole.t :=
  match stored_role s (RoleAssignment.role_id a) with
  | Some r =>
      if Role.is_active r
      then Some {| UserRole.role_id := Role.role_id r;
                   UserRole.role_code := Role.role_code r;
                   UserRole.role_name := Role.role_name r;
                   UserRole.site_code := RoleAssignment.site_code a |}
      else None
  | None => None
  end.

(** The users a spreadsheet holds. *)
Definition stored_users (s : Spreadsheet) : list User.t :=
  map mapRowToUser (slice1 (sheet_rows s "USERS")).

(** The breaker is in one of the states it is in between two calls. *)
Definition breaker_sound (w : World) : Prop := breaker_ok (circuitBreaker w).

(** The order [getActiveModules] sorts by. *)
Definition by_sort_order (a b : AppModule.t) : Prop :=
  (AppModule.sort_order a <= AppModule.sort_order b)%Z.

(** The user [createUser] builds in world [w]. *)
Definition created_user `{JsRuntime} (user : NewUser.t) (w : World) : User.t :=
  {| User.user_id :=
       JStr (if given (NewUser.user_id user) then or_empty (NewUser.user_id user)
             else randomUUID (uuids w));
     User.email := JStr (NewUser.email user);
     User.name := JStr (NewUser.name user);
     User.auth_provider := JStr (NewUser.auth_provider user);
     User.is_active := NewUser.is_active user;
     User.created_at := JStr (toISOString (clock w));
     User.updated_at := JStr (toISOString (clock w));
     User.last_login_at := optional (NewUser.last_login_at user);
     User.metadata := optional (NewUser.metadata user) |}.

(** [{ ...user, ...updates, updated_at }] *)
Definition updated_user (user : User.t) (updates : UserUpdates.t) (updated_at : string)
  : User.t :=
  {| User.user_id :=
       dataService.overridden (User.user_id user) (UserUpdates.user_id updates);
     User.email := dataService.overridden (User.email user) (UserUpdates.email updates);
     User.name := dataService.overridden (User.name user) (UserUpdates.name updates);
     User.auth_provider :=
       dataService.overridden (User.auth_provider user) (UserUpdates.auth_provider updates);
     User.is_active := default (User.is_active user) (UserUpdates.is_active updates);
     User.created_at :=
       dataService.overridden (User.created_at user) (UserUpdates.created_at updates);
     User.updated_at := JStr updated_at;
     User.last_login_at :=
       dataService.overridden (User.last_login_at user) (UserUpdates.last_login_at updates);
     User.metadata :=
       dataService.overridden (User.metadata user) (UserUpdates.metadata updates) |}.

(** The user of identifier [userId], as [find] and [findIndex] look for it. *)
Definition has_user_id (userId : string) (u : User.t) : bool :=
  strict_eq (User.user_id u) (JStr userId).

(** A USERS sheet with one user, [U], who has not logged in yet. *)
Definition users_header : list JsValue :=
  map JStr ["user_id"; "email"; "name"; "auth_provider"; "is_active"; "created_at";
            "updated_at"; "last_login_at"; "metadata"].

Definition user_U_row : list JsValue :=
  [JStr "U"; JStr "admin@crystalcore.com"; JStr "System Administrator"; JStr "email";
   JStr "TRUE"; JStr "2026-01-20T16:30:00.000Z"; JStr "2026-01-20T16:30:00.000Z";
   JStr ""; JStr ""].

Definition users_spreadsheet : Spreadsheet := <["USERS" := [users_header; user_U_row]]> ∅.

Definition new_user_V : NewUser.t :=
  {| NewUser.user_id := Some "V"; NewUser.email := "v@crystalcore.com";
     NewUser.name := "V"; NewUser.auth_provider := "google"; NewUser.is_active := true;
     NewUser.last_login_at := None; NewUser.metadata := None |}.

Definition rename_to (name : string) : UserUpdates.t :=
  {| UserUpdates.user_id := None; UserUpdates.email := None;
     UserUpdates.name := Some name; UserUpdates.auth_provider := None;
     UserUpdates.is_active := None; UserUpdates.created_at := None;
     UserUpdates.updated_at := None; UserUpdates.last_login_at := None;
     UserUpdates.metadata := None |}.

(** The updates a login makes: the time of the login and nothing else. *)
Definition login_stamp (last_login_at : string) : UserUpdates.t :=
  {| UserUpdates.user_id := None; UserUpdates.email := None;
     UserUpdates.name := None; UserUpdates.auth_provider := None;
     UserUpdates.is_active := None; UserUpdates.created_at := None;
     UserUpdates.updated_at := None;
     UserUpdates.last_login_at := Some last_login_at;
     UserUpdates.metadata := None |}.

Definition auth_user_V : AuthUser.t :=
  {| AuthUser.id := "V"; AuthUser.email := "v@crystalcore.com"; AuthUser.name := "V" |}.

Definition auth_user_U : AuthUser.t :=
  {| AuthUser.id := "U"; AuthUser.email := "new-address@crystalcore.com";
     AuthUser.name := "U" |}.

(** A SITE_CONFIG sheet: a currency for site HQ, and a setting of no
    value. *)
Definition config_header : list JsValue :=
  map JStr ["config_id"; "site_code"; "config_key"; "config_value"; "data_type";
            "description"; "is_active"; "created_at"; "updated_at"].

Definition config_row (key value : string) : list JsValue :=
  [JStr ("c-" +:+ key); JStr "HQ"; JStr key; JStr value; JStr "string"; JStr "";
   JStr "TRUE"; JStr "2026-01-20T16:30:00.000Z"; JStr "2026-01-20T16:30:00.000Z"].

Definition config_spreadsheet : Spreadsheet :=
  <["SITE_CONFIG" := [config_header; config_row "currency" "USD"; config_row "motd" ""]]> ∅.

Definition assign_request : RolesRequest.t :=
  {| RolesRequest.action := "assign"; RolesRequest.userId := "X";
     RolesRequest.roleId := "r-admin"; RolesRequest.siteCode := None;
     RolesRequest.expiresAt := None; RolesRequest.assignmentId := "" |}.

(** ** Effective roles and permissions, in the specification's words

    The specification calls a role assignment effective only if the
    assignment and the role it refers to are active and, if an expiry is
    set, the current time is before it; a permission is effective only if
    it is active; and a user's effective permissions are the union of the
    effective permissions of the user's effective roles. These
    definitions follow those words, to be compared with what the code
    computes. The code compares no expiry with the clock anywhere, so how
    a timestamp reads as an instant is left open: [is_past expires_at now]
    says whether the timestamp [expires_at] is not after [now]. *)

Section Effective.
Context `{JsRuntime}.
Variable is_past : string -> N -> bool.

(** An expiry is set when the cell holds a string ([mapRowToRoleAssignment]
    turns an empty cell into [undefined]). *)
Definition expired (expires_at : JsValue) (now : N) : bool :=
  match expires_at with
  | JStr timestamp => is_past timestamp now
  | _ => false
  end.

Definition effective_assignments (s : Spreadsheet) (now : N) (userId : string)
  : list RoleAssignment.t :=
  filter (fun a => negb (expired (RoleAssignment.expires_at a) now))
         (stored_assignments s userId).

Definition effective_roles (s : Spreadsheet) (now : N) (userId : string) : list UserRole.t :=
  omap (role_of_assignment s) (effective_assignments s now userId).

Definition effective_permissions (s : Spreadsheet) (now : N) (userId : string)
  : list UserPermission.t :=
  concat (map (fun role => map toUserPermission
                               (stored_permissions s (UserRole.role_id role)))
              (effective_roles s now userId)).

End Effective.

(** How the sample timestamps read at the sample clock, midnight of
    2026-11-02 in UTC: of two ISO 8601 timestamps of [toISOString]'s
    format the earlier one is the smaller string. *)
Definition sample_is_past (expires_at : string) (now : N) : bool :=
  String.ltb expires_at "2026-11-02T00:00:00.000Z".

(** The sheets of [wildcard_spreadsheet] with the given expiry cell in the
    assignment of ADMIN to user [U]. *)
Definition expiring_wildcard_spreadsheet (expires_at : string) : Spreadsheet :=
  <["MODULES" := [modules_header; module_row "DASHBOARD" "TRUE" 2;
                  module_row "WMS" "FALSE" 3; module_row "HR" "TRUE" 1]]>
  (<["PERMISSIONS" :=
       [permissions_header;
        map JStr ["p-2"; "r-admin"; "*"; "*"; "*"; ""; "TRUE";
                  "2026-01-20T16:30:00.000Z"; "2026-01-20T16:30:00.000Z"]]]>
     (sample_spreadsheet expires_at "*")).

(** ** A resolution in flight

    An [async] function that awaits is suspended, and other handlers run,
    until it is resumed. [getUserPermissions] awaits inside its [try], on
    [getUserRoles] and on [dataService.getPermissions] for each role. The
    two definitions cut it where it holds its roles and awaits the
    permissions of the first one, the request still to be served: run one
    after the other they are [getUserPermissions]
    ([getUserPermissions_in_two_steps]); with another handler run in
    between they are a resolution that the other handler overtakes. *)

Section InFlight.
Context `{JsRuntime}.

(** From the call to the suspension: [inl] is a call that has ended on a
    cache hit, [inr] holds the roles of a call that is suspended. *)
Definition getUserPermissions_suspended (userId : string)
  : Async (list UserPermission.t + list UserRole.t) :=
  await cached <- getCachedPermissions userId in
  match cached with
  | Some permissions => ret (inl permissions)
  | None =>
      await roles <- getUserRoles userId in
      ret (inr roles)
  end.

(** From the resumption to the end: the rest of the [try] block, and its
    [catch]. *)
Definition getUserPermissions_resumed (userId : string) (roles : list UserRole.t)
  : Async (list UserPermission.t) :=
  try_catch
    (await allPermissions <- permissions_loop roles [] in
     run setCachedPermissions userId allPermissions in
     ret allPermissions)
    (fun _ => ret []).

End InFlight.

(** * Properties *)

(** *** Case folding *)

Lemma lower_upper_char c : lower_char (upper_char c) = lower_char c.
Proof. destruct c as [[] [] [] [] [] [] [] []]; reflexivity. Qed.

Lemma upper_lower_char c : upper_char (lower_char c) = upper_char c.
Proof. destruct c as [[] [] [] [] [] [] [] []]; reflexivity. Qed.

Lemma toLowerCase_toUpperCase s : toLowerCase (toUpperCase s) = toLowerCase s.
Proof. induction s as [|c r IH]; simpl; [done|]. by rewrite lower_upper_char, IH. Qed.

Lemma toUpperCase_toLowerCase s : toUpperCase (toLowerCase s) = toUpperCase s.
Proof. induction s as [|c r IH]; simpl; [done|]. by rewrite upper_lower_char, IH. Qed.

Lemma toUpperCase_eq_iff s t :
  toUpperCase s = toUpperCase t <-> eq_ignore_case s t.
Proof.
  unfold eq_ignore_case. split; intros H.
  - by rewrite <- (toLowerCase_toUpperCase s), H, toLowerCase_toUpperCase.
  - by rewrite <- (toUpperCase_toLowerCase s), H, toUpperCase_toLowerCase.
Qed.

Lemma parseBoolean_string s :
  parseBoolean (JStr s) = true <-> eq_ignore_case s "TRUE".
Proof.
  simpl. rewrite String.eqb_eq. apply (toUpperCase_eq_iff s "TRUE").
Qed.

(** C10. A boolean cell deserializes to [true] exactly when it is the boolean
    [true] or a string equal to "TRUE" up to case; everything else, an
    absent or empty cell included, deserializes to [false]; and the
    [is_active] field of a mapped role assignment, role, permission or
    module is [parseBoolean] of its cell. *)
Theorem parseBoolean_true_iff :
  (forall v : JsValue,
      parseBoolean v = true <->
      v = JBool true \/ exists s, v = JStr s /\ eq_ignore_case s "TRUE")
  /\ parseBoolean JUndefined = false
  /\ parseBoolean JNull = false
  /\ parseBoolean (JStr "") = false
  /\ (forall n, parseBoolean (JNum n) = false)
  /\ (forall row, RoleAssignment.is_active (mapRowToRoleAssignment row)
                  = parseBoolean (cell row 7))
  /\ (forall row, Role.is_active (mapRowToRole row) = parseBoolean (cell row 4))
  /\ (forall row, Permission.is_active (mapRowToPermission row)
                  = parseBoolean (cell row 6))
  /\ (forall (rt : JsRuntime) row,
         AppModule.is_active (mapRowToModule row) = parseBoolean (cell row 6)).
Proof.
  repeat split; try reflexivity.
  - intros Hv. destruct v as [| |b|n|s]; simpl in Hv; try discriminate.
    + left. by subst.
    + right. exists s. split; [done|]. by apply parseBoolean_string.
  - intros [->|(s & -> & Hs)]; [done|]. by apply parseBoolean_string.
Qed.

(** ** Sequencing *)

Lemma bind_ok {A B} (m : Async A) (k : A -> Async B) w a w' :
  m w = (Ok a, w') -> bind m k w = k a w'.
Proof. unfold bind. by intros ->. Qed.

Lemma bind_throw {A B} (m : Async A) (k : A -> Async B) w e w' :
  m w = (Throw e, w') -> bind m k w = (Throw e, w').
Proof. unfold bind. by intros ->. Qed.

Lemma try_catch_ok {A} (body : Async A) handler w a w' :
  body w = (Ok a, w') -> try_catch body handler w = (Ok a, w').
Proof. unfold try_catch. by intros ->. Qed.

Lemma try_catch_throw {A} (body : Async A) handler w e w' :
  body w = (Throw e, w') -> try_catch body handler w = handler e w'.
Proof. unfold try_catch. by intros ->. Qed.

(** A [try] whose [catch] returns a value always returns. *)
Lemma try_catch_returns {A} (body : Async A) (fallback : A) w :
  exists a w', try_catch body (fun _ => ret fallback) w = (Ok a, w').
Proof. unfold try_catch. destruct (body w) as [[a|e] w']; by eexists _, _. Qed.

(** ** One call of the Sheets client *)

Lemma retry_loop_frame {A} (eff : Spreadsheet -> A * Spreadsheet) m k :
  forall i w r w',
    retry_loop (http_request eff) m i k w = (r, w') ->
    network w' = network w
    /\ circuitBreaker w' = circuitBreaker w
    /\ permissionCache w' = permissionCache w
    /\ uuids w' = uuids w
    /\ clock w <= clock w'
    /\ (requests w <= requests w' <= requests w + k)%nat
    /\ (k <> 0%nat -> requests w < requests w')%nat
    /\ match r with
       | Ok a => a = fst (eff (spreadsheet w)) /\ spreadsheet w' = snd (eff (spreadsheet w))
       | Throw _ => spreadsheet w' = spreadsheet w
       end.
Proof.
  induction k as [|k IH]; intros i w r w' Hrun; simpl in Hrun.
  - unfold throw in Hrun. injection Hrun as <- <-.
    repeat split; try done; lia.
  - unfold try_catch, http_request in Hrun.
    destruct (failure (network w (requests w))) as [e|] eqn:Hfail.
    + destruct (negb (isRetryable e) || Nat.eqb i (m - 1)).
      * unfold throw in Hrun. injection Hrun as <- <-. simpl.
        repeat split; try done; lia.
      * unfold bind, sleep in Hrun.
        apply IH in Hrun. simpl in Hrun.
        destruct Hrun as (Hn & Hb & Hc & Hu & Ht & Hq & _ & Hs).
        repeat split; try done; try lia.
    + simpl in Hrun. destruct (eff (spreadsheet w)) as [a s] eqn:Heff.
      injection Hrun as <- <-. simpl.
      repeat split; try done; lia.
Qed.

Lemma execute_frame {A} (eff : Spreadsheet -> A * Spreadsheet) w r w' :
  execute (retryWithBackoff (http_request eff)) w = (r, w') ->
  network w' = network w
  /\ permissionCache w' = permissionCache w
  /\ uuids w' = uuids w
  /\ clock w <= clock w'
  /\ (requests w <= requests w' <= requests w + 3)%nat
  /\ match r with
     | Ok a => a = fst (eff (spreadsheet w)) /\ spreadsheet w' = snd (eff (spreadsheet w))
     | Throw _ => spreadsheet w' = spreadsheet w
     end.
Proof.
  unfold execute, retryWithBackoff. intros Hrun.
  destruct (bool_decide (CircuitBreaker.state (circuitBreaker w) = OPEN)
            && CircuitBreaker.cooling_down (circuitBreaker w) (clock w)).
  { injection Hrun as <- <-. repeat split; try done; lia. }
  match type of Hrun with
  | context [retry_loop ?f ?m ?i ?k ?w0] =>
      destruct (retry_loop f m i k w0) as [r1 w1] eqn:Hloop
  end.
  apply retry_loop_frame in Hloop.
  destruct Hloop as (Hn & Hb & Hc & Hu & Ht & Hq & _ & Hs).
  destruct (bool_decide (CircuitBreaker.state (circuitBreaker w) = OPEN));
    destruct r1; injection Hrun as <- <-; simpl in *;
    repeat split; try done; try lia; tauto.
Qed.

(** ** Fail-closed reads *)

Lemma every_request_fails_same_network w w' :
  network w' = network w -> every_request_fails w -> every_request_fails w'.
Proof. unfold every_request_fails. intros -> Hf. exact Hf. Qed.

Lemma retry_loop_all_fail {A} (eff : Spreadsheet -> A * Spreadsheet) m k :
  forall i w,
    every_request_fails w ->
    exists e, fst (retry_loop (http_request eff) m i k w) = Throw e.
Proof.
  induction k as [|k IH]; intros i w Hdown; simpl.
  - eexists. reflexivity.
  - unfold try_catch, http_request.
    destruct (failure (network w (requests w))) as [e|] eqn:Hfail;
      [|by destruct (Hdown (requests w))].
    destruct (negb (isRetryable e) || Nat.eqb i (m - 1)).
    + exists e. reflexivity.
    + unfold bind, sleep. apply IH.
      by apply (every_request_fails_same_network w).
Qed.

Lemma execute_all_fail {A} (eff : Spreadsheet -> A * Spreadsheet) w :
  every_request_fails w ->
  exists e w',
    execute (retryWithBackoff (http_request eff)) w = (Throw e, w')
    /\ network w' = network w
    /\ permissionCache w' = permissionCache w.
Proof.
  intros Hdown.
  destruct (execute (retryWithBackoff (http_request eff)) w) as [r w'] eqn:Hrun.
  destruct (execute_frame _ _ _ _ Hrun) as (Hn & Hc & _).
  assert (exists e, r = Throw e) as [e ->]; [|by exists e, w'].
  unfold execute, retryWithBackoff in Hrun.
  destruct (bool_decide (CircuitBreaker.state (circuitBreaker w) = OPEN)
            && CircuitBreaker.cooling_down (circuitBreaker w) (clock w)).
  { injection Hrun as <- <-. by eexists. }
  match type of Hrun with
  | context [retry_loop ?f ?m ?i ?k ?w0] =>
      destruct (retry_loop_all_fail eff m k i w0) as [e He];
        [by destruct (bool_decide _)|];
      destruct (retry_loop f m i k w0) as [r1 w1]
  end.
  simpl in He. subst r1. injection Hrun as <- <-. by eexists.
Qed.

Section FailClosed.
Context `{JsRuntime}.

Lemma getUserRoles_all_fail userId w :
  every_request_fails w ->
  exists w',
    getUserRoles userId w = (Ok [], w')
    /\ network w' = network w
    /\ permissionCache w' = permissionCache w.
Proof.
  intros Hdown.
  unfold getUserRoles, try_catch, bind, sheetsAdapter.getRoleAssignments,
    SheetsClient.read, values_get, bind.
  destruct (execute_all_fail (fun s => (sheet_rows s "ROLE_ASSIGNMENTS", s)) w Hdown)
    as (e & w' & -> & Hn & Hc).
  by exists w'.
Qed.

Lemma getUserPermissions_all_fail userId w :
  every_request_fails w ->
  permissionCache w !! userId = None ->
  exists w',
    getUserPermissions userId w = (Ok [], w')
    /\ network w' = network w
    /\ permissionCache w' !! userId
       = Some {| CacheEntry.permissions := []; CacheEntry.expiresAt := clock w' + CACHE_TTL |}.
Proof.
  intros Hdown Hmiss.
  destruct (getUserRoles_all_fail userId w Hdown) as (w' & Hroles & Hn & Hc).
  unfold getUserPermissions, bind, getCachedPermissions, try_catch.
  rewrite Hmiss, Hroles. simpl.
  eexists. split; [reflexivity|]. simpl. split; [done|].
  by rewrite lookup_insert_eq.
Qed.

Lemma hasRole_all_fail userId roleCode w :
  every_request_fails w ->
  exists w', hasRole userId roleCode w = (Ok false, w') /\ network w' = network w.
Proof.
  intros Hdown.
  destruct (getUserRoles_all_fail userId w Hdown) as (w' & Hroles & Hn & _).
  unfold hasRole, try_catch, bind. rewrite Hroles. by exists w'.
Qed.

(** C2. When every request to the store is rejected and the user has no
    cached entry, the three boolean checks answer [false], the three
    listings answer the empty list, and each of the six returns normally. *)
Theorem fail_closed_when_store_is_down (userId : string) (w : World) :
  every_request_fails w ->
  permissionCache w !! userId = None ->
  (forall moduleCode action resource,
      fst (hasPermission userId moduleCode action resource w) = Ok false)
  /\ (forall moduleCode, fst (canAccessModule userId moduleCode w) = Ok false)
  /\ fst (isAdmin userId w) = Ok false
  /\ fst (getUserRoles userId w) = Ok []
  /\ fst (getUserPermissions userId w) = Ok []
  /\ fst (getUserModules userId w) = Ok [].
Proof.
  intros Hdown Hmiss.
  destruct (getUserPermissions_all_fail userId w Hdown Hmiss) as (wp & Hperms & _).
  destruct (getUserRoles_all_fail userId w Hdown) as (wr & Hroles & _).
  repeat split.
  - intros. unfold hasPermission, try_catch, bind. by rewrite Hperms.
  - intros. unfold canAccessModule, try_catch, bind. by rewrite Hperms.
  - destruct (hasRole_all_fail userId "SUPER_ADMIN" w Hdown) as (w1 & H1 & Hn1).
    destruct (hasRole_all_fail userId "ADMIN" w1) as (w2 & H2 & _).
    { by apply (every_request_fails_same_network w). }
    unfold isAdmin, bind. by rewrite H1, H2.
  - by rewrite Hroles.
  - by rewrite Hperms.
  - unfold getUserModules, try_catch, bind. by rewrite Hperms.
Qed.

End FailClosed.

(** C2 at work: a fresh process whose store is unreachable. *)
Lemma fail_closed_when_store_is_down_sample :
  let w := fresh_world (sample_spreadsheet "" "*") always_down in
  (forall moduleCode action resource,
      fst (@hasPermission sample_runtime "U" moduleCode action resource w) = Ok false)
  /\ (forall moduleCode, fst (@canAccessModule sample_runtime "U" moduleCode w) = Ok false)
  /\ fst (isAdmin "U" w) = Ok false
  /\ fst (getUserRoles "U" w) = Ok []
  /\ fst (@getUserPermissions sample_runtime "U" w) = Ok []
  /\ fst (@getUserModules sample_runtime "U" w) = Ok [].
Proof.
  intros w.
  apply (@fail_closed_when_store_is_down sample_runtime "U" w).
  - intros n. discriminate.
  - reflexivity.
Defined.

(** ** Calls that go through *)

Lemma retry_loop_first_ok {A} (eff : Spreadsheet -> A * Spreadsheet) m i k w :
  failure (network w (requests w)) = None ->
  retry_loop (http_request eff) m i (S k) w
  = (Ok (fst (eff (spreadsheet w))),
     set_spreadsheet (snd (eff (spreadsheet w)))
       (answered (latency (network w (requests w))) w)).
Proof.
  intros Hok. simpl. unfold try_catch, http_request. rewrite Hok. simpl.
  by destruct (eff (spreadsheet w)).
Qed.

Lemma execute_healthy {A} (eff : Spreadsheet -> A * Spreadsheet) w :
  healthy w ->
  exists w',
    execute (retryWithBackoff (http_request eff)) w = (Ok (fst (eff (spreadsheet w))), w')
    /\ healthy w'
    /\ spreadsheet w' = snd (eff (spreadsheet w))
    /\ permissionCache w' = permissionCache w
    /\ uuids w' = uuids w
    /\ requests w' = S (requests w)
    /\ network w' = network w
    /\ clock w <= clock w'.
Proof.
  intros [Hclosed Hnet].
  unfold execute, retryWithBackoff.
  rewrite bool_decide_eq_false_2 by (rewrite Hclosed; discriminate).
  cbn [andb].
  rewrite retry_loop_first_ok by (apply Hnet; lia).
  eexists. split; [reflexivity|]. simpl.
  repeat split; try done; try lia.
  intros n Hn. simpl in *. apply Hnet. lia.
Qed.

(** ** The system log *)

(** C9, as the code has it. [createSystemLog] settles as its append to
    SYSTEM_LOG settles: when the append succeeds the row is at the end of
    the sheet and the call returns normally; when the append throws,
    the same error reaches the caller and nothing is written. *)
Theorem createSystemLog_settles_as_append `{JsRuntime} (log : SystemLog.t) (w : World) :
  let row := sheetsAdapter.system_log_row (randomUUID (uuids w)) (toISOString (clock w)) log in
  exists r w',
    sheetsAdapter.createSystemLog log w = (r, w')
    /\ SheetsClient.append "SYSTEM_LOG" [row] (next_uuid w) = (r, w')
    /\ match r with
       | Ok _ =>
           spreadsheet w'
           = <["SYSTEM_LOG" := sheet_rows (spreadsheet w) "SYSTEM_LOG" ++ [row]]> (spreadsheet w)
       | Throw _ => spreadsheet w' = spreadsheet w
       end.
Proof.
  intros row.
  destruct (SheetsClient.append "SYSTEM_LOG" [row] (next_uuid w)) as [r w'] eqn:Happend.
  exists r, w'. split; [|split; [reflexivity|]].
  - unfold sheetsAdapter.createSystemLog, bind, generateId, now. simpl. exact Happend.
  - unfold SheetsClient.append, values_append in Happend.
    apply execute_frame in Happend.
    destruct Happend as (_ & _ & _ & _ & _ & Hs).
    destruct r; simpl in Hs; tauto.
Qed.

(** C9, as stated, fails: with the store unreachable, recording a system
    log event rejects with the network error. *)
Lemma createSystemLog_raises :
  fst (@sheetsAdapter.createSystemLog sample_runtime info_log (fresh_world ∅ always_down))
  = Throw connection_reset.
Proof. vm_compute. reflexivity. Qed.

(** ** Role assignments past their expiry *)

(** C1 on the code. User U holds one active assignment of the active role
    ADMIN; whatever the assignment's [expires_at] cell holds, a date years
    before the clock included, [getUserRoles] returns ADMIN. *)
Theorem getUserRoles_ignores_expires_at (expires_at : string) :
  fst (getUserRoles "U"
         (fresh_world (sample_spreadsheet expires_at "*") always_ok))
  = Ok [ {| UserRole.role_id := JStr "r-admin";
            UserRole.role_code := JStr "ADMIN";
            UserRole.role_name := JStr "Administrator";
            UserRole.site_code := JUndefined |} ].
Proof. vm_compute. reflexivity. Qed.

(** ** Caching after a failed role lookup *)

(** C4 on the code. The store rejects the first three requests (one read
    with its retries) and answers afterwards. The first
    [getUserPermissions "U"] returns the empty list and leaves a cache
    entry holding the empty list; a second call one second later is served
    from that entry, sends no request, and returns the empty list although
    the spreadsheet grants U a permission. *)
Theorem getUserPermissions_caches_failed_role_lookup :
  let w := fresh_world (sample_spreadsheet "" "*") (down_until 3) in
  let '(r1, w1) := @getUserPermissions sample_runtime "U" w in
  let '(r2, w2) := @getUserPermissions sample_runtime "U" (advance 1000 w1) in
  permissionCache w !! "U" = None
  /\ r1 = Ok []
  /\ permissionCache w1 !! "U"
     = Some {| CacheEntry.permissions := [];
               CacheEntry.expiresAt := clock w1 + CACHE_TTL |}
  /\ r2 = Ok []
  /\ requests w2 = requests w1
  /\ @stored_user_permissions sample_runtime (spreadsheet w1) "U"
     = [ {| UserPermission.module_code := JStr "HR";
            UserPermission.action := JStr "create";
            UserPermission.resource := JStr "*";
            UserPermission.conditions := JsonObj [] |} ].
Proof. vm_compute. repeat split. Qed.

(** ** Read-only operations leave the cache and the spreadsheet alone *)

Lemma reads_only_refl w : reads_only w w.
Proof. unfold reads_only. repeat split; try done; lia. Qed.

Lemma reads_only_trans w1 w2 w3 :
  reads_only w1 w2 -> reads_only w2 w3 -> reads_only w1 w3.
Proof.
  unfold reads_only.
  intros (Hn & Hc & Hu & Hs & Ht & Hq) (Hn' & Hc' & Hu' & Hs' & Ht' & Hq').
  repeat split; try congruence; lia.
Qed.

Lemma read_reads_only sheetName w r w' :
  SheetsClient.read sheetName w = (r, w') -> reads_only w w'.
Proof.
  unfold SheetsClient.read, values_get. intros Hrun.
  apply execute_frame in Hrun.
  destruct Hrun as (Hn & Hc & Hu & Ht & Hq & Hs).
  unfold reads_only. repeat split; try done; try lia.
  destruct r; simpl in Hs; tauto.
Qed.

Lemma read_ok_rows sheetName w rows w' :
  SheetsClient.read sheetName w = (Ok rows, w') ->
  rows = sheet_rows (spreadsheet w) sheetName.
Proof.
  unfold SheetsClient.read, values_get. intros Hrun.
  apply execute_frame in Hrun. simpl in Hrun. tauto.
Qed.

Lemma getRoleById_reads_only roleId w r w' :
  sheetsAdapter.getRoleById roleId w = (r, w') -> reads_only w w'.
Proof.
  unfold sheetsAdapter.getRoleById, sheetsAdapter.getRoles, bind, ret.
  destruct (SheetsClient.read "ROLES" w) as [[rows|e] w1] eqn:Hread;
    intros Hrun; injection Hrun as <- <-; by eapply read_reads_only.
Qed.

Lemma roles_loop_reads_only assignments :
  forall roles w r w',
    roles_loop assignments roles w = (r, w') -> reads_only w w'.
Proof.
  induction assignments as [|a rest IH]; intros roles w r w' Hrun; simpl in Hrun.
  - injection Hrun as <- <-. apply reads_only_refl.
  - unfold bind in Hrun.
    destruct (sheetsAdapter.getRoleById (RoleAssignment.role_id a) w)
      as [[role|e] w1] eqn:Hrole.
    + apply getRoleById_reads_only in Hrole.
      destruct role as [role|]; [destruct (Role.is_active role)|];
        apply IH in Hrun; by eapply reads_only_trans.
    + injection Hrun as <- <-. by eapply getRoleById_reads_only.
Qed.

Lemma getUserRoles_reads_only userId w r w' :
  getUserRoles userId w = (r, w') -> reads_only w w'.
Proof.
  unfold getUserRoles, try_catch, bind, sheetsAdapter.getRoleAssignments, bind, ret.
  destruct (SheetsClient.read "ROLE_ASSIGNMENTS" w) as [[rows|e] w1] eqn:Hread.
  - apply read_reads_only in Hread.
    match goal with
    | |- context [roles_loop ?l ?acc ?w0] =>
        destruct (roles_loop l acc w0) as [[roles|e] w2] eqn:Hloop
    end; apply roles_loop_reads_only in Hloop;
      intros Hrun; injection Hrun as <- <-; by eapply reads_only_trans.
  - intros Hrun. injection Hrun as <- <-. by eapply read_reads_only.
Qed.

Lemma getUserRoles_returns userId w :
  exists roles w', getUserRoles userId w = (Ok roles, w').
Proof. apply try_catch_returns. Qed.

Section CacheFrames.
Context `{JsRuntime}.

Lemma getPermissions_reads_only roleId w r w' :
  sheetsAdapter.getPermissions roleId w = (r, w') -> reads_only w w'.
Proof.
  unfold sheetsAdapter.getPermissions, bind, ret.
  destruct (SheetsClient.read "PERMISSIONS" w) as [[rows|e] w1] eqn:Hread;
    intros Hrun; injection Hrun as <- <-; by eapply read_reads_only.
Qed.

Lemma permissions_loop_reads_only roles :
  forall acc w r w',
    permissions_loop roles acc w = (r, w') -> reads_only w w'.
Proof.
  induction roles as [|role rest IH]; intros acc w r w' Hrun; simpl in Hrun.
  - injection Hrun as <- <-. apply reads_only_refl.
  - unfold bind in Hrun.
    destruct (sheetsAdapter.getPermissions (UserRole.role_id role) w)
      as [[perms|e] w1] eqn:Hperms.
    + apply getPermissions_reads_only in Hperms.
      apply IH in Hrun. by eapply reads_only_trans.
    + injection Hrun as <- <-. by eapply getPermissions_reads_only.
Qed.

Lemma getCachedPermissions_returns userId w :
  exists cached w', getCachedPermissions userId w = (Ok cached, w').
Proof.
  unfold getCachedPermissions.
  destruct (permissionCache w !! userId) as [entry|];
    [destruct (CacheEntry.expiresAt entry <? clock w)|]; by eexists _, _.
Qed.

Lemma getUserPermissions_returns userId w :
  exists permissions w', getUserPermissions userId w = (Ok permissions, w').
Proof.
  unfold getUserPermissions.
  destruct (getCachedPermissions_returns userId w) as ([cached|] & w0 & Hcached);
    rewrite (bind_ok _ _ _ _ _ Hcached).
  - by eexists _, _.
  - apply try_catch_returns.
Qed.

End CacheFrames.

(** ** The permission cache *)

Section Cache.
Context `{JsRuntime}.


Lemma getCachedPermissions_expired userId w entry :
  permissionCache w !! userId = Some entry ->
  CacheEntry.expiresAt entry < clock w ->
  getCachedPermissions userId w
  = (Ok None, set_permissionCache (delete userId (permissionCache w)) w).
Proof.
  intros Hentry Hstale. unfold getCachedPermissions. rewrite Hentry.
  by rewrite (proj2 (N.ltb_lt _ _) Hstale).
Qed.

Lemma getCachedPermissions_inv userId w cached w0 :
  getCachedPermissions userId w = (Ok cached, w0) ->
  match cached with
  | Some permissions =>
      w0 = w
      /\ exists entry, permissionCache w !! userId = Some entry
                       /\ CacheEntry.permissions entry = permissions
                       /\ clock w <= CacheEntry.expiresAt entry
  | None =>
      permissionCache w0 !! userId = None
      /\ network w0 = network w /\ clock w0 = clock w /\ requests w0 = requests w
      /\ spreadsheet w0 = spreadsheet w /\ circuitBreaker w0 = circuitBreaker w
  end.
Proof.
  unfold getCachedPermissions.
  destruct (permissionCache w !! userId) as [entry|] eqn:Hentry.
  - destruct (CacheEntry.expiresAt entry <? clock w) eqn:Hcmp;
      intros Hrun; injection Hrun as <- <-; simpl.
    + by rewrite lookup_delete_eq.
    + split; [done|]. exists entry. repeat split; try done. by apply N.ltb_ge.
  - intros Hrun; injection Hrun as <- <-. by simpl.
Qed.


(** A failure while the permissions of a role are read leaves no entry
    behind: the [catch] of [getUserPermissions] is reached before
    [setCachedPermissions]. *)
Lemma getUserPermissions_permission_failure_not_cached userId w w0 roles wa e wb :
  getCachedPermissions userId w = (Ok None, w0) ->
  getUserRoles userId w0 = (Ok roles, wa) ->
  permissions_loop roles [] wa = (Throw e, wb) ->
  getUserPermissions userId w = (Ok [], wb)
  /\ permissionCache wb !! userId = None.
Proof.
  intros Hcached Hroles Hloop. split.
  - unfold getUserPermissions. rewrite (bind_ok _ _ _ _ _ Hcached). cbv beta iota.
    erewrite try_catch_throw; [reflexivity|].
    by rewrite (bind_ok _ _ _ _ _ Hroles), (bind_throw _ _ _ _ _ Hloop).
  - apply getCachedPermissions_inv in Hcached. destruct Hcached as (Hmiss & _).
    pose proof (getUserRoles_reads_only _ _ _ _ Hroles) as (_ & Hca & _).
    pose proof (permissions_loop_reads_only _ _ _ _ _ Hloop) as (_ & Hcb & _).
    by rewrite Hcb, Hca.
Qed.


End Cache.


(** ** Permission checks *)

Lemma wildcard_or_equal (granted : JsValue) (requested : string) :
  negb (strict_eq granted (JStr "*")) && negb (strict_eq granted (JStr requested)) = false
  <-> field_matches granted requested.
Proof.
  unfold strict_eq, field_matches.
  destruct (decide (granted = JStr "*")) as [Hw|Hw];
    destruct (decide (granted = JStr requested)) as [He|He];
    rewrite ?(bool_decide_eq_true_2 _ Hw), ?(bool_decide_eq_false_2 _ Hw),
      ?(bool_decide_eq_true_2 _ He), ?(bool_decide_eq_false_2 _ He);
    simpl; intuition congruence.
Qed.

Lemma permission_allows_iff moduleCode action resource perm :
  permission_allows moduleCode action resource perm = true
  <-> matches_when_nonempty moduleCode action resource perm.
Proof.
  unfold permission_allows, matches_when_nonempty.
  pose proof (wildcard_or_equal (UserPermission.module_code perm) moduleCode) as Hm.
  pose proof (wildcard_or_equal (UserPermission.action perm) action) as Ha.
  destruct (negb (strict_eq (UserPermission.module_code perm) (JStr "*"))
            && negb (strict_eq (UserPermission.module_code perm) (JStr moduleCode)));
    [intuition congruence|].
  destruct (negb (strict_eq (UserPermission.action perm) (JStr "*"))
            && negb (strict_eq (UserPermission.action perm) (JStr action)));
    [intuition congruence|].
  destruct resource as [r|]; [|simpl; intuition].
  pose proof (wildcard_or_equal (UserPermission.resource perm) r) as Hr.
  unfold given. simpl optional. rewrite <- andb_assoc.
  destruct (String.eqb_spec r "") as [->|Hne]; simpl; [intuition|].
  destruct (negb (strict_eq (UserPermission.resource perm) (JStr "*"))
            && negb (strict_eq (UserPermission.resource perm) (JStr r)));
    intuition congruence.
Qed.

(** C3, as stated, fails on an empty resource: U's effective permissions,
    whatever the time, are HR/create on the resource "candidate" only, none
    of them matches the given resource "" exactly or by the wildcard, and
    [hasPermission] answers [true]. *)
Lemma hasPermission_empty_resource :
  let w := fresh_world (sample_spreadsheet "" "candidate") always_ok in
  let perm := {| UserPermission.module_code := JStr "HR";
                 UserPermission.action := JStr "create";
                 UserPermission.resource := JStr "candidate";
                 UserPermission.conditions := JsonObj [] |} in
  (forall is_past now,
      @effective_permissions sample_runtime is_past (spreadsheet w) now "U" = [perm])
  /\ fst (@getUserPermissions sample_runtime "U" w) = Ok [perm]
  /\ fst (@hasPermission sample_runtime "U" "HR" "create" (Some "") w) = Ok true
  /\ ~ (exists p, p ∈ [perm] /\ matches_when_given "HR" "create" (Some "") p).
Proof.
  intros w perm. split; [intros is_past now; vm_compute; reflexivity|].
  split; [vm_compute; reflexivity|]. split; [vm_compute; reflexivity|].
  intros (p & Hin & _ & _ & Hres).
  apply list_elem_of_singleton in Hin. subst p.
  destruct Hres as [Hres|Hres]; discriminate Hres.
Qed.

(** ** Accessible modules *)

Lemma elem_of_set_add (x v : JsValue) (s : list JsValue) :
  x ∈ set_add v s <-> x = v \/ x ∈ s.
Proof.
  unfold set_add. case_bool_decide as Hin.
  - split; [by right|]. by intros [->|].
  - rewrite elem_of_app, list_elem_of_singleton. tauto.
Qed.

Lemma NoDup_set_add (v : JsValue) (s : list JsValue) :
  NoDup s -> NoDup (set_add v s).
Proof.
  intros Hs. unfold set_add. case_bool_decide as Hin; [done|].
  apply NoDup_app. split; [done|]. split.
  - intros x Hx Hv. apply list_elem_of_singleton in Hv. by subst.
  - apply NoDup_singleton.
Qed.

Lemma elem_of_insert_by_sort_order (x m : AppModule.t) (ms : list AppModule.t) :
  x ∈ insert_by_sort_order m ms <-> x = m \/ x ∈ ms.
Proof.
  induction ms as [|y r IH]; simpl.
  - rewrite list_elem_of_singleton, elem_of_nil. tauto.
  - destruct (AppModule.sort_order m <=? AppModule.sort_order y)%Z.
    + by rewrite elem_of_cons.
    + rewrite !elem_of_cons, IH. tauto.
Qed.

(** Sorting keeps the elements. *)
Lemma elem_of_sort_by_sort_order (x : AppModule.t) (ms : list AppModule.t) :
  x ∈ sort_by_sort_order ms <-> x ∈ ms.
Proof.
  unfold sort_by_sort_order. induction ms as [|m r IH]; simpl; [done|].
  by rewrite elem_of_insert_by_sort_order, elem_of_cons, IH.
Qed.

Section Modules.
Context `{JsRuntime}.

Lemma modules_loop_plain (permissions : list UserPermission.t) :
  forall moduleCodes w,
    (forall perm, perm ∈ permissions -> UserPermission.module_code perm <> JStr "*") ->
    NoDup moduleCodes ->
    exists codes,
      modules_loop permissions moduleCodes w = (Ok codes, w)
      /\ NoDup codes
      /\ forall c, c ∈ codes <->
                   c ∈ moduleCodes
                   \/ exists perm, perm ∈ permissions /\ UserPermission.module_code perm = c.
Proof.
  induction permissions as [|perm rest IH]; intros moduleCodes w Hplain Hnodup; simpl.
  - exists moduleCodes. split; [done|]. split; [done|].
    intros c. split; [by left|]. intros [|(p & Hp & _)]; [done|].
    by apply elem_of_nil in Hp.
  - unfold strict_eq. rewrite bool_decide_eq_false_2.
    2:{ apply Hplain. by left. }
    destruct (IH (set_add (UserPermission.module_code perm) moduleCodes) w)
      as (codes & Hrun & Hnd & Hmem).
    { intros p Hp. apply Hplain. by right. }
    { by apply NoDup_set_add. }
    exists codes. split; [done|]. split; [done|].
    intros c. rewrite Hmem, elem_of_set_add. split.
    + intros [[->|Hc]|(p & Hp & Hcode)].
      * right. exists perm. split; [by left|done].
      * by left.
      * right. exists p. split; [by right|done].
    + intros [Hc|(p & Hp & Hcode)]; [by left; right|].
      apply elem_of_cons in Hp as [->|Hp].
      * left. by left.
      * right. by exists p.
Qed.

Lemma modules_loop_wildcard (permissions : list UserPermission.t) :
  forall moduleCodes w,
    (exists perm, perm ∈ permissions /\ UserPermission.module_code perm = JStr "*") ->
    modules_loop permissions moduleCodes w
    = (await allModules <- sheetsAdapter.getActiveModules in
       ret (map AppModule.module_code allModules)) w.
Proof.
  induction permissions as [|perm rest IH]; intros moduleCodes w (p & Hp & Hwild).
  - by apply elem_of_nil in Hp.
  - simpl. unfold strict_eq. case_bool_decide as Hhead; [done|].
    apply IH. apply elem_of_cons in Hp as [->|Hp]; [done|]. by exists p.
Qed.

Lemma getActiveModules_inv w :
  sheetsAdapter.getActiveModules w
  = match SheetsClient.read "MODULES" w with
    | (Ok rows, w') =>
        (Ok (sort_by_sort_order
               (filter (fun m => AppModule.is_active m)
                       (map mapRowToModule (slice1 rows)))), w')
    | (Throw e, w') => (Throw e, w')
    end.
Proof.
  unfold sheetsAdapter.getActiveModules, sheetsAdapter.getModules, bind, ret.
  by destruct (SheetsClient.read "MODULES" w) as [[rows|e] w'].
Qed.

(** [getUserModules] on the permissions resolved for the user. It returns
    normally. When one of these
    permissions has the wildcard module code, the result holds exactly the
    module codes of the active rows of the MODULES sheet, or is empty when
    reading that sheet fails; otherwise it holds, without repetition,
    exactly the module codes the permissions name, and nothing is read.
    A failed permission lookup gives no permissions, hence the empty list. *)
Theorem getUserModules_wildcard_or_named (userId : string) (w : World) :
  exists permissions w1 codes w2,
    getUserPermissions userId w = (Ok permissions, w1)
    /\ getUserModules userId w = (Ok codes, w2)
    /\ ((exists perm, perm ∈ permissions /\ UserPermission.module_code perm = JStr "*") ->
        match SheetsClient.read "MODULES" w1 with
        | (Ok _, w') =>
            w2 = w'
            /\ forall c, c ∈ codes <->
                         exists m, m ∈ stored_active_modules (spreadsheet w1)
                                   /\ AppModule.module_code m = c
        | (Throw _, w') => w2 = w' /\ codes = []
        end)
    /\ (~ (exists perm, perm ∈ permissions /\ UserPermission.module_code perm = JStr "*") ->
        w2 = w1
        /\ NoDup codes
        /\ forall c, c ∈ codes <->
                     exists perm, perm ∈ permissions /\ UserPermission.module_code perm = c).
Proof.
  destruct (getUserPermissions_returns userId w) as (permissions & w1 & Hperms).
  exists permissions, w1.
  destruct (decide (Exists (fun perm => UserPermission.module_code perm = JStr "*")
                           permissions)) as [Hwild|Hplain];
    rewrite Exists_exists in Hwild || rewrite Exists_exists in Hplain.
  - pose proof (modules_loop_wildcard permissions [] w1 Hwild) as Hloop.
    unfold bind in Hloop. rewrite getActiveModules_inv in Hloop.
    destruct (SheetsClient.read "MODULES" w1) as [[rows|e] w'] eqn:Hread.
    + eexists _, w'. split; [done|]. split.
      { unfold getUserModules. erewrite try_catch_ok; [done|].
        rewrite (bind_ok _ _ _ _ _ Hperms). exact Hloop. }
      split; [|done]. intros _. split; [done|].
      intros c. rewrite (read_ok_rows _ _ _ _ Hread).
      rewrite list_elem_of_fmap. unfold stored_active_modules. split.
      * intros (m & -> & Hm). exists m. split; [|done].
        exact (proj1 (elem_of_sort_by_sort_order _ _) Hm).
      * intros (m & Hm & <-). exists m. split; [done|].
        exact (proj2 (elem_of_sort_by_sort_order _ _) Hm).
    + exists [], w'. split; [done|]. split.
      { unfold getUserModules. erewrite try_catch_throw; [done|].
        rewrite (bind_ok _ _ _ _ _ Hperms). exact Hloop. }
      split; [|done]. by intros _.
  - destruct (modules_loop_plain permissions [] w1) as (codes & Hloop & Hnd & Hmem).
    { intros perm Hin Hcode. apply Hplain. by exists perm. }
    { apply NoDup_nil_2. }
    exists codes, w1. split; [done|]. split.
    { unfold getUserModules. erewrite try_catch_ok; [done|].
      rewrite (bind_ok _ _ _ _ _ Hperms). exact Hloop. }
    split; [done|]. intros _. split; [done|]. split; [done|].
    intros c. rewrite Hmem. split; [|by right].
    intros [Hc|Hc]; [by apply elem_of_nil in Hc|done].
Qed.

End Modules.

(** User U holds the wildcard permission; the result is the codes of the
    two active modules, by sort order, and not ["*"]. *)
Lemma getUserModules_wildcard_sample :
  fst (@getUserModules sample_runtime "U" (fresh_world wildcard_spreadsheet always_ok))
  = Ok [JStr "HR"; JStr "DASHBOARD"].
Proof. vm_compute. reflexivity. Qed.

(** ** The circuit breaker *)

Lemma breaker_ok_new : breaker_ok CircuitBreaker.new.
Proof. unfold breaker_ok, CircuitBreaker.threshold. simpl. lia. Qed.

Lemma breaker_ok_onSuccess cb : breaker_ok (CircuitBreaker.onSuccess cb).
Proof. unfold breaker_ok, CircuitBreaker.threshold. simpl. lia. Qed.

Lemma onFailure_spec date_now cb :
  let cb' := CircuitBreaker.onFailure date_now cb in
  CircuitBreaker.failures cb' = CircuitBreaker.failures cb + 1
  /\ (CircuitBreaker.threshold <= CircuitBreaker.failures cb + 1 ->
      CircuitBreaker.state cb' = OPEN
      /\ CircuitBreaker.nextAttempt cb' = Some (date_now + CircuitBreaker.timeout))
  /\ (CircuitBreaker.failures cb + 1 < CircuitBreaker.threshold ->
      CircuitBreaker.state cb' = CircuitBreaker.state cb
      /\ CircuitBreaker.nextAttempt cb' = CircuitBreaker.nextAttempt cb).
Proof.
  unfold CircuitBreaker.onFailure.
  destruct (N.leb_spec CircuitBreaker.threshold (CircuitBreaker.failures cb + 1));
    simpl; repeat split; try done; lia.
Qed.

Lemma cooling_down_ok cb date_now t :
  CircuitBreaker.nextAttempt cb = Some t -> 0 < t ->
  CircuitBreaker.cooling_down cb date_now = (date_now <? t).
Proof.
  intros Hnext Hpos. unfold CircuitBreaker.cooling_down. rewrite Hnext.
  destruct (N.eqb_spec t 0); [lia|done].
Qed.

(** What one call does when the breaker lets it through: [fn] runs once
    from [w0] and the breaker books its outcome. *)
Lemma execute_through {A} (eff : Spreadsheet -> A * Spreadsheet) w0 r w' :
  match retryWithBackoff (http_request eff) w0 with
  | (Ok result, w1) =>
      (Ok result, set_circuitBreaker (CircuitBreaker.onSuccess (circuitBreaker w1)) w1)
  | (Throw error, w1) =>
      (Throw error,
       set_circuitBreaker (CircuitBreaker.onFailure (clock w1) (circuitBreaker w1)) w1)
  end = (r, w') ->
  exists w1,
    retryWithBackoff (http_request eff) w0 = (r, w1)
    /\ (requests w0 < requests w' <= requests w0 + 3)%nat
    /\ clock w' = clock w1
    /\ circuitBreaker w'
       = match r with
         | Ok _ => CircuitBreaker.onSuccess (circuitBreaker w0)
         | Throw _ => CircuitBreaker.onFailure (clock w1) (circuitBreaker w0)
         end.
Proof.
  destruct (retryWithBackoff (http_request eff) w0) as [r1 w1] eqn:Hfn.
  unfold retryWithBackoff in Hfn.
  apply retry_loop_frame in Hfn.
  destruct Hfn as (_ & Hb & _ & _ & _ & Hq & Hpos & _).
  specialize (Hpos ltac:(done)).
  destruct r1 as [a|e]; intros Hrun; injection Hrun as <- <-;
    exists w1; simpl; rewrite Hb; repeat split; try done; lia.
Qed.

Lemma execute_step {A} (eff : Spreadsheet -> A * Spreadsheet) w r w' :
  breaker_ok (circuitBreaker w) ->
  execute (retryWithBackoff (http_request eff)) w = (r, w') ->
  breaker_ok (circuitBreaker w')
  /\ match CircuitBreaker.state (circuitBreaker w) with
     | CLOSED =>
         (requests w < requests w' <= requests w + 3)%nat
         /\ match r with
            | Ok _ =>
                CircuitBreaker.state (circuitBreaker w') = CLOSED
                /\ CircuitBreaker.failures (circuitBreaker w') = 0
            | Throw _ =>
                CircuitBreaker.failures (circuitBreaker w')
                = CircuitBreaker.failures (circuitBreaker w) + 1
                /\ (CircuitBreaker.state (circuitBreaker w') = OPEN
                    <-> CircuitBreaker.failures (circuitBreaker w) + 1 = 5)
                /\ (CircuitBreaker.state (circuitBreaker w') = CLOSED
                    <-> CircuitBreaker.failures (circuitBreaker w) + 1 < 5)
                /\ (CircuitBreaker.state (circuitBreaker w') = OPEN ->
                    CircuitBreaker.nextAttempt (circuitBreaker w')
                    = Some (clock w' + 60000))
            end
     | OPEN =>
         exists t,
           CircuitBreaker.nextAttempt (circuitBreaker w) = Some t
           /\ if clock w <? t
              then r = Throw breaker_open_error /\ w' = w
              else
                (requests w < requests w' <= requests w + 3)%nat
                /\ (exists w1,
                       retryWithBackoff (http_request eff)
                         (set_circuitBreaker
                            (CircuitBreaker.mk
                               (CircuitBreaker.failures (circuitBreaker w)) HALF_OPEN
                               (CircuitBreaker.nextAttempt (circuitBreaker w))) w)
                       = (r, w1))
                /\ match r with
                   | Ok _ =>
                       CircuitBreaker.state (circuitBreaker w') = CLOSED
                       /\ CircuitBreaker.failures (circuitBreaker w') = 0
                   | Throw _ =>
                       CircuitBreaker.state (circuitBreaker w') = OPEN
                       /\ CircuitBreaker.nextAttempt (circuitBreaker w')
                          = Some (clock w' + 60000)
                       /\ CircuitBreaker.failures (circuitBreaker w')
                          = CircuitBreaker.failures (circuitBreaker w) + 1
                   end
     | HALF_OPEN => False
     end.
Proof.
  intros Hok Hrun. unfold execute in Hrun. unfold breaker_ok in Hok.
  destruct (CircuitBreaker.state (circuitBreaker w)) eqn:Hstate.
  - (* CLOSED *)
    rewrite bool_decide_eq_false_2 in Hrun by discriminate. cbn [andb] in Hrun.
    apply execute_through in Hrun.
    destruct Hrun as (w1 & _ & Hq & Hclock & Hcb).
    destruct r as [a|e]; rewrite Hcb.
    + split; [apply breaker_ok_onSuccess|]. by simpl.
    + pose proof (onFailure_spec (clock w1) (circuitBreaker w)) as (Hf & Hopen & Hstay).
      unfold CircuitBreaker.threshold, CircuitBreaker.timeout in *. rewrite Hclock.
      destruct (N.le_gt_cases 5 (CircuitBreaker.failures (circuitBreaker w) + 1))
        as [Hreach|Hbelow].
      * destruct (Hopen Hreach) as [Hs Hn]. split.
        { unfold breaker_ok, CircuitBreaker.threshold. rewrite Hs, Hf, Hn.
          split; [lia|]. eexists. split; [done|]. lia. }
        rewrite Hs, Hn. repeat split; try done; try lia; discriminate.
      * destruct (Hstay Hbelow) as [Hs Hn]. rewrite Hstate in Hs. split.
        { unfold breaker_ok, CircuitBreaker.threshold. rewrite Hs, Hf. lia. }
        rewrite Hs. repeat split; try done; try lia; discriminate.
  - (* OPEN *)
    destruct Hok as (Hfull & t & Hnext & Hpos).
    rewrite bool_decide_eq_true_2 in Hrun by done. cbn [andb] in Hrun.
    rewrite (cooling_down_ok _ _ _ Hnext Hpos) in Hrun.
    destruct (clock w <? t) eqn:Hcool.
    + injection Hrun as <- <-. unfold breaker_ok. rewrite Hstate.
      split; [by split; [|exists t]|]. exists t. by rewrite Hcool.
    + pose proof Hrun as Hrun'. apply execute_through in Hrun'.
      destruct Hrun' as (w1 & Hfn & Hq & Hclock & Hcb). simpl in Hq, Hcb.
      assert (breaker_ok (circuitBreaker w')
              /\ match r with
                 | Ok _ =>
                     CircuitBreaker.state (circuitBreaker w') = CLOSED
                     /\ CircuitBreaker.failures (circuitBreaker w') = 0
                 | Throw _ =>
                     CircuitBreaker.state (circuitBreaker w') = OPEN
                     /\ CircuitBreaker.nextAttempt (circuitBreaker w')
                        = Some (clock w' + 60000)
                     /\ CircuitBreaker.failures (circuitBreaker w')
                        = CircuitBreaker.failures (circuitBreaker w) + 1
                 end) as [Hok' Hout].
      { destruct r as [a|e]; rewrite Hcb.
        - split; [apply breaker_ok_onSuccess|]. by simpl.
        - match goal with
          | |- context [CircuitBreaker.onFailure ?n ?c] =>
              pose proof (onFailure_spec n c) as (Hf & Hopen & _)
          end.
          simpl in Hf, Hopen.
          unfold CircuitBreaker.threshold, CircuitBreaker.timeout in *.
          destruct (Hopen ltac:(lia)) as [Hs Hn]. rewrite Hclock.
          split; [|by rewrite Hs, Hn, Hf].
          unfold breaker_ok, CircuitBreaker.threshold. rewrite Hs, Hf, Hn.
          split; [lia|]. eexists. split; [done|]. lia. }
      split; [done|]. exists t. rewrite Hcool.
      split; [done|]. split; [done|]. split; [by exists w1|done].
  - (* HALF_OPEN *) done.
Qed.



(** Builds a run of failed calls, one second apart, by evaluation. *)
Ltac fail_one_second_apart :=
  first [ apply failed_calls_none
        | eapply failed_calls_more with (d := 1000);
          [fail_one_second_apart | vm_compute; reflexivity] ].


(** One booking per call: the first two requests of a read are rejected and
    the third is answered; the read returns the rows, three requests were
    sent, and the breaker has counted no failure. *)
Lemma retried_read_books_one_success :
  let '(r, w') := SheetsClient.read "ROLES"
                    (fresh_world (sample_spreadsheet "" "*") (down_until 2)) in
  r = Ok [roles_header; admin_role_row]
  /\ requests w' = 3%nat
  /\ clock w' = 1793577600000 + 40 + 200 + 40 + 500 + 40
  /\ circuitBreaker w' = CircuitBreaker.new.
Proof. vm_compute. repeat split. Qed.

(** Five failed reads open the breaker; 60 seconds after the fifth failure
    the next read is let through as a probe, and its failure opens the
    breaker again, to wait another 60 seconds. *)
Lemma failed_probe_reopens :
  exists w5,
    failed_calls (retryWithBackoff (values_get "ROLES")) 5
      (fresh_world ∅ always_down) w5
    /\ CircuitBreaker.nextAttempt (circuitBreaker w5) = Some (clock w5 + 60000)
    /\ let '(r, w6) := SheetsClient.read "ROLES" (advance 60000 w5) in
       r = Throw connection_reset
       /\ requests w6 = (requests w5 + 3)%nat
       /\ CircuitBreaker.state (circuitBreaker w6) = OPEN
       /\ CircuitBreaker.failures (circuitBreaker w6) = 6
       /\ CircuitBreaker.nextAttempt (circuitBreaker w6) = Some (clock w6 + 60000).
Proof.
  eexists. split; [fail_one_second_apart|]. vm_compute. repeat split.
Qed.

(** ** Resolution from a healthy store *)

Lemma read_healthy sheetName w :
  healthy w ->
  exists w',
    SheetsClient.read sheetName w = (Ok (sheet_rows (spreadsheet w) sheetName), w')
    /\ healthy w'
    /\ reads_only w w'
    /\ requests w' = S (requests w).
Proof.
  intros Hw. unfold SheetsClient.read, values_get.
  destruct (execute_healthy (fun s => (sheet_rows s sheetName, s)) w Hw)
    as (w' & Hrun & Hw' & Hs & Hc & Hu & Hq & Hn & Ht).
  exists w'. simpl in Hrun, Hs. split; [done|]. split; [done|]. split; [|done].
  unfold reads_only. repeat split; try done; lia.
Qed.

Lemma getRoleById_healthy roleId w :
  healthy w ->
  exists w',
    sheetsAdapter.getRoleById roleId w = (Ok (stored_role (spreadsheet w) roleId), w')
    /\ healthy w'
    /\ reads_only w w'.
Proof.
  intros Hw. destruct (read_healthy "ROLES" w Hw) as (w' & Hread & Hw' & Hro & _).
  exists w'. split; [|done].
  unfold sheetsAdapter.getRoleById, sheetsAdapter.getRoles.
  erewrite bind_ok; [reflexivity|]. by rewrite (bind_ok _ _ _ _ _ Hread).
Qed.

Lemma roles_loop_healthy assignments :
  forall roles w,
    healthy w ->
    exists w',
      roles_loop assignments roles w
      = (Ok (collect_roles (spreadsheet w) assignments roles), w')
      /\ healthy w'
      /\ reads_only w w'.
Proof.
  induction assignments as [|a rest IH]; intros roles w Hw; simpl.
  - exists w. split; [done|]. split; [done|]. apply reads_only_refl.
  - destruct (getRoleById_healthy (RoleAssignment.role_id a) w Hw)
      as (w1 & Hrole & Hw1 & Hro1).
    rewrite (bind_ok _ _ _ _ _ Hrole).
    pose proof Hro1 as (_ & _ & _ & Hs & _).
    destruct (stored_role (spreadsheet w) (RoleAssignment.role_id a)) as [r|];
      [destruct (Role.is_active r)|];
      match goal with
      | |- context [roles_loop rest ?acc w1] =>
          destruct (IH acc w1 Hw1) as (w' & Hloop & Hw' & Hro')
      end;
      exists w'; rewrite Hloop, Hs; (split; [done|]); (split; [done|]);
      by eapply reads_only_trans.
Qed.

Lemma getUserRoles_healthy userId w :
  healthy w ->
  exists w',
    getUserRoles userId w = (Ok (stored_user_roles (spreadsheet w) userId), w')
    /\ healthy w'
    /\ reads_only w w'
    /\ (requests w < requests w')%nat.
Proof.
  intros Hw.
  destruct (read_healthy "ROLE_ASSIGNMENTS" w Hw) as (w1 & Hread & Hw1 & Hro1 & Hq).
  destruct (roles_loop_healthy (stored_assignments (spreadsheet w) userId) [] w1 Hw1)
    as (w' & Hloop & Hw' & Hro').
  pose proof Hro1 as (_ & _ & _ & Hs & _).
  pose proof Hro' as (_ & _ & _ & _ & _ & Hq').
  exists w'. split; [|split; [done|split; [by eapply reads_only_trans|lia]]].
  unfold getUserRoles. erewrite try_catch_ok; [reflexivity|].
  unfold sheetsAdapter.getRoleAssignments.
  erewrite bind_ok; [|by rewrite (bind_ok _ _ _ _ _ Hread)].
  rewrite Hs in Hloop. exact Hloop.
Qed.

Section HealthyResolution.
Context `{JsRuntime}.

Lemma getPermissions_healthy roleId w :
  healthy w ->
  exists w',
    sheetsAdapter.getPermissions roleId w
    = (Ok (stored_permissions (spreadsheet w) roleId), w')
    /\ healthy w'
    /\ reads_only w w'.
Proof.
  intros Hw. destruct (read_healthy "PERMISSIONS" w Hw) as (w' & Hread & Hw' & Hro & _).
  exists w'. split; [|done].
  unfold sheetsAdapter.getPermissions. by rewrite (bind_ok _ _ _ _ _ Hread).
Qed.

Lemma permissions_loop_healthy roles :
  forall acc w,
    healthy w ->
    exists w',
      permissions_loop roles acc w
      = (Ok (collect_permissions (spreadsheet w) roles acc), w')
      /\ healthy w'
      /\ reads_only w w'.
Proof.
  induction roles as [|role rest IH]; intros acc w Hw; simpl.
  - exists w. split; [done|]. split; [done|]. apply reads_only_refl.
  - destruct (getPermissions_healthy (UserRole.role_id role) w Hw)
      as (w1 & Hperms & Hw1 & Hro1).
    rewrite (bind_ok _ _ _ _ _ Hperms).
    pose proof Hro1 as (_ & _ & _ & Hs & _).
    match goal with
    | |- context [permissions_loop rest ?acc' w1] =>
        destruct (IH acc' w1 Hw1) as (w' & Hloop & Hw' & Hro')
    end.
    exists w'. rewrite Hloop, Hs. split; [done|]. split; [done|].
    by eapply reads_only_trans.
Qed.

(** On a cache miss, with the breaker closed and the store answering, the
    resolver returns what the spreadsheet holds, and asks the store. *)
Lemma getUserPermissions_healthy userId w :
  healthy w ->
  permissionCache w !! userId = None ->
  exists w',
    getUserPermissions userId w
    = (Ok (stored_user_permissions (spreadsheet w) userId), w')
    /\ (requests w < requests w')%nat.
Proof.
  intros Hw Hmiss.
  destruct (getUserRoles_healthy userId w Hw) as (w1 & Hroles & Hw1 & Hro1 & Hq).
  destruct (permissions_loop_healthy (stored_user_roles (spreadsheet w) userId) [] w1 Hw1)
    as (w2 & Hloop & Hw2 & Hro2).
  pose proof Hro1 as (_ & _ & _ & Hs & _).
  pose proof Hro2 as (_ & _ & _ & _ & _ & Hq2).
  rewrite Hs in Hloop.
  eexists. split.
  - unfold getUserPermissions.
    assert (getCachedPermissions userId w = (Ok None, w)) as Hcached
      by (unfold getCachedPermissions; by rewrite Hmiss).
    rewrite (bind_ok _ _ _ _ _ Hcached). cbv beta iota.
    erewrite try_catch_ok; [reflexivity|].
    rewrite (bind_ok _ _ _ _ _ Hroles), (bind_ok _ _ _ _ _ Hloop). reflexivity.
  - simpl. lia.
Qed.

End HealthyResolution.

(** ** Role assignment and revocation *)

Lemma execute_ok_closed {A} (eff : Spreadsheet -> A * Spreadsheet) w a w' :
  execute (retryWithBackoff (http_request eff)) w = (Ok a, w') ->
  CircuitBreaker.state (circuitBreaker w') = CLOSED.
Proof.
  unfold execute.
  destruct (bool_decide (CircuitBreaker.state (circuitBreaker w) = OPEN)
            && CircuitBreaker.cooling_down (circuitBreaker w) (clock w));
    [discriminate|].
  match goal with
  | |- context [retryWithBackoff ?f ?w0] =>
      destruct (retryWithBackoff f w0) as [[r|e] w1]
  end; intros Hrun; [|discriminate].
  by injection Hrun as <- <-.
Qed.

Lemma append_ok sheetName values w w' :
  SheetsClient.append sheetName values w = (Ok tt, w') ->
  spreadsheet w' = <[sheetName := sheet_rows (spreadsheet w) sheetName ++ values]> (spreadsheet w)
  /\ permissionCache w' = permissionCache w
  /\ network w' = network w
  /\ CircuitBreaker.state (circuitBreaker w') = CLOSED.
Proof.
  unfold SheetsClient.append, values_append. intros Hrun.
  pose proof (execute_ok_closed _ _ _ _ Hrun) as Hclosed.
  apply execute_frame in Hrun. simpl in Hrun.
  destruct Hrun as (Hn & Hc & _ & _ & _ & _ & Hs). by repeat split.
Qed.

Lemma write_ok sheetName range values w w' :
  SheetsClient.write sheetName range values w = (Ok tt, w') ->
  spreadsheet w'
  = <[sheetName := overwrite_rows (range_width range) (range_row range - 1) values
                     (sheet_rows (spreadsheet w) sheetName)]> (spreadsheet w)
  /\ permissionCache w' = permissionCache w
  /\ network w' = network w
  /\ CircuitBreaker.state (circuitBreaker w') = CLOSED.
Proof.
  unfold SheetsClient.write, values_update. intros Hrun.
  pose proof (execute_ok_closed _ _ _ _ Hrun) as Hclosed.
  apply execute_frame in Hrun. simpl in Hrun.
  destruct Hrun as (Hn & Hc & _ & _ & _ & _ & Hs). by repeat split.
Qed.

Lemma invalidatePermissionCache_user userId w :
  exists w',
    invalidatePermissionCache (Some userId) w = (Ok tt, w')
    /\ permissionCache w' !! userId = None
    /\ spreadsheet w' = spreadsheet w
    /\ network w' = network w
    /\ requests w' = requests w
    /\ circuitBreaker w' = circuitBreaker w.
Proof.
  unfold invalidatePermissionCache.
  destruct (negb (String.eqb userId "")); eexists; (split; [reflexivity|]); simpl.
  - by rewrite lookup_delete_eq.
  - by rewrite lookup_empty.
Qed.

Section Mutations.
Context `{JsRuntime}.

(** After a completed mutation the user's entry is gone, the breaker is
    closed, and the next resolution reads the store. *)
Lemma recomputes_after_invalidation userId wa w1 :
  CircuitBreaker.state (circuitBreaker wa) = CLOSED ->
  invalidatePermissionCache (Some userId) wa = (Ok tt, w1) ->
  permissionCache w1 !! userId = None
  /\ spreadsheet w1 = spreadsheet wa
  /\ forall d,
       (forall n, (requests w1 <= n)%nat -> failure (network w1 n) = None) ->
       exists w2,
         getUserPermissions userId (advance d w1)
         = (Ok (stored_user_permissions (spreadsheet w1) userId), w2)
         /\ (requests w1 < requests w2)%nat.
Proof.
  intros Hclosed Hinv.
  destruct (invalidatePermissionCache_user userId wa)
    as (w' & Hinv' & Hmiss & Hs & Hn & Hq & Hcb).
  assert (w' = w1) as -> by congruence.
  split; [done|]. split; [done|].
  intros d Hnet.
  apply (getUserPermissions_healthy userId (advance d w1)); [|done].
  split; simpl; [by rewrite Hcb|done].
Qed.

Lemma assignRole_inv userId roleId assignedBy siteCode expiresAt w w1 :
  assignRole userId roleId assignedBy siteCode expiresAt w = (Ok tt, w1) ->
  exists wa,
    SheetsClient.append "ROLE_ASSIGNMENTS"
      [sheetsAdapter.assignment_row (randomUUID (uuids w)) (toISOString (clock w))
         {| NewRoleAssignment.user_id := userId;
            NewRoleAssignment.role_id := roleId;
            NewRoleAssignment.site_code := siteCode;
            NewRoleAssignment.assigned_by := assignedBy;
            NewRoleAssignment.expires_at := expiresAt;
            NewRoleAssignment.is_active := true |}]
      (next_uuid w) = (Ok tt, wa)
    /\ invalidatePermissionCache (Some userId) wa = (Ok tt, w1).
Proof.
  unfold assignRole, sheetsAdapter.assignRole, bind, generateId, now, ret. simpl.
  match goal with
  | |- context [SheetsClient.append ?s ?v ?w0] =>
      destruct (SheetsClient.append s v w0) as [[[]|e] wa]
  end; intros Hrun; [|discriminate].
  by exists wa.
Qed.

Lemma revokeRole_inv assignmentId userId w w1 :
  revokeRole assignmentId userId w = (Ok tt, w1) ->
  let rows := sheet_rows (spreadsheet w) "ROLE_ASSIGNMENTS" in
  let assignments := map mapRowToRoleAssignment (slice1 rows) in
  exists index assignment wr wa,
    findIndex (fun a => strict_eq (RoleAssignment.assignment_id a) (JStr assignmentId))
              assignments = Some index
    /\ assignments !! index = Some assignment
    /\ SheetsClient.read "ROLE_ASSIGNMENTS" w = (Ok rows, wr)
    /\ SheetsClient.write "ROLE_ASSIGNMENTS"
         {| range_row := index + 2; range_width := 8 |}
         [sheetsAdapter.revoked_row assignment] wr = (Ok tt, wa)
    /\ invalidatePermissionCache (Some userId) wa = (Ok tt, w1).
Proof.
  intros Hrun rows assignments.
  unfold revokeRole, sheetsAdapter.revokeRole in Hrun. unfold bind at 1 2 in Hrun.
  destruct (SheetsClient.read "ROLE_ASSIGNMENTS" w) as [[rows'|e] wr] eqn:Hread;
    [|discriminate].
  pose proof (read_ok_rows _ _ _ _ Hread) as ->. fold rows assignments in Hrun.
  destruct (findIndex _ assignments) as [index|] eqn:Hindex; [|discriminate].
  destruct (assignments !! index) as [assignment|] eqn:Hassignment; [|discriminate].
  match type of Hrun with
  | context [SheetsClient.write ?s ?rg ?v ?w0] =>
      destruct (SheetsClient.write s rg v w0) as [[[]|e] wa] eqn:Hwrite
  end; [|discriminate].
  by exists index, assignment, wr, wa.
Qed.

(** With no resolution in flight. When [assignRole] or [revokeRole]
    completes, the cache holds no
    entry for the user, whatever it held before; the sheet holds the
    mutation (the new active assignment at its end, or the first row with
    the given assignment id rewritten with FALSE in its active cell); and
    the next [getUserPermissions] for the user, at any later time, if the
    store answers, sends requests and returns what the spreadsheet then
    holds for the user. *)
Theorem mutation_invalidates_cache :
  (forall userId roleId assignedBy siteCode expiresAt w w1,
      assignRole userId roleId assignedBy siteCode expiresAt w = (Ok tt, w1) ->
      let row :=
        sheetsAdapter.assignment_row (randomUUID (uuids w)) (toISOString (clock w))
          {| NewRoleAssignment.user_id := userId;
             NewRoleAssignment.role_id := roleId;
             NewRoleAssignment.site_code := siteCode;
             NewRoleAssignment.assigned_by := assignedBy;
             NewRoleAssignment.expires_at := expiresAt;
             NewRoleAssignment.is_active := true |} in
      permissionCache w1 !! userId = None
      /\ spreadsheet w1
         = <["ROLE_ASSIGNMENTS" := sheet_rows (spreadsheet w) "ROLE_ASSIGNMENTS" ++ [row]]>
             (spreadsheet w)
      /\ (RoleAssignment.user_id (mapRowToRoleAssignment row) = JStr userId
          /\ RoleAssignment.role_id (mapRowToRoleAssignment row) = JStr roleId
          /\ RoleAssignment.is_active (mapRowToRoleAssignment row) = true)
      /\ forall d,
           (forall n, (requests w1 <= n)%nat -> failure (network w1 n) = None) ->
           exists w2,
             getUserPermissions userId (advance d w1)
             = (Ok (stored_user_permissions (spreadsheet w1) userId), w2)
             /\ (requests w1 < requests w2)%nat)
  /\ (forall assignmentId userId w w1,
         revokeRole assignmentId userId w = (Ok tt, w1) ->
         let rows := sheet_rows (spreadsheet w) "ROLE_ASSIGNMENTS" in
         let assignments := map mapRowToRoleAssignment (slice1 rows) in
         permissionCache w1 !! userId = None
         /\ (exists index assignment,
                findIndex (fun a => strict_eq (RoleAssignment.assignment_id a)
                                              (JStr assignmentId)) assignments
                = Some index
                /\ assignments !! index = Some assignment
                /\ spreadsheet w1
                   = <["ROLE_ASSIGNMENTS" :=
                         alter (overwrite_cells 8 (sheetsAdapter.revoked_row assignment))
                               (S index) rows]> (spreadsheet w)
                /\ forall old,
                     RoleAssignment.is_active
                       (mapRowToRoleAssignment
                          (overwrite_cells 8 (sheetsAdapter.revoked_row assignment) old))
                     = false)
         /\ forall d,
              (forall n, (requests w1 <= n)%nat -> failure (network w1 n) = None) ->
              exists w2,
                getUserPermissions userId (advance d w1)
                = (Ok (stored_user_permissions (spreadsheet w1) userId), w2)
                /\ (requests w1 < requests w2)%nat).
Proof.
  split.
  - intros userId roleId assignedBy siteCode expiresAt w w1 Hrun row.
    apply assignRole_inv in Hrun. destruct Hrun as (wa & Happend & Hinv).
    apply append_ok in Happend. destruct Happend as (Hs & _ & _ & Hclosed).
    destruct (recomputes_after_invalidation userId wa w1 Hclosed Hinv)
      as (Hmiss & Hs1 & Hnext).
    split; [done|]. split; [by rewrite Hs1, Hs|]. split; [done|]. exact Hnext.
  - intros assignmentId userId w w1 Hrun rows assignments.
    apply revokeRole_inv in Hrun.
    destruct Hrun as (index & assignment & wr & wa & Hindex & Hassignment
                      & Hread & Hwrite & Hinv).
    apply write_ok in Hwrite. destruct Hwrite as (Hs & _ & _ & Hclosed).
    destruct (recomputes_after_invalidation userId wa w1 Hclosed Hinv)
      as (Hmiss & Hs1 & Hnext).
    pose proof (read_reads_only _ _ _ _ Hread) as (_ & _ & _ & Hsr & _).
    split; [done|]. split; [|exact Hnext].
    exists index, assignment. split; [done|]. split; [done|]. split.
    + rewrite Hs1, Hs, Hsr. simpl.
      by replace (index + 2 - 1)%nat with (S index) by lia.
    + intros old. reflexivity.
Qed.

End Mutations.

(** The same at work. U's permissions are cached; revoking U's only assignment
    empties the entry, and one second later, well inside the five minutes,
    U has no permission. V has none cached; assigning ADMIN to V gives V,
    one second later, the permission of ADMIN. *)
Lemma mutation_invalidates_cache_sample :
  let hr_create :=
    {| UserPermission.module_code := JStr "HR";
       UserPermission.action := JStr "create";
       UserPermission.resource := JStr "*";
       UserPermission.conditions := JsonObj [] |} in
  let start := fresh_world (sample_spreadsheet "" "*") always_ok in
  let cached_u := snd (@getUserPermissions sample_runtime "U" start) in
  let cached_v := snd (@getUserPermissions sample_runtime "V" start) in
  (CacheEntry.permissions <$> permissionCache cached_u !! "U" = Some [hr_create]
   /\ fst (@getUserPermissions sample_runtime "U"
             (advance 1000 (snd (revokeRole "a-1" "U" cached_u)))) = Ok [])
  /\ (CacheEntry.permissions <$> permissionCache cached_v !! "V" = Some []
      /\ fst (@getUserPermissions sample_runtime "V"
                (advance 1000
                   (snd (@assignRole sample_runtime "V" "r-admin" "U" None None cached_v))))
         = Ok [hr_create]).
Proof.
  intros hr_create start cached_u cached_v.
  destruct (@mutation_invalidates_cache sample_runtime) as [Hassign Hrevoke].
  split; (split; [vm_compute; reflexivity|]).
  - destruct (Hrevoke "a-1" "U" cached_u (snd (revokeRole "a-1" "U" cached_u)))
      as (_ & _ & Hnext); [vm_compute; reflexivity|].
    destruct (Hnext 1000) as (w2 & -> & _); [intros n _; reflexivity|].
    vm_compute. reflexivity.
  - destruct (Hassign "V" "r-admin" "U" None None cached_v
                (snd (@assignRole sample_runtime "V" "r-admin" "U" None None cached_v)))
      as (_ & _ & _ & Hnext); [vm_compute; reflexivity|].
    destruct (Hnext 1000) as (w2 & -> & _); [intros n _; reflexivity|].
    vm_compute. reflexivity.
Defined.

(** * Further properties *)

(** ** The resolver's answers, from the permissions it resolved *)

Section Answers.
Context `{JsRuntime}.

Lemma hasPermission_run userId moduleCode action resource w permissions w' :
  getUserPermissions userId w = (Ok permissions, w') ->
  hasPermission userId moduleCode action resource w
  = (Ok (existsb (permission_allows moduleCode action resource) permissions), w').
Proof.
  intros Hperms. unfold hasPermission.
  erewrite try_catch_ok; [done|]. by rewrite (bind_ok _ _ _ _ _ Hperms).
Qed.

Lemma canAccessModule_run userId moduleCode w permissions w' :
  getUserPermissions userId w = (Ok permissions, w') ->
  canAccessModule userId moduleCode w
  = (Ok (existsb (fun perm =>
                    strict_eq (UserPermission.module_code perm) (JStr "*")
                    || strict_eq (UserPermission.module_code perm) (JStr moduleCode))
                 permissions), w').
Proof.
  intros Hperms. unfold canAccessModule.
  erewrite try_catch_ok; [done|]. by rewrite (bind_ok _ _ _ _ _ Hperms).
Qed.

Lemma hasRole_run userId roleCode w roles w' :
  getUserRoles userId w = (Ok roles, w') ->
  hasRole userId roleCode w
  = (Ok (existsb (fun r => strict_eq (UserRole.role_code r) (JStr roleCode)) roles), w').
Proof.
  intros Hroles. unfold hasRole.
  erewrite try_catch_ok; [done|]. by rewrite (bind_ok _ _ _ _ _ Hroles).
Qed.

Lemma isAdmin_run userId w roles1 w1 roles2 w2 :
  getUserRoles userId w = (Ok roles1, w1) ->
  getUserRoles userId w1 = (Ok roles2, w2) ->
  isAdmin userId w
  = if existsb (fun r => strict_eq (UserRole.role_code r) (JStr "SUPER_ADMIN")) roles1
    then (Ok true, w1)
    else (Ok (existsb (fun r => strict_eq (UserRole.role_code r) (JStr "ADMIN")) roles2), w2).
Proof.
  intros H1 H2. unfold isAdmin.
  rewrite (bind_ok _ _ _ _ _ (hasRole_run _ "SUPER_ADMIN" _ _ _ H1)).
  destruct (existsb _ roles1); [done|]. by apply hasRole_run.
Qed.

Lemma isAdmin_returns userId w : exists b w', isAdmin userId w = (Ok b, w').
Proof.
  destruct (getUserRoles_returns userId w) as (roles1 & w1 & H1).
  destruct (getUserRoles_returns userId w1) as (roles2 & w2 & H2).
  rewrite (isAdmin_run _ _ _ _ _ _ H1 H2).
  destruct (existsb _ roles1); by eexists _, _.
Qed.

(** X1. No operation of the resolver raises: in every world, whatever the
    network, the breaker and the cache do, each of the seven returns a
    value. *)
Theorem resolver_never_raises (userId moduleCode action roleCode : string)
    (resource : option string) (w : World) :
  (exists roles w', getUserRoles userId w = (Ok roles, w'))
  /\ (exists permissions w', getUserPermissions userId w = (Ok permissions, w'))
  /\ (exists b w', hasPermission userId moduleCode action resource w = (Ok b, w'))
  /\ (exists b w', canAccessModule userId moduleCode w = (Ok b, w'))
  /\ (exists codes w', getUserModules userId w = (Ok codes, w'))
  /\ (exists b w', hasRole userId roleCode w = (Ok b, w'))
  /\ (exists b w', isAdmin userId w = (Ok b, w')).
Proof.
  repeat split; try apply try_catch_returns.
  - apply getUserPermissions_returns.
  - apply isAdmin_returns.
Qed.

(** X2. On one and the same state, a granted permission implies access to
    its module, and implies the same permission asked without a resource:
    naming a resource only narrows the check. *)
Theorem hasPermission_implies_canAccessModule
    (userId moduleCode action : string) (resource : option string) (w : World) :
  fst (hasPermission userId moduleCode action resource w) = Ok true ->
  fst (canAccessModule userId moduleCode w) = Ok true
  /\ fst (hasPermission userId moduleCode action None w) = Ok true.
Proof.
  destruct (getUserPermissions_returns userId w) as (permissions & w' & Hperms).
  rewrite !(hasPermission_run _ _ _ _ _ _ _ Hperms),
    (canAccessModule_run _ _ _ _ _ Hperms). simpl.
  intros Hgranted. injection Hgranted as Hgranted.
  apply existsb_exists in Hgranted. destruct Hgranted as (perm & Hin & Hallow).
  apply permission_allows_iff in Hallow. destruct Hallow as (Hm & Ha & _).
  split; f_equal; apply existsb_exists; exists perm; (split; [done|]).
  - unfold field_matches in Hm. unfold strict_eq.
    destruct Hm as [Hm|Hm]; apply orb_true_iff; [right|left];
      by apply bool_decide_eq_true_2.
  - by apply permission_allows_iff.
Qed.

(** X3. A permission with the wildcard module code opens every module, and
    a permission with the wildcard in all three fields grants every
    action on every resource of every module. *)
Theorem wildcard_permission_grants userId w permissions w' perm :
  getUserPermissions userId w = (Ok permissions, w') ->
  perm ∈ permissions ->
  UserPermission.module_code perm = JStr "*" ->
  (forall moduleCode, canAccessModule userId moduleCode w = (Ok true, w'))
  /\ (UserPermission.action perm = JStr "*" ->
      UserPermission.resource perm = JStr "*" ->
      forall moduleCode action resource,
        hasPermission userId moduleCode action resource w = (Ok true, w')).
Proof.
  intros Hperms Hin Hmodule. split.
  - intros moduleCode. rewrite (canAccessModule_run _ _ _ _ _ Hperms).
    do 2 f_equal. apply existsb_exists. exists perm.
    split; [by apply list_elem_of_In|].
    rewrite Hmodule. unfold strict_eq. by rewrite bool_decide_eq_true_2.
  - intros Haction Hresource moduleCode action resource.
    rewrite (hasPermission_run _ _ _ _ _ _ _ Hperms).
    do 2 f_equal. apply existsb_exists. exists perm.
    split; [by apply list_elem_of_In|].
    apply permission_allows_iff. unfold matches_when_nonempty, field_matches.
    rewrite Hmodule, Haction, Hresource.
    destruct resource; auto.
Qed.

End Answers.

(** X2 at work. *)
Lemma hasPermission_implies_canAccessModule_sample :
  let w := fresh_world (sample_spreadsheet "" "*") always_ok in
  fst (@canAccessModule sample_runtime "U" "HR" w) = Ok true
  /\ fst (@hasPermission sample_runtime "U" "HR" "create" None w) = Ok true.
Proof.
  intros w.
  apply (@hasPermission_implies_canAccessModule sample_runtime
           "U" "HR" "create" (Some "candidate") w).
  vm_compute. reflexivity.
Defined.

(** X3 at work: the user of [wildcard_spreadsheet] may do anything. *)
Lemma wildcard_permission_grants_sample :
  let w := fresh_world wildcard_spreadsheet always_ok in
  fst (@canAccessModule sample_runtime "U" "PAYROLL" w) = Ok true
  /\ fst (@hasPermission sample_runtime "U" "WMS" "delete" (Some "pallet") w) = Ok true.
Proof.
  intros w.
  destruct (@wildcard_permission_grants sample_runtime "U" w
              [ {| UserPermission.module_code := JStr "*";
                   UserPermission.action := JStr "*";
                   UserPermission.resource := JStr "*";
                   UserPermission.conditions := JsonObj [] |} ]
              (snd (@getUserPermissions sample_runtime "U" w))
              {| UserPermission.module_code := JStr "*";
                 UserPermission.action := JStr "*";
                 UserPermission.resource := JStr "*";
                 UserPermission.conditions := JsonObj [] |})
    as [Hmodule Hall].
  - vm_compute. reflexivity.
  - apply list_elem_of_singleton. reflexivity.
  - reflexivity.
  - split.
    + by rewrite Hmodule.
    + by rewrite (Hall eq_refl eq_refl).
Defined.

(** ** Invariants every operation keeps *)

Lemma keeps_ret {A} (P : World -> Prop) (a : A) : keeps P (ret a).
Proof. intros w r w' HP Hrun. by injection Hrun as <- <-. Qed.

Lemma keeps_throw {A} (P : World -> Prop) (e : JsError) : keeps P (@throw A e).
Proof. intros w r w' HP Hrun. by injection Hrun as <- <-. Qed.

Lemma keeps_bind {A B} (P : World -> Prop) (m : Async A) (k : A -> Async B) :
  keeps P m -> (forall a, keeps P (k a)) -> keeps P (bind m k).
Proof.
  intros Hm Hk w r w' HP Hrun. unfold bind in Hrun.
  destruct (m w) as [[a|e] w1] eqn:Hmw.
  - eapply Hk; [|exact Hrun]. by eapply Hm.
  - injection Hrun as <- <-. by eapply Hm.
Qed.

Lemma keeps_try_catch {A} (P : World -> Prop) (body : Async A) handler :
  keeps P body -> (forall e, keeps P (handler e)) -> keeps P (try_catch body handler).
Proof.
  intros Hb Hh w r w' HP Hrun. unfold try_catch in Hrun.
  destruct (body w) as [[a|e] w1] eqn:Hbw.
  - injection Hrun as <- <-. by eapply Hb.
  - eapply Hh; [|exact Hrun]. by eapply Hb.
Qed.

Section Keeping.
Context `{JsRuntime}.
Variable P : World -> Prop.

(** What [P] must survive: a call of the client, a new identifier, and the
    three changes the cache undergoes. *)
Hypothesis P_call :
  forall A (eff : Spreadsheet -> A * Spreadsheet),
    keeps P (execute (retryWithBackoff (http_request eff))).
Hypothesis P_uuid : forall w, P w -> P (next_uuid w).
Hypothesis P_delete :
  forall w userId, P w -> P (set_permissionCache (delete userId (permissionCache w)) w).
Hypothesis P_clear : forall w, P w -> P (set_permissionCache ∅ w).
Hypothesis P_insert :
  forall w userId permissions,
    P w ->
    P (set_permissionCache
         (<[userId := {| CacheEntry.permissions := permissions;
                         CacheEntry.expiresAt := clock w + CACHE_TTL |}]>
            (permissionCache w)) w).

Lemma keeps_read sheetName : keeps P (SheetsClient.read sheetName).
Proof. apply P_call. Qed.

Lemma keeps_append sheetName values : keeps P (SheetsClient.append sheetName values).
Proof. apply P_call. Qed.

Lemma keeps_write sheetName range values :
  keeps P (SheetsClient.write sheetName range values).
Proof. apply P_call. Qed.

Lemma keeps_generateId : keeps P generateId.
Proof. intros w r w' HP Hrun. injection Hrun as <- <-. by apply P_uuid. Qed.

Lemma keeps_now : keeps P now.
Proof. intros w r w' HP Hrun. by injection Hrun as <- <-. Qed.

Lemma keeps_getCachedPermissions userId : keeps P (getCachedPermissions userId).
Proof.
  intros w r w' HP Hrun. unfold getCachedPermissions in Hrun.
  destruct (permissionCache w !! userId) as [entry|];
    [destruct (CacheEntry.expiresAt entry <? clock w)|];
    injection Hrun as <- <-; auto.
Qed.

Lemma keeps_setCachedPermissions userId permissions :
  keeps P (setCachedPermissions userId permissions).
Proof. intros w r w' HP Hrun. injection Hrun as <- <-. by apply P_insert. Qed.

Lemma keeps_invalidatePermissionCache userId :
  keeps P (invalidatePermissionCache userId).
Proof.
  intros w r w' HP Hrun. unfold invalidatePermissionCache in Hrun.
  destruct userId as [u|]; [destruct (negb (String.eqb u ""))|];
    injection Hrun as <- <-; auto.
Qed.

Lemma keeps_getRoleById roleId : keeps P (sheetsAdapter.getRoleById roleId).
Proof.
  repeat (apply keeps_bind; [|intros ?]); try apply keeps_ret. apply keeps_read.
Qed.

Lemma keeps_roles_loop assignments : forall roles, keeps P (roles_loop assignments roles).
Proof.
  induction assignments as [|a rest IH]; intros roles; simpl.
  - apply keeps_ret.
  - apply keeps_bind; [apply keeps_getRoleById|].
    intros [r|]; [destruct (Role.is_active r)|]; apply IH.
Qed.

Lemma keeps_getUserRoles userId : keeps P (getUserRoles userId).
Proof.
  apply keeps_try_catch; [|intros ?; apply keeps_ret].
  apply keeps_bind; [|intros ?; apply keeps_roles_loop].
  apply keeps_bind; [apply keeps_read|intros ?; apply keeps_ret].
Qed.

Lemma keeps_getPermissions roleId : keeps P (sheetsAdapter.getPermissions roleId).
Proof. apply keeps_bind; [apply keeps_read|intros ?; apply keeps_ret]. Qed.

Lemma keeps_permissions_loop roles : forall acc, keeps P (permissions_loop roles acc).
Proof.
  induction roles as [|role rest IH]; intros acc; simpl.
  - apply keeps_ret.
  - apply keeps_bind; [apply keeps_getPermissions|intros ?; apply IH].
Qed.

Lemma keeps_getUserPermissions userId : keeps P (getUserPermissions userId).
Proof.
  apply keeps_bind; [apply keeps_getCachedPermissions|].
  intros [cached|]; [apply keeps_ret|].
  apply keeps_try_catch; [|intros ?; apply keeps_ret].
  apply keeps_bind; [apply keeps_getUserRoles|intros roles].
  apply keeps_bind; [apply keeps_permissions_loop|intros allPermissions].
  apply keeps_bind; [apply keeps_setCachedPermissions|intros ?; apply keeps_ret].
Qed.

Lemma keeps_getActiveModules : keeps P sheetsAdapter.getActiveModules.
Proof.
  apply keeps_bind; [|intros ?; apply keeps_ret].
  apply keeps_bind; [apply keeps_read|intros ?; apply keeps_ret].
Qed.

Lemma keeps_modules_loop permissions :
  forall moduleCodes, keeps P (modules_loop permissions moduleCodes).
Proof.
  induction permissions as [|perm rest IH]; intros moduleCodes; simpl.
  - apply keeps_ret.
  - destruct (strict_eq _ _); [|apply IH].
    apply keeps_bind; [apply keeps_getActiveModules|intros ?; apply keeps_ret].
Qed.

Lemma keeps_getUserModules userId : keeps P (getUserModules userId).
Proof.
  apply keeps_try_catch; [|intros ?; apply keeps_ret].
  apply keeps_bind; [apply keeps_getUserPermissions|intros ?; apply keeps_modules_loop].
Qed.

Lemma keeps_hasPermission userId moduleCode action resource :
  keeps P (hasPermission userId moduleCode action resource).
Proof.
  apply keeps_try_catch; [|intros ?; apply keeps_ret].
  apply keeps_bind; [apply keeps_getUserPermissions|intros ?; apply keeps_ret].
Qed.

Lemma keeps_canAccessModule userId moduleCode : keeps P (canAccessModule userId moduleCode).
Proof.
  apply keeps_try_catch; [|intros ?; apply keeps_ret].
  apply keeps_bind; [apply keeps_getUserPermissions|intros ?; apply keeps_ret].
Qed.

Lemma keeps_hasRole userId roleCode : keeps P (hasRole userId roleCode).
Proof.
  apply keeps_try_catch; [|intros ?; apply keeps_ret].
  apply keeps_bind; [apply keeps_getUserRoles|intros ?; apply keeps_ret].
Qed.

Lemma keeps_isAdmin userId : keeps P (isAdmin userId).
Proof.
  apply keeps_bind; [apply keeps_hasRole|].
  intros [|]; [apply keeps_ret|apply keeps_hasRole].
Qed.

Lemma keeps_adapter_assignRole assignment : keeps P (sheetsAdapter.assignRole assignment).
Proof.
  apply keeps_bind; [apply keeps_generateId|intros ?].
  apply keeps_bind; [apply keeps_now|intros ?].
  apply keeps_bind; [apply keeps_append|intros ?; apply keeps_ret].
Qed.

Lemma keeps_adapter_revokeRole assignmentId : keeps P (sheetsAdapter.revokeRole assignmentId).
Proof.
  apply keeps_bind; [apply keeps_read|intros rows]. cbv beta zeta.
  destruct (findIndex _ _) as [index|]; [|apply keeps_throw].
  destruct (_ !! index); [apply keeps_write|apply keeps_throw].
Qed.

Lemma keeps_assignRole userId roleId assignedBy siteCode expiresAt :
  keeps P (assignRole userId roleId assignedBy siteCode expiresAt).
Proof.
  apply keeps_bind; [apply keeps_adapter_assignRole|].
  intros ?. apply keeps_invalidatePermissionCache.
Qed.

Lemma keeps_revokeRole assignmentId userId : keeps P (revokeRole assignmentId userId).
Proof.
  apply keeps_bind; [apply keeps_adapter_revokeRole|].
  intros ?. apply keeps_invalidatePermissionCache.
Qed.

Lemma keeps_createSystemLog log : keeps P (sheetsAdapter.createSystemLog log).
Proof.
  apply keeps_bind; [apply keeps_generateId|intros ?].
  apply keeps_bind; [apply keeps_now|intros ?]. apply keeps_append.
Qed.

End Keeping.

(** *** The breaker between two calls *)

Lemma breaker_sound_call A (eff : Spreadsheet -> A * Spreadsheet) :
  keeps breaker_sound (execute (retryWithBackoff (http_request eff))).
Proof. intros w r w' Hok Hrun. by apply (execute_step eff w r w' Hok Hrun). Qed.

(** X4. Between two calls, with none in flight, the breaker is not
    HALF_OPEN: it is CLOSED with fewer than five failures counted, or OPEN
    with at least five and the next attempt set. The breaker starts that
    way and every operation of the resolver, of role management and of the
    system log, run to its end, leaves it that way, whatever it returns or
    throws. HALF_OPEN is the state during a probe: what [execute] runs
    once the cool-down is over, the monitor [getCircuitBreakerState] for
    one, finds the breaker HALF_OPEN. *)
Theorem breaker_never_left_half_open `{JsRuntime} :
  (forall s net, breaker_sound (fresh_world s net))
  /\ (forall userId, keeps breaker_sound (getUserRoles userId))
  /\ (forall userId, keeps breaker_sound (getUserPermissions userId))
  /\ (forall userId moduleCode action resource,
         keeps breaker_sound (hasPermission userId moduleCode action resource))
  /\ (forall userId moduleCode, keeps breaker_sound (canAccessModule userId moduleCode))
  /\ (forall userId, keeps breaker_sound (getUserModules userId))
  /\ (forall userId roleCode, keeps breaker_sound (hasRole userId roleCode))
  /\ (forall userId, keeps breaker_sound (isAdmin userId))
  /\ (forall userId roleId assignedBy siteCode expiresAt,
         keeps breaker_sound (assignRole userId roleId assignedBy siteCode expiresAt))
  /\ (forall assignmentId userId, keeps breaker_sound (revokeRole assignmentId userId))
  /\ (forall log, keeps breaker_sound (sheetsAdapter.createSystemLog log))
  /\ (forall w, CircuitBreaker.state (circuitBreaker w) = OPEN ->
                CircuitBreaker.cooling_down (circuitBreaker w) (clock w) = false ->
                fst (execute SheetsClient.getCircuitBreakerState w) = Ok HALF_OPEN).
Proof.
  split; [intros; apply breaker_ok_new|].
  repeat split; intros;
    first [ apply keeps_getUserRoles | apply keeps_getUserPermissions
          | apply keeps_hasPermission | apply keeps_canAccessModule
          | apply keeps_getUserModules | apply keeps_hasRole | apply keeps_isAdmin
          | apply keeps_assignRole | apply keeps_revokeRole
          | apply keeps_createSystemLog | idtac ];
    try apply breaker_sound_call; try done.
  unfold execute.
  match goal with Hcool : CircuitBreaker.cooling_down _ _ = false |- _ => rewrite Hcool end.
  rewrite andb_false_r, bool_decide_eq_true_2 by done. reflexivity.
Qed.

(** X4 at work: five failed resolutions later the breaker is OPEN and
    sound, and a monitor run as the probe, once the minute of cool-down
    is over, finds it HALF_OPEN. *)
Lemma breaker_never_left_half_open_sample :
  let w := fresh_world (sample_spreadsheet "" "*") always_down in
  let after u w := snd (@getUserPermissions sample_runtime u w) in
  let w5 := after "e" (after "d" (after "c" (after "b" (after "a" w)))) in
  breaker_sound w5
  /\ CircuitBreaker.state (circuitBreaker w5) = OPEN
  /\ fst (execute SheetsClient.getCircuitBreakerState (advance 60000 w5)) = Ok HALF_OPEN.
Proof.
  intros w after w5.
  destruct (@breaker_never_left_half_open sample_runtime)
    as (Hnew & _ & Hperms & _ & _ & _ & _ & _ & _ & _ & _ & Hprobe).
  split; [|split; [vm_compute; reflexivity|]].
  - unfold w5, after.
    repeat (eapply Hperms; [|apply surjective_pairing]).
    apply Hnew.
  - apply Hprobe; vm_compute; reflexivity.
Defined.

(** *** Cache entries never expire more than five minutes ahead *)

Lemma cache_fresh_call A (eff : Spreadsheet -> A * Spreadsheet) :
  keeps cache_fresh (execute (retryWithBackoff (http_request eff))).
Proof.
  intros w r w' Hfresh Hrun. apply execute_frame in Hrun.
  destruct Hrun as (_ & Hc & _ & Ht & _).
  intros userId entry Hentry. rewrite Hc in Hentry.
  specialize (Hfresh userId entry Hentry). lia.
Qed.

Lemma cache_fresh_delete w userId :
  cache_fresh w -> cache_fresh (set_permissionCache (delete userId (permissionCache w)) w).
Proof.
  intros Hfresh u entry Hentry. simpl in *.
  apply lookup_delete_Some in Hentry as [_ Hentry]. exact (Hfresh u entry Hentry).
Qed.

Lemma cache_fresh_insert w userId permissions :
  cache_fresh w ->
  cache_fresh
    (set_permissionCache
       (<[userId := {| CacheEntry.permissions := permissions;
                       CacheEntry.expiresAt := clock w + CACHE_TTL |}]>
          (permissionCache w)) w).
Proof.
  intros Hfresh u entry Hentry. simpl in *.
  apply lookup_insert_Some in Hentry as [[_ <-]|[_ Hentry]]; [simpl; lia|].
  exact (Hfresh u entry Hentry).
Qed.

Lemma cache_fresh_clear w : cache_fresh w -> cache_fresh (set_permissionCache ∅ w).
Proof. intros _ u entry Hentry. simpl in Hentry. by rewrite lookup_empty in Hentry. Qed.

Lemma cache_fresh_uuid w : cache_fresh w -> cache_fresh (next_uuid w).
Proof. intros Hfresh u entry Hentry. exact (Hfresh u entry Hentry). Qed.

Lemma cache_fresh_new s net : cache_fresh (fresh_world s net).
Proof. intros u entry Hentry. simpl in Hentry. by rewrite lookup_empty in Hentry. Qed.

Lemma cache_fresh_advance d w : cache_fresh w -> cache_fresh (advance d w).
Proof.
  intros Hfresh u entry Hentry. simpl in *. specialize (Hfresh u entry Hentry). lia.
Qed.

(** X5. No cache entry ever expires more than five minutes ahead of the
    clock: a fresh process has none, and waiting, resolving, checking,
    assigning and revoking keep it so. Hence after more than five minutes
    without any call, no user is served from the cache. *)
Theorem cache_entries_expire_within_ttl `{JsRuntime} :
  (forall s net, cache_fresh (fresh_world s net))
  /\ (forall d w, cache_fresh w -> cache_fresh (advance d w))
  /\ (forall userId, keeps cache_fresh (getUserRoles userId))
  /\ (forall userId, keeps cache_fresh (getUserPermissions userId))
  /\ (forall userId moduleCode action resource,
         keeps cache_fresh (hasPermission userId moduleCode action resource))
  /\ (forall userId moduleCode, keeps cache_fresh (canAccessModule userId moduleCode))
  /\ (forall userId, keeps cache_fresh (getUserModules userId))
  /\ (forall userId, keeps cache_fresh (isAdmin userId))
  /\ (forall userId roleId assignedBy siteCode expiresAt,
         keeps cache_fresh (assignRole userId roleId assignedBy siteCode expiresAt))
  /\ (forall assignmentId userId, keeps cache_fresh (revokeRole assignmentId userId))
  /\ (forall w d userId,
         cache_fresh w -> CACHE_TTL < d ->
         exists w', getCachedPermissions userId (advance d w) = (Ok None, w')
                    /\ permissionCache w' !! userId = None).
Proof.
  split; [apply cache_fresh_new|].
  split; [intros; by apply cache_fresh_advance|].
  repeat split; intros;
    first [ apply keeps_getUserRoles | apply keeps_getUserPermissions
          | apply keeps_hasPermission | apply keeps_canAccessModule
          | apply keeps_getUserModules | apply keeps_isAdmin
          | apply keeps_assignRole | apply keeps_revokeRole | idtac ];
    try apply cache_fresh_call; try apply cache_fresh_uuid;
    try apply cache_fresh_clear;
    try (intros; by apply cache_fresh_delete);
    try (intros; by apply cache_fresh_insert).
  - match goal with Hf : cache_fresh _, Hd : _ < _ |- _ =>
      rename Hf into Hfresh; rename Hd into Hlate end.
    destruct (permissionCache w !! userId) as [entry|] eqn:Hentry.
    + specialize (Hfresh userId entry Hentry).
      rewrite (getCachedPermissions_expired userId (advance d w) entry Hentry)
        by (simpl; lia).
      eexists. split; [reflexivity|]. simpl. by rewrite lookup_delete_eq.
    + exists (advance d w). unfold getCachedPermissions. simpl. by rewrite Hentry.
Qed.

(** X5 at work: U's permissions are cached; five minutes and a millisecond
    later the look-up misses. *)
Lemma cache_entries_expire_within_ttl_sample :
  let w := snd (@getUserPermissions sample_runtime "U"
                  (fresh_world (sample_spreadsheet "" "*") always_ok)) in
  is_Some (permissionCache w !! "U")
  /\ exists w', getCachedPermissions "U" (advance 300001 w) = (Ok None, w')
                /\ permissionCache w' !! "U" = None.
Proof.
  intros w.
  destruct (@cache_entries_expire_within_ttl sample_runtime)
    as (Hnew & _ & _ & Hperms & Hrest).
  split; [vm_compute; by eexists|].
  apply (proj2 (proj2 (proj2 (proj2 (proj2 (proj2 Hrest)))))).
  - eapply Hperms; [apply Hnew|apply surjective_pairing].
  - reflexivity.
Defined.

(** ** One user's cache entry and the others' *)

Section Isolation.
Context `{JsRuntime}.

Lemma getActiveModules_reads_only w r w' :
  sheetsAdapter.getActiveModules w = (r, w') -> reads_only w w'.
Proof.
  rewrite getActiveModules_inv.
  destruct (SheetsClient.read "MODULES" w) as [[rows|e] w1] eqn:Hread;
    intros Hrun; injection Hrun as <- <-; by eapply read_reads_only.
Qed.

Lemma modules_loop_reads_only permissions :
  forall moduleCodes w r w',
    modules_loop permissions moduleCodes w = (r, w') -> reads_only w w'.
Proof.
  induction permissions as [|perm rest IH]; intros moduleCodes w r w' Hrun; simpl in Hrun.
  - injection Hrun as <- <-. apply reads_only_refl.
  - destruct (strict_eq _ _); [|by eapply IH].
    unfold bind in Hrun.
    destruct (sheetsAdapter.getActiveModules w) as [[ms|e] w1] eqn:Hmods;
      injection Hrun as <- <-; by eapply getActiveModules_reads_only.
Qed.

Lemma getUserPermissions_other userId other w r w' :
  userId <> other ->
  getUserPermissions userId w = (r, w') ->
  permissionCache w' !! other = permissionCache w !! other.
Proof.
  intros Hne. unfold getUserPermissions.
  destruct (getCachedPermissions_returns userId w) as (cached & w0 & Hcached).
  rewrite (bind_ok _ _ _ _ _ Hcached).
  assert (permissionCache w0 !! other = permissionCache w !! other) as Hw0.
  { unfold getCachedPermissions in Hcached.
    destruct (permissionCache w !! userId) as [entry|];
      [destruct (CacheEntry.expiresAt entry <? clock w)|];
      injection Hcached as <- <-; simpl; [|done..].
    by rewrite lookup_delete_ne. }
  destruct cached as [ps|].
  { intros Hrun. injection Hrun as <- <-. exact Hw0. }
  destruct (getUserRoles_returns userId w0) as (roles & wa & Hroles).
  pose proof (getUserRoles_reads_only _ _ _ _ Hroles) as (_ & Hca & _).
  destruct (permissions_loop roles [] wa) as [[allPermissions|e] wb] eqn:Hloop;
    pose proof (permissions_loop_reads_only _ _ _ _ _ Hloop) as (_ & Hcb & _).
  - erewrite try_catch_ok;
      [|rewrite (bind_ok _ _ _ _ _ Hroles), (bind_ok _ _ _ _ _ Hloop); reflexivity].
    intros Hrun. injection Hrun as <- <-. simpl.
    rewrite lookup_insert_ne by done. by rewrite Hcb, Hca.
  - erewrite try_catch_throw;
      [|rewrite (bind_ok _ _ _ _ _ Hroles), (bind_throw _ _ _ _ _ Hloop); reflexivity].
    intros Hrun. injection Hrun as <- <-. by rewrite Hcb, Hca.
Qed.

Lemma getUserModules_other userId other w r w' :
  userId <> other ->
  getUserModules userId w = (r, w') ->
  permissionCache w' !! other = permissionCache w !! other.
Proof.
  intros Hne. unfold getUserModules.
  destruct (getUserPermissions_returns userId w) as (ps & w1 & Hperms).
  pose proof (getUserPermissions_other _ _ _ _ _ Hne Hperms) as Hw1.
  destruct (modules_loop ps [] w1) as [[codes|e] w2] eqn:Hloop;
    pose proof (modules_loop_reads_only _ _ _ _ _ Hloop) as (_ & Hc & _).
  - erewrite try_catch_ok; [|by rewrite (bind_ok _ _ _ _ _ Hperms)].
    intros Hrun. injection Hrun as <- <-. by rewrite Hc.
  - erewrite try_catch_throw; [|by rewrite (bind_ok _ _ _ _ _ Hperms)].
    intros Hrun. injection Hrun as <- <-. by rewrite Hc.
Qed.

(** The adapter's two mutations do not touch the cache. *)
Lemma adapter_assignRole_cache assignment w r w' :
  sheetsAdapter.assignRole assignment w = (r, w') ->
  permissionCache w' = permissionCache w.
Proof.
  unfold sheetsAdapter.assignRole, bind, generateId, now, ret,
    SheetsClient.append, values_append.
  match goal with
  | |- context [execute ?f ?w0] => destruct (execute f w0) as [[[]|e] wa] eqn:Hrun
  end; apply execute_frame in Hrun; destruct Hrun as (_ & Hc & _);
    intros Heq; injection Heq as <- <-; exact Hc.
Qed.

Lemma adapter_revokeRole_cache assignmentId w r w' :
  sheetsAdapter.revokeRole assignmentId w = (r, w') ->
  permissionCache w' = permissionCache w.
Proof.
  unfold sheetsAdapter.revokeRole. unfold bind at 1.
  destruct (SheetsClient.read "ROLE_ASSIGNMENTS" w) as [[rows|e] wr] eqn:Hread;
    pose proof (read_reads_only _ _ _ _ Hread) as (_ & Hcr & _).
  2:{ intros Hrun. by injection Hrun as <- <-. }
  destruct (findIndex _ _) as [index|].
  2:{ intros Hrun. by injection Hrun as <- <-. }
  destruct (_ !! index) as [assignment|].
  2:{ intros Hrun. by injection Hrun as <- <-. }
  unfold SheetsClient.write, values_update. intros Hrun.
  apply execute_frame in Hrun. destruct Hrun as (_ & Hc & _). by rewrite Hc.
Qed.

Lemma invalidate_other userId other w r w' :
  userId <> "" -> userId <> other ->
  invalidatePermissionCache (Some userId) w = (r, w') ->
  permissionCache w' !! other = permissionCache w !! other.
Proof.
  intros Hnonempty Hne. unfold invalidatePermissionCache.
  destruct (String.eqb_spec userId ""); [done|]. simpl.
  intros Hrun. injection Hrun as <- <-. simpl. by rewrite lookup_delete_ne.
Qed.

(** X6. Work done for one user leaves every other user's cache entry as it
    was: resolving and checking for [userId] and, when [userId] is not the
    empty string, assigning to or revoking from [userId], whether they
    succeed or fail. *)
Theorem other_users_entries_untouched (userId other : string) :
  userId <> other ->
  (forall w r w', getUserPermissions userId w = (r, w') ->
                  permissionCache w' !! other = permissionCache w !! other)
  /\ (forall moduleCode action resource w r w',
         hasPermission userId moduleCode action resource w = (r, w') ->
         permissionCache w' !! other = permissionCache w !! other)
  /\ (forall moduleCode w r w',
         canAccessModule userId moduleCode w = (r, w') ->
         permissionCache w' !! other = permissionCache w !! other)
  /\ (forall w r w', getUserModules userId w = (r, w') ->
                     permissionCache w' !! other = permissionCache w !! other)
  /\ (userId <> "" ->
      (forall roleId assignedBy siteCode expiresAt w r w',
          assignRole userId roleId assignedBy siteCode expiresAt w = (r, w') ->
          permissionCache w' !! other = permissionCache w !! other)
      /\ (forall assignmentId w r w',
             revokeRole assignmentId userId w = (r, w') ->
             permissionCache w' !! other = permissionCache w !! other)).
Proof.
  intros Hne. split; [intros; by eapply getUserPermissions_other|].
  split.
  { intros moduleCode action resource w r w' Hrun.
    destruct (getUserPermissions_returns userId w) as (ps & w1 & Hperms).
    rewrite (hasPermission_run _ _ _ _ _ _ _ Hperms) in Hrun.
    injection Hrun as <- <-. by eapply getUserPermissions_other. }
  split.
  { intros moduleCode w r w' Hrun.
    destruct (getUserPermissions_returns userId w) as (ps & w1 & Hperms).
    rewrite (canAccessModule_run _ _ _ _ _ Hperms) in Hrun.
    injection Hrun as <- <-. by eapply getUserPermissions_other. }
  split; [intros; by eapply getUserModules_other|].
  intros Hnonempty. split.
  - intros roleId assignedBy siteCode expiresAt w r w' Hrun.
    unfold assignRole, bind in Hrun.
    match type of Hrun with
    | context [sheetsAdapter.assignRole ?a w] =>
        destruct (sheetsAdapter.assignRole a w) as [[a'|e] wa] eqn:Hadapter
    end; apply adapter_assignRole_cache in Hadapter.
    + rewrite <- Hadapter. by eapply invalidate_other.
    + injection Hrun as <- <-. by rewrite Hadapter.
  - intros assignmentId w r w' Hrun.
    unfold revokeRole, bind in Hrun.
    destruct (sheetsAdapter.revokeRole assignmentId w) as [[[]|e] wa] eqn:Hadapter;
      apply adapter_revokeRole_cache in Hadapter.
    + rewrite <- Hadapter. by eapply invalidate_other.
    + injection Hrun as <- <-. by rewrite Hadapter.
Qed.

(** X7. The empty user identifier is the exception: [invalidatePermissionCache]
    takes it for no identifier, so an assignment or a revocation for the
    user "" that completes empties the whole cache, every user's entry
    included. *)
Theorem empty_user_id_clears_cache :
  (forall roleId assignedBy siteCode expiresAt w w',
      assignRole "" roleId assignedBy siteCode expiresAt w = (Ok tt, w') ->
      permissionCache w' = ∅)
  /\ (forall assignmentId w w',
         revokeRole assignmentId "" w = (Ok tt, w') ->
         permissionCache w' = ∅).
Proof.
  split.
  - intros roleId assignedBy siteCode expiresAt w w' Hrun.
    apply assignRole_inv in Hrun. destruct Hrun as (wa & _ & Hinv).
    by injection Hinv as <-.
  - intros assignmentId w w' Hrun.
    apply revokeRole_inv in Hrun.
    destruct Hrun as (index & assignment & wr & wa & _ & _ & _ & _ & Hinv).
    by injection Hinv as <-.
Qed.

End Isolation.

(** X6 and X7 at work: U's permissions are cached; an assignment to V
    leaves U's entry, an assignment to the user "" removes it. *)
Lemma other_users_entries_untouched_sample :
  let w := snd (@getUserPermissions sample_runtime "U"
                  (fresh_world (sample_spreadsheet "" "*") always_ok)) in
  permissionCache (snd (@assignRole sample_runtime "V" "r-admin" "U" None None w)) !! "U"
  = permissionCache w !! "U".
Proof.
  intros w.
  destruct (@other_users_entries_untouched sample_runtime "V" "U" ltac:(discriminate))
    as (_ & _ & _ & _ & Hmutations).
  destruct (Hmutations ltac:(discriminate)) as [Hassign _].
  eapply Hassign. apply surjective_pairing.
Defined.

Lemma empty_user_id_clears_cache_sample :
  let w := snd (@getUserPermissions sample_runtime "U"
                  (fresh_world (sample_spreadsheet "" "*") always_ok)) in
  is_Some (permissionCache w !! "U")
  /\ permissionCache (snd (@assignRole sample_runtime "" "r-admin" "U" None None w)) = ∅.
Proof.
  intros w. split; [vm_compute; by eexists|].
  apply (proj1 (@empty_user_id_clears_cache sample_runtime) "r-admin" "U" None None w).
  vm_compute. reflexivity.
Defined.

(** ** While the breaker is open *)

Lemma execute_rejected {A} (fn : Async A) w :
  CircuitBreaker.state (circuitBreaker w) = OPEN ->
  CircuitBreaker.cooling_down (circuitBreaker w) (clock w) = true ->
  execute fn w = (Throw breaker_open_error, w).
Proof.
  intros Hopen Hcool. unfold execute.
  by rewrite Hcool, bool_decide_eq_true_2.
Qed.

Section OpenBreaker.
Context `{JsRuntime}.

(** X8. While the breaker is OPEN and cooling down, reads are answered at
    once and fail closed: [getUserRoles], [hasRole] and [isAdmin] return
    the empty or negative answer and leave the world exactly as it was,
    and a resolution that misses the cache returns the empty list without
    a request and without time passing. Writes raise the breaker's
    "temporarily unavailable" error without a request: the sheet is
    untouched and the cache is not invalidated. *)
Theorem open_breaker_answers_at_once (w : World) :
  CircuitBreaker.state (circuitBreaker w) = OPEN ->
  CircuitBreaker.cooling_down (circuitBreaker w) (clock w) = true ->
  (forall userId, getUserRoles userId w = (Ok [], w))
  /\ (forall userId roleCode, hasRole userId roleCode w = (Ok false, w))
  /\ (forall userId, isAdmin userId w = (Ok false, w))
  /\ (forall userId,
         permissionCache w !! userId = None ->
         exists w',
           getUserPermissions userId w = (Ok [], w')
           /\ requests w' = requests w /\ clock w' = clock w
           /\ spreadsheet w' = spreadsheet w)
  /\ (forall userId roleId assignedBy siteCode expiresAt,
         exists w',
           assignRole userId roleId assignedBy siteCode expiresAt w
           = (Throw breaker_open_error, w')
           /\ requests w' = requests w
           /\ spreadsheet w' = spreadsheet w
           /\ permissionCache w' = permissionCache w)
  /\ (forall assignmentId userId,
         revokeRole assignmentId userId w = (Throw breaker_open_error, w))
  /\ (forall log,
         exists w',
           sheetsAdapter.createSystemLog log w = (Throw breaker_open_error, w')
           /\ requests w' = requests w
           /\ spreadsheet w' = spreadsheet w).
Proof.
  intros Hopen Hcool.
  assert (forall userId, getUserRoles userId w = (Ok [], w)) as Hroles.
  { intros userId. unfold getUserRoles.
    erewrite try_catch_throw; [reflexivity|].
    unfold sheetsAdapter.getRoleAssignments.
    erewrite bind_throw; [reflexivity|]. erewrite bind_throw; [reflexivity|].
    by apply execute_rejected. }
  assert (forall userId roleCode, hasRole userId roleCode w = (Ok false, w)) as Hrole.
  { intros. by rewrite (hasRole_run _ _ _ _ _ (Hroles userId)). }
  split; [done|]. split; [done|]. split.
  { intros userId. unfold isAdmin. by rewrite (bind_ok _ _ _ _ _ (Hrole userId _)). }
  split.
  { intros userId Hmiss. eexists. split.
    - unfold getUserPermissions.
      erewrite bind_ok; [|by unfold getCachedPermissions; rewrite Hmiss].
      cbv beta iota. erewrite try_catch_ok; [reflexivity|].
      rewrite (bind_ok _ _ _ _ _ (Hroles userId)). reflexivity.
    - by simpl. }
  split.
  { intros. eexists. split.
    - unfold assignRole, sheetsAdapter.assignRole.
      erewrite bind_throw; [reflexivity|].
      unfold bind at 1. unfold generateId. unfold bind at 1. unfold now.
      erewrite bind_throw; [reflexivity|].
      by apply execute_rejected.
    - by simpl. }
  split.
  { intros. unfold revokeRole, sheetsAdapter.revokeRole.
    erewrite bind_throw; [reflexivity|]. erewrite bind_throw; [reflexivity|].
    by apply execute_rejected. }
  intros. eexists. split.
  - unfold sheetsAdapter.createSystemLog.
    unfold bind at 1. unfold generateId. unfold bind at 1. unfold now.
    by apply execute_rejected.
  - by simpl.
Qed.

End OpenBreaker.

(** X8 at work: five failed look-ups open the breaker; the sixth, at the
    same instant, changes nothing. *)
Lemma open_breaker_answers_at_once_sample :
  let after w := snd (getUserRoles "U" w) in
  let w5 := after (after (after (after (after
              (fresh_world (sample_spreadsheet "" "*") always_down))))) in
  requests w5 = 15%nat /\ getUserRoles "U" w5 = (Ok [], w5).
Proof.
  intros after w5. split; [vm_compute; reflexivity|].
  apply (@open_breaker_answers_at_once sample_runtime w5); vm_compute; reflexivity.
Defined.

(** ** Retries *)

Lemma latency_sum_1 net first : latency_sum net first 1 = latency (net first).
Proof. simpl. lia. Qed.

(** X9. What [retryWithBackoff] around one request does, in full: it
    retries k times, k from 0 to 2, that is, sends k + 1 requests; every
    request but the last failed with a retryable error; it returns when the
    last request succeeded and otherwise raises the last request's own
    error, which is retryable only if that request was the third ("Max
    retries exceeded" is never raised); and the time it takes is the
    requests' latencies plus nothing, 200 ms or 700 ms of sleep for k = 0,
    1, 2: the third delay, 1000 ms, is never slept. *)
Theorem retryWithBackoff_outcome {A} (eff : Spreadsheet -> A * Spreadsheet) w r w' :
  retryWithBackoff (http_request eff) w = (r, w') ->
  exists k,
    (k <= 2)%nat
    /\ requests w' = (requests w + S k)%nat
    /\ clock w' = clock w + latency_sum (network w) (requests w) (S k) + slept_after k
    /\ (forall i, (i < k)%nat ->
                  exists e, failure (network w (requests w + i)) = Some e
                            /\ isRetryable e = true)
    /\ match r with
       | Ok _ => failure (network w (requests w + k)) = None
       | Throw e =>
           failure (network w (requests w + k)) = Some e
           /\ ((k < 2)%nat -> isRetryable e = false)
       end.
Proof.
  unfold retryWithBackoff. cbn [retry_loop].
  unfold try_catch at 1. unfold http_request at 1.
  destruct (failure (network w (requests w))) as [e0|] eqn:H0.
  2:{ destruct (eff _) as [a s]. intros Hrun. injection Hrun as <- <-.
      exists 0%nat. rewrite Nat.add_0_r. cbn.
      repeat split; try lia; try done. }
  destruct (isRetryable e0) eqn:Hr0; cbn [negb orb Nat.eqb Nat.sub].
  2:{ intros Hrun. injection Hrun as <- <-.
      exists 0%nat. rewrite Nat.add_0_r. cbn.
      repeat split; try lia; try done. }
  unfold bind at 1. unfold sleep at 1. cbn [nth delays].
  unfold try_catch at 1. unfold http_request at 1. cbn [network requests advance answered].
  assert (forall i, (i < 1)%nat ->
                    exists e, failure (network w (requests w + i)) = Some e
                              /\ isRetryable e = true) as Hfirst1.
  { intros i Hi. assert (i = 0%nat) as -> by lia. rewrite Nat.add_0_r. by exists e0. }
  destruct (failure (network w (S (requests w)))) as [e1|] eqn:H1.
  2:{ destruct (eff _) as [a s]. intros Hrun. injection Hrun as <- <-.
      exists 1%nat. rewrite Nat.add_1_r. cbn.
      repeat split; try lia; try done. }
  destruct (isRetryable e1) eqn:Hr1; cbn [negb orb Nat.eqb Nat.sub].
  2:{ intros Hrun. injection Hrun as <- <-.
      exists 1%nat. rewrite Nat.add_1_r. cbn.
      repeat split; try lia; try done. }
  unfold bind at 1. unfold sleep at 1. cbn [nth delays].
  unfold try_catch at 1. unfold http_request at 1. cbn [network requests advance answered].
  assert (forall i, (i < 2)%nat ->
                    exists e, failure (network w (requests w + i)) = Some e
                              /\ isRetryable e = true) as Hfirst2.
  { intros i Hi. destruct i as [|[|i]]; [| |lia].
    - rewrite Nat.add_0_r. by exists e0.
    - rewrite Nat.add_1_r. by exists e1. }
  destruct (failure (network w (S (S (requests w))))) as [e2|] eqn:H2.
  2:{ destruct (eff _) as [a s]. intros Hrun. injection Hrun as <- <-.
      exists 2%nat. cbn.
      replace (requests w + 2)%nat with (S (S (requests w))) by lia.
      repeat split; try lia; try done. }
  rewrite orb_true_r. intros Hrun. injection Hrun as <- <-.
  exists 2%nat. cbn.
  replace (requests w + 2)%nat with (S (S (requests w))) by lia.
  repeat split; try lia; try done.
Qed.

(** X9 at work: two rejected requests, then an answer. *)
Lemma retryWithBackoff_outcome_sample :
  let w := fresh_world (sample_spreadsheet "" "*") (down_until 2) in
  exists k,
    (k <= 2)%nat
    /\ requests (snd (retryWithBackoff (values_get "ROLES") w)) = (requests w + S k)%nat
    /\ clock (snd (retryWithBackoff (values_get "ROLES") w))
       = clock w + latency_sum (network w) (requests w) (S k) + slept_after k.
Proof.
  intros w.
  destruct (retryWithBackoff_outcome (fun s => (sheet_rows s "ROLES", s)) w
              (fst (retryWithBackoff (values_get "ROLES") w))
              (snd (retryWithBackoff (values_get "ROLES") w)))
    as (k & Hk & Hq & Ht & _).
  - apply surjective_pairing.
  - by exists k.
Defined.

(** ** What assigning and revoking write *)

Lemma sheet_rows_insert (s : Spreadsheet) sheetName rows :
  sheet_rows (<[sheetName := rows]> s) sheetName = rows.
Proof. unfold sheet_rows. by rewrite lookup_insert_eq. Qed.

Lemma sheet_rows_insert_ne (s : Spreadsheet) sheetName other rows :
  sheetName <> other -> sheet_rows (<[sheetName := rows]> s) other = sheet_rows s other.
Proof. intros Hne. unfold sheet_rows. by rewrite lookup_insert_ne. Qed.

Lemma findIndex_Some {A} (p : A -> bool) (xs : list A) index :
  findIndex p xs = Some index ->
  exists x, xs !! index = Some x /\ p x = true
            /\ forall j y, (j < index)%nat -> xs !! j = Some y -> p y = false.
Proof.
  revert index. induction xs as [|x r IH]; intros index Hfind; simpl in Hfind; [done|].
  destruct (p x) eqn:Hpx.
  - injection Hfind as <-. exists x. repeat split; try done. intros j y Hj. lia.
  - destruct (findIndex p r) as [i|] eqn:Hr; [|done]. injection Hfind as <-.
    destruct (IH i eq_refl) as (y & Hy & Hpy & Hbefore).
    exists y. repeat split; try done.
    intros [|j] z Hj Hz; simpl in Hz; [by injection Hz as <-|].
    eapply Hbefore; [|done]. lia.
Qed.

Lemma findIndex_None {A} (p : A -> bool) (xs : list A) :
  findIndex p xs = None <-> forall x, x ∈ xs -> p x = false.
Proof.
  induction xs as [|x r IH]; simpl.
  - split; [|done]. intros _ y Hy. by apply elem_of_nil in Hy.
  - destruct (p x) eqn:Hpx.
    + split; [done|]. intros Hall. specialize (Hall x ltac:(by left)). congruence.
    + split.
      * intros Hnone y Hy.
        apply elem_of_cons in Hy as [->|Hy]; [done|].
        apply (proj1 IH); [|done]. by destruct (findIndex p r).
      * intros Hall. rewrite (proj2 IH); [done|].
        intros y Hy. apply Hall. by right.
Qed.

Lemma alter_ext_at {A} (f g : A -> A) (l : list A) i x :
  l !! i = Some x -> f x = g x -> alter f i l = alter g i l.
Proof.
  intros Hx Hfg. apply list_eq. intros j.
  destruct (decide (i = j)) as [<-|Hne].
  - rewrite !list_lookup_alter_eq, Hx. simpl. by rewrite Hfg.
  - by rewrite !list_lookup_alter_ne.
Qed.

Lemma js_or_reads_back (c : JsValue) :
  js_or (js_or (js_or c JUndefined) (JStr "")) JUndefined = js_or c JUndefined.
Proof. unfold js_or. by destruct (truthy c) eqn:Hc; simpl; rewrite ?Hc. Qed.

(** The row written for a revocation deserializes to the assignment it was
    written for, switched off. *)
Lemma revoked_row_reads_back (old : list JsValue) :
  mapRowToRoleAssignment
    (overwrite_cells 8 (sheetsAdapter.revoked_row (mapRowToRoleAssignment old)) old)
  = set_inactive (mapRowToRoleAssignment old).
Proof.
  unfold mapRowToRoleAssignment, set_inactive, overwrite_cells, sheetsAdapter.revoked_row.
  cbn -[js_or]. by rewrite !js_or_reads_back.
Qed.

Section Written.
Context `{JsRuntime}.

Lemma adapter_assignRole_inv assignment w r w' :
  sheetsAdapter.assignRole assignment w = (Ok r, w') ->
  SheetsClient.append "ROLE_ASSIGNMENTS"
    [sheetsAdapter.assignment_row (randomUUID (uuids w)) (toISOString (clock w)) assignment]
    (next_uuid w) = (Ok tt, w')
  /\ mapRowToRoleAssignment
       (sheetsAdapter.assignment_row (randomUUID (uuids w)) (toISOString (clock w))
          assignment)
     = (if bool_decide (NewRoleAssignment.site_code assignment <> Some ""
                        /\ NewRoleAssignment.expires_at assignment <> Some "")
        then r else
        mapRowToRoleAssignment
          (sheetsAdapter.assignment_row (randomUUID (uuids w)) (toISOString (clock w))
             assignment)).
Proof.
  unfold sheetsAdapter.assignRole, bind, generateId, now, ret. simpl.
  match goal with
  | |- context [SheetsClient.append ?s ?v ?w0] =>
      destruct (SheetsClient.append s v w0) as [[[]|e] wa]
  end; intros Hrun; [|discriminate].
  injection Hrun as <- <-. split; [done|].
  case_bool_decide as Hopt; [|done]. destruct Hopt as [Hsite Hexp].
  unfold mapRowToRoleAssignment, sheetsAdapter.assignment_row. simpl.
  f_equal.
  - destruct (NewRoleAssignment.site_code assignment) as [s|]; [|done].
    simpl. unfold js_or. simpl. destruct (String.eqb_spec s ""); [by subst|done].
  - destruct (NewRoleAssignment.expires_at assignment) as [s|]; [|done].
    simpl. unfold js_or. simpl. destruct (String.eqb_spec s ""); [by subst|done].
  - by destruct (NewRoleAssignment.is_active assignment).
Qed.

(** X10. An assignment reads back as it was returned. When the adapter's
    [assignRole] completes for an active assignment whose optional site and
    expiry are absent or not empty, the sheet has grown by one row, that
    row deserializes to the returned assignment and, if the sheet had at
    least its header row, the assignment is among the user's stored active
    assignments. On a sheet without any row the new row takes the header's
    place and the user has no stored assignment. *)
Theorem assignment_reads_back assignment w r w' :
  sheetsAdapter.assignRole assignment w = (Ok r, w') ->
  NewRoleAssignment.site_code assignment <> Some "" ->
  NewRoleAssignment.expires_at assignment <> Some "" ->
  NewRoleAssignment.is_active assignment = true ->
  let rows := sheet_rows (spreadsheet w) "ROLE_ASSIGNMENTS" in
  let rows' := sheet_rows (spreadsheet w') "ROLE_ASSIGNMENTS" in
  (exists row, rows' = rows ++ [row] /\ mapRowToRoleAssignment row = r)
  /\ (rows <> [] ->
      r ∈ stored_assignments (spreadsheet w') (NewRoleAssignment.user_id assignment))
  /\ (rows = [] ->
      stored_assignments (spreadsheet w') (NewRoleAssignment.user_id assignment) = []).
Proof.
  intros Hrun Hsite Hexp Hactive rows rows'.
  pose proof Hrun as Hr.
  apply adapter_assignRole_inv in Hrun. destruct Hrun as [Happend Hback].
  rewrite bool_decide_eq_true_2 in Hback by done.
  apply append_ok in Happend. destruct Happend as (Hs & _).
  assert (rows' = rows ++ [sheetsAdapter.assignment_row (randomUUID (uuids w))
                             (toISOString (clock w)) assignment]) as Hrows'.
  { unfold rows'. rewrite Hs. by rewrite sheet_rows_insert. }
  split; [by eexists|].
  assert (RoleAssignment.user_id r = JStr (NewRoleAssignment.user_id assignment)
          /\ RoleAssignment.is_active r = true) as [Huser Hact].
  { rewrite <- Hback. unfold mapRowToRoleAssignment, sheetsAdapter.assignment_row.
    simpl. by rewrite Hactive. }
  unfold stored_assignments. fold rows'. rewrite Hrows'. unfold slice1. split.
  - intros Hne. destruct rows as [|header rest]; [done|]. simpl.
    apply list_elem_of_filter. split.
    + rewrite Huser, Hact. unfold strict_eq. by rewrite bool_decide_eq_true_2.
    + rewrite drop_0, List.map_app. apply elem_of_app. right. simpl.
      rewrite Hback. by left.
  - intros Hnil. rewrite Hnil. reflexivity.
Qed.

(** X11. A revocation switches off one stored assignment and nothing else.
    When [revokeRole] completes, the first stored assignment with the given
    identifier is the same assignment made inactive, every other stored
    assignment and the header row are as before, and so is every other
    sheet. *)
Theorem revokeRole_switches_one_off assignmentId userId w w' :
  revokeRole assignmentId userId w = (Ok tt, w') ->
  let assignments s :=
    map mapRowToRoleAssignment (slice1 (sheet_rows s "ROLE_ASSIGNMENTS")) in
  exists index assignment,
    assignments (spreadsheet w) !! index = Some assignment
    /\ RoleAssignment.assignment_id assignment = JStr assignmentId
    /\ (forall j a, (j < index)%nat -> assignments (spreadsheet w) !! j = Some a ->
                    RoleAssignment.assignment_id a <> JStr assignmentId)
    /\ assignments (spreadsheet w') = alter set_inactive index (assignments (spreadsheet w))
    /\ head (sheet_rows (spreadsheet w') "ROLE_ASSIGNMENTS")
       = head (sheet_rows (spreadsheet w) "ROLE_ASSIGNMENTS")
    /\ forall sheetName, sheetName <> "ROLE_ASSIGNMENTS" ->
                         sheet_rows (spreadsheet w') sheetName
                         = sheet_rows (spreadsheet w) sheetName.
Proof.
  intros Hrun assignments.
  apply revokeRole_inv in Hrun.
  destruct Hrun as (index & assignment & wr & wa & Hindex & Hassignment
                    & Hread & Hwrite & Hinv).
  apply write_ok in Hwrite. destruct Hwrite as (Hs & _).
  pose proof (read_reads_only _ _ _ _ Hread) as (_ & _ & _ & Hsr & _).
  destruct (invalidatePermissionCache_user userId wa) as (w1 & Hinv' & _ & Hs1 & _).
  assert (w1 = w') as -> by congruence.
  assert (spreadsheet w'
          = <["ROLE_ASSIGNMENTS" :=
                alter (overwrite_cells 8 (sheetsAdapter.revoked_row assignment)) (S index)
                      (sheet_rows (spreadsheet w) "ROLE_ASSIGNMENTS")]> (spreadsheet w))
    as Hsheet.
  { rewrite Hs1, Hs, Hsr. simpl.
    by replace (index + 2 - 1)%nat with (S index) by lia. }
  apply findIndex_Some in Hindex.
  destruct Hindex as (a & Ha & Hid & Hbefore).
  assert (a = assignment) as -> by congruence.
  exists index, assignment. split; [done|]. split.
  { unfold strict_eq in Hid. by apply bool_decide_eq_true_1 in Hid. }
  split.
  { intros j a Hj Hja Heq. specialize (Hbefore j a Hj Hja).
    unfold strict_eq in Hbefore. apply bool_decide_eq_false_1 in Hbefore. done. }
  set (rows := sheet_rows (spreadsheet w) "ROLE_ASSIGNMENTS") in *.
  assert (exists old, rows !! S index = Some old /\ mapRowToRoleAssignment old = assignment)
    as (old & Hold & Hmap).
  { apply list_lookup_fmap_Some in Hassignment as (old & Hmap & Hold).
    unfold slice1 in Hold. rewrite lookup_drop in Hold. by exists old. }
  split; [|split].
  - unfold assignments. rewrite Hsheet, sheet_rows_insert. fold rows.
    unfold slice1. rewrite drop_alter_ge by lia.
    replace (S index - 1)%nat with index by lia.
    erewrite (alter_ext_at _
                (fun x => overwrite_cells 8
                            (sheetsAdapter.revoked_row (mapRowToRoleAssignment x)) x)).
    + apply list_fmap_alter. apply Forall_forall. intros x _.
      apply revoked_row_reads_back.
    + rewrite lookup_drop. exact Hold.
    + by rewrite Hmap.
  - rewrite Hsheet, sheet_rows_insert. fold rows.
    destruct rows as [|header rest]; [done|]. reflexivity.
  - intros sheetName Hne. rewrite Hsheet. by apply sheet_rows_insert_ne.
Qed.

(** X12. Revoking an assignment no row carries, with the store answering:
    [revokeRole] raises "Assignment not found: <id>" after one read,
    writes nothing and leaves the cache, the user's entry included, as it
    was. *)
Theorem revokeRole_unknown_assignment assignmentId userId w :
  healthy w ->
  (forall a, a ∈ map mapRowToRoleAssignment
                   (slice1 (sheet_rows (spreadsheet w) "ROLE_ASSIGNMENTS")) ->
             RoleAssignment.assignment_id a <> JStr assignmentId) ->
  exists w',
    revokeRole assignmentId userId w
    = (Throw (Error ("Assignment not found: " +:+ assignmentId)), w')
    /\ spreadsheet w' = spreadsheet w
    /\ permissionCache w' = permissionCache w
    /\ requests w' = S (requests w).
Proof.
  intros Hw Hunknown.
  destruct (read_healthy "ROLE_ASSIGNMENTS" w Hw) as (w' & Hread & _ & Hro & Hq).
  destruct Hro as (_ & Hc & _ & Hs & _).
  exists w'. split; [|done].
  unfold revokeRole, sheetsAdapter.revokeRole.
  erewrite bind_throw; [reflexivity|].
  rewrite (bind_ok _ _ _ _ _ Hread). cbv beta zeta.
  rewrite (proj2 (findIndex_None _ _)); [done|].
  intros a Ha. unfold strict_eq. apply bool_decide_eq_false_2. by apply Hunknown.
Qed.

End Written.

(** X10 at work: ADMIN assigned to V for site HQ. *)
Lemma assignment_reads_back_sample :
  let w := fresh_world (sample_spreadsheet "" "*") always_ok in
  let assignment :=
    {| NewRoleAssignment.user_id := "V"; NewRoleAssignment.role_id := "r-admin";
       NewRoleAssignment.site_code := Some "HQ"; NewRoleAssignment.assigned_by := "U";
       NewRoleAssignment.expires_at := None; NewRoleAssignment.is_active := true |} in
  let r :=
    {| RoleAssignment.assignment_id := JStr "uuid-0";
       RoleAssignment.user_id := JStr "V";
       RoleAssignment.role_id := JStr "r-admin";
       RoleAssignment.site_code := JStr "HQ";
       RoleAssignment.assigned_by := JStr "U";
       RoleAssignment.assigned_at := JStr "1793577600000";
       RoleAssignment.expires_at := JUndefined;
       RoleAssignment.is_active := true |} in
  r ∈ stored_assignments
        (spreadsheet (snd (@sheetsAdapter.assignRole sample_runtime assignment w))) "V".
Proof.
  intros w assignment r.
  destruct (@assignment_reads_back sample_runtime assignment w r
              (snd (@sheetsAdapter.assignRole sample_runtime assignment w)))
    as (_ & Hin & _).
  - vm_compute. reflexivity.
  - discriminate.
  - discriminate.
  - reflexivity.
  - apply Hin. vm_compute. discriminate.
Defined.

(** X11 at work: U's assignment a-1 revoked. *)
Lemma revokeRole_switches_one_off_sample :
  let w := fresh_world (sample_spreadsheet "" "*") always_ok in
  let w' := snd (revokeRole "a-1" "U" w) in
  head (sheet_rows (spreadsheet w') "ROLE_ASSIGNMENTS") = Some assignments_header
  /\ sheet_rows (spreadsheet w') "ROLES" = [roles_header; admin_role_row].
Proof.
  intros w w'.
  destruct (revokeRole_switches_one_off "a-1" "U" w w')
    as (index & assignment & _ & _ & _ & _ & Hhead & Hothers).
  - vm_compute. reflexivity.
  - split.
    + rewrite Hhead. vm_compute. reflexivity.
    + rewrite Hothers by discriminate. vm_compute. reflexivity.
Defined.

(** X12 at work: no row carries the identifier a-9. *)
Lemma revokeRole_unknown_assignment_sample :
  let w := snd (@getUserPermissions sample_runtime "U"
                  (fresh_world (sample_spreadsheet "" "*") always_ok)) in
  exists w',
    revokeRole "a-9" "U" w = (Throw (Error "Assignment not found: a-9"), w')
    /\ spreadsheet w' = spreadsheet w
    /\ permissionCache w' = permissionCache w
    /\ requests w' = S (requests w).
Proof.
  intros w.
  apply (revokeRole_unknown_assignment "a-9" "U" w).
  - split; [vm_compute; reflexivity|]. intros n _. reflexivity.
  - intros a Ha.
    assert (findIndex (fun a => strict_eq (RoleAssignment.assignment_id a) (JStr "a-9"))
              (map mapRowToRoleAssignment
                 (slice1 (sheet_rows (spreadsheet w) "ROLE_ASSIGNMENTS"))) = None)
      as Hnone by (vm_compute; reflexivity).
    pose proof (proj1 (findIndex_None _ _) Hnone a Ha) as Hne.
    unfold strict_eq in Hne. by apply bool_decide_eq_false_1 in Hne.
Defined.

(** ** What the store grants *)

Lemma collect_roles_omap (s : Spreadsheet) assignments :
  forall roles,
    collect_roles s assignments roles = roles ++ omap (role_of_assignment s) assignments.
Proof.
  induction assignments as [|a rest IH]; intros roles; simpl.
  - by rewrite app_nil_r.
  - unfold role_of_assignment at 1.
    destruct (stored_role s (RoleAssignment.role_id a)) as [r|];
      [destruct (Role.is_active r)|]; rewrite IH; [|done..].
    by rewrite <- app_assoc.
Qed.

Section Granted.
Context `{JsRuntime}.

Lemma collect_permissions_elem_of (s : Spreadsheet) roles :
  forall acc p,
    p ∈ collect_permissions s roles acc <->
    p ∈ acc
    \/ exists role perm,
         role ∈ roles
         /\ perm ∈ stored_permissions s (UserRole.role_id role)
         /\ p = toUserPermission perm.
Proof.
  induction roles as [|role rest IH]; intros acc p; simpl.
  - split; [by left|]. intros [Hp|(role & perm & Hrole & _)]; [done|].
    by apply elem_of_nil in Hrole.
  - rewrite IH, elem_of_app. split.
    + intros [[Hp|Hp]|(role' & perm & Hrole & Hperm & ->)].
      * by left.
      * right. apply list_elem_of_fmap in Hp as (perm & -> & Hperm).
        exists role, perm. split; [by left|done].
      * right. exists role', perm. split; [by right|done].
    + intros [Hp|(role' & perm & Hrole & Hperm & ->)]; [by left; left|].
      apply elem_of_cons in Hrole as [->|Hrole].
      * left. right. apply list_elem_of_fmap. by exists perm.
      * right. by exists role', perm.
Qed.

Lemma elem_of_roles_of_assignments (s : Spreadsheet) userId role :
  role ∈ omap (role_of_assignment s) (stored_assignments s userId) <->
  exists a r,
    a ∈ map mapRowToRoleAssignment (slice1 (sheet_rows s "ROLE_ASSIGNMENTS"))
    /\ RoleAssignment.user_id a = JStr userId
    /\ RoleAssignment.is_active a = true
    /\ stored_role s (RoleAssignment.role_id a) = Some r
    /\ Role.is_active r = true
    /\ role = {| UserRole.role_id := Role.role_id r;
                 UserRole.role_code := Role.role_code r;
                 UserRole.role_name := Role.role_name r;
                 UserRole.site_code := RoleAssignment.site_code a |}.
Proof.
  rewrite list_elem_of_omap. unfold stored_assignments. split.
  - intros (a & Ha & Hrole).
    apply list_elem_of_filter in Ha as [Hcond Ha].
    apply andb_prop_elim in Hcond as [Huser Hactive].
    unfold strict_eq in Huser. apply bool_decide_unpack in Huser.
    apply Is_true_eq_true in Hactive.
    unfold role_of_assignment in Hrole.
    destruct (stored_role s (RoleAssignment.role_id a)) as [r|] eqn:Hr; [|done].
    destruct (Role.is_active r) eqn:Hra; [|done].
    injection Hrole as <-. by exists a, r.
  - intros (a & r & Ha & Huser & Hactive & Hr & Hra & ->).
    exists a. split.
    + apply list_elem_of_filter. split; [|done].
      rewrite Huser, Hactive. unfold strict_eq. by rewrite bool_decide_eq_true_2.
    + unfold role_of_assignment. by rewrite Hr, Hra.
Qed.

(** X13. With the breaker closed and the store answering, [getUserRoles]
    returns one role per stored active assignment of the user whose role
    identifier finds, as its first row in ROLES, an active role, in the
    order of the assignments and with their site codes; an assignment whose
    role row is missing or inactive contributes nothing and is no error,
    and an assignment held twice gives its role twice. *)
Theorem getUserRoles_from_store userId w :
  healthy w ->
  let s := spreadsheet w in
  exists w',
    getUserRoles userId w
    = (Ok (omap (role_of_assignment s) (stored_assignments s userId)), w')
    /\ spreadsheet w' = s
    /\ forall role,
         role ∈ omap (role_of_assignment s) (stored_assignments s userId) <->
         exists a r,
           a ∈ map mapRowToRoleAssignment (slice1 (sheet_rows s "ROLE_ASSIGNMENTS"))
           /\ RoleAssignment.user_id a = JStr userId
           /\ RoleAssignment.is_active a = true
           /\ stored_role s (RoleAssignment.role_id a) = Some r
           /\ Role.is_active r = true
           /\ role = {| UserRole.role_id := Role.role_id r;
                        UserRole.role_code := Role.role_code r;
                        UserRole.role_name := Role.role_name r;
                        UserRole.site_code := RoleAssignment.site_code a |}.
Proof.
  intros Hw s.
  destruct (getUserRoles_healthy userId w Hw) as (w' & Hrun & _ & Hro & _).
  exists w'. split; [|split].
  - rewrite Hrun. unfold stored_user_roles. by rewrite collect_roles_omap.
  - by destruct Hro as (_ & _ & _ & Hs & _).
  - intros role. apply elem_of_roles_of_assignments.
Qed.

(** X14. End to end, from rows to answer. With the breaker closed, the
    store answering and no cache entry for the user, [hasPermission]
    answers [true] exactly when the sheets hold an active assignment of the
    user, whose role identifier finds as its first ROLES row an active
    role, for which there is an active permission row that matches the
    request. No inactive assignment, role or permission ever grants. *)
Theorem hasPermission_from_store userId moduleCode action resource w :
  healthy w ->
  permissionCache w !! userId = None ->
  let s := spreadsheet w in
  fst (hasPermission userId moduleCode action resource w) = Ok true <->
  exists a r perm,
    a ∈ map mapRowToRoleAssignment (slice1 (sheet_rows s "ROLE_ASSIGNMENTS"))
    /\ RoleAssignment.user_id a = JStr userId
    /\ RoleAssignment.is_active a = true
    /\ stored_role s (RoleAssignment.role_id a) = Some r
    /\ Role.is_active r = true
    /\ perm ∈ map mapRowToPermission (slice1 (sheet_rows s "PERMISSIONS"))
    /\ Permission.role_id perm = Role.role_id r
    /\ Permission.is_active perm = true
    /\ matches_when_nonempty moduleCode action resource (toUserPermission perm).
Proof.
  intros Hw Hmiss s.
  destruct (getUserPermissions_healthy userId w Hw Hmiss) as (w' & Hperms & _).
  rewrite (hasPermission_run _ _ _ _ _ _ _ Hperms). simpl.
  pose proof (elem_of_roles_of_assignments s userId) as Hroles.
  split.
  - intros Hgranted. injection Hgranted as Hgranted.
    apply existsb_exists in Hgranted. destruct Hgranted as (p & Hp & Hallow).
    apply list_elem_of_In in Hp. unfold stored_user_permissions in Hp.
    apply collect_permissions_elem_of in Hp as [Hp|(role & perm & Hrole & Hperm & ->)];
      [by apply elem_of_nil in Hp|].
    unfold stored_user_roles in Hrole. rewrite collect_roles_omap in Hrole.
    simpl in Hrole. apply Hroles in Hrole.
    destruct Hrole as (a & r & Ha & Huser & Hactive & Hr & Hra & ->).
    unfold stored_permissions in Hperm. simpl in Hperm.
    apply list_elem_of_filter in Hperm as [Hcond Hperm].
    apply andb_prop_elim in Hcond as [Hrole Hpa].
    unfold strict_eq in Hrole. apply bool_decide_unpack in Hrole.
    apply Is_true_eq_true in Hpa.
    exists a, r, perm. repeat split; try done.
    all: by apply permission_allows_iff in Hallow as (? & ? & ?).
  - intros (a & r & perm & Ha & Huser & Hactive & Hr & Hra & Hperm & Hrole & Hpa & Hmatch).
    f_equal. apply existsb_exists. exists (toUserPermission perm). split.
    + apply list_elem_of_In. unfold stored_user_permissions.
      apply collect_permissions_elem_of. right.
      eexists _, perm. split; [|split; [|reflexivity]].
      * unfold stored_user_roles. rewrite collect_roles_omap. simpl.
        apply Hroles. by exists a, r.
      * unfold stored_permissions. simpl. apply list_elem_of_filter. split; [|done].
        rewrite Hrole, Hpa. unfold strict_eq. by rewrite bool_decide_eq_true_2.
    + by apply permission_allows_iff.
Qed.

End Granted.

(** X13 and X14 at work on the sample sheets. *)
Lemma getUserRoles_from_store_sample :
  let w := fresh_world (sample_spreadsheet "" "*") always_ok in
  exists w',
    getUserRoles "U" w
    = (Ok (omap (role_of_assignment (spreadsheet w))
                (stored_assignments (spreadsheet w) "U")), w').
Proof.
  intros w.
  destruct (@getUserRoles_from_store "U" w) as (w' & Hrun & _).
  - split; [reflexivity|]. intros n _. reflexivity.
  - by exists w'.
Defined.

Lemma hasPermission_from_store_sample :
  let w := fresh_world (sample_spreadsheet "" "*") always_ok in
  exists a r perm,
    a ∈ map mapRowToRoleAssignment
          (slice1 (sheet_rows (spreadsheet w) "ROLE_ASSIGNMENTS"))
    /\ RoleAssignment.user_id a = JStr "U"
    /\ RoleAssignment.is_active a = true
    /\ stored_role (spreadsheet w) (RoleAssignment.role_id a) = Some r
    /\ Role.is_active r = true
    /\ perm ∈ map mapRowToPermission (slice1 (sheet_rows (spreadsheet w) "PERMISSIONS"))
    /\ Permission.role_id perm = Role.role_id r
    /\ Permission.is_active perm = true
    /\ matches_when_nonempty "HR" "create" None (@toUserPermission sample_runtime perm).
Proof.
  intros w.
  apply (proj1 (@hasPermission_from_store sample_runtime "U" "HR" "create" None w
                  ltac:(split; [reflexivity|intros n _; reflexivity])
                  ltac:(reflexivity))).
  vm_compute. reflexivity.
Defined.

(** ** Administrators *)

(** X15. With the breaker closed and the store answering, [isAdmin] is
    [true] exactly when one of the user's stored roles has the code
    SUPER_ADMIN or ADMIN; and it always asks the store: the permission
    cache, whatever it holds for the user, is not consulted. *)
Theorem isAdmin_from_store userId w :
  healthy w ->
  exists b w',
    isAdmin userId w = (Ok b, w')
    /\ (requests w < requests w')%nat
    /\ permissionCache w' = permissionCache w
    /\ (b = true <->
        exists role, role ∈ stored_user_roles (spreadsheet w) userId
                     /\ (UserRole.role_code role = JStr "SUPER_ADMIN"
                         \/ UserRole.role_code role = JStr "ADMIN")).
Proof.
  intros Hw.
  destruct (getUserRoles_healthy userId w Hw) as (w1 & H1 & Hw1 & Hro1 & Hq1).
  destruct (getUserRoles_healthy userId w1 Hw1) as (w2 & H2 & _ & Hro2 & Hq2).
  destruct Hro1 as (_ & Hc1 & _ & Hs1 & _). destruct Hro2 as (_ & Hc2 & _).
  rewrite Hs1 in H2.
  rewrite (isAdmin_run _ _ _ _ _ _ H1 H2).
  set (roles := stored_user_roles (spreadsheet w) userId).
  assert (forall code,
             existsb (fun r => strict_eq (UserRole.role_code r) (JStr code)) roles = true
             <-> exists role, role ∈ roles /\ UserRole.role_code role = JStr code) as Hex.
  { intros code. rewrite existsb_exists. split.
    - intros (role & Hin & Hcode). exists role. split; [by apply list_elem_of_In|].
      unfold strict_eq in Hcode. by apply bool_decide_eq_true_1 in Hcode.
    - intros (role & Hin & Hcode). exists role. split; [by apply list_elem_of_In|].
      unfold strict_eq. by apply bool_decide_eq_true_2. }
  destruct (existsb _ roles) eqn:Hsuper.
  - exists true, w1. split; [done|]. split; [lia|]. split; [done|].
    split; [|done]. intros _. apply Hex in Hsuper as (role & Hin & Hcode).
    exists role. split; [done|]. by left.
  - eexists _, w2. split; [done|]. split; [lia|]. split; [congruence|].
    rewrite Hex. split.
    + intros (role & Hin & Hcode). exists role. split; [done|]. by right.
    + intros (role & Hin & [Hcode|Hcode]); [|by exists role].
      assert (existsb (fun r => strict_eq (UserRole.role_code r) (JStr "SUPER_ADMIN")) roles
              = true) as Hyes by (apply Hex; by exists role).
      congruence.
Qed.

(** X15 at work: U holds ADMIN, and the answer costs requests although
    U's permissions are cached. *)
Lemma isAdmin_from_store_sample :
  let w := snd (@getUserPermissions sample_runtime "U"
                  (fresh_world (sample_spreadsheet "" "*") always_ok)) in
  exists b w',
    isAdmin "U" w = (Ok b, w') /\ (requests w < requests w')%nat.
Proof.
  intros w.
  destruct (isAdmin_from_store "U" w) as (b & w' & Hrun & Hq & _).
  - split; [vm_compute; reflexivity|]. intros n _. reflexivity.
  - by exists b, w'.
Defined.

(** ** The order of the active modules *)

Lemma insert_by_sort_order_perm m ms : insert_by_sort_order m ms ≡ₚ m :: ms.
Proof.
  induction ms as [|x r IH]; simpl; [done|].
  destruct (AppModule.sort_order m <=? AppModule.sort_order x)%Z; [done|].
  rewrite IH. apply Permutation_swap.
Qed.

Lemma sort_by_sort_order_perm ms : sort_by_sort_order ms ≡ₚ ms.
Proof.
  unfold sort_by_sort_order. induction ms as [|m r IH]; simpl; [done|].
  by rewrite insert_by_sort_order_perm, IH.
Qed.

Lemma insert_by_sort_order_sorted m ms :
  StronglySorted by_sort_order ms -> StronglySorted by_sort_order (insert_by_sort_order m ms).
Proof.
  induction 1 as [|x r Hr IH Hx]; simpl.
  - repeat constructor.
  - destruct (Z.leb_spec (AppModule.sort_order m) (AppModule.sort_order x)) as [Hle|Hgt].
    + constructor; [by constructor|].
      constructor; [done|].
      apply Forall_forall. intros y Hy. unfold by_sort_order.
      rewrite Forall_forall in Hx. specialize (Hx y Hy). unfold by_sort_order in Hx. lia.
    + constructor; [done|].
      apply Forall_forall. intros y Hy.
      apply elem_of_insert_by_sort_order in Hy as [->|Hy].
      * unfold by_sort_order. lia.
      * rewrite Forall_forall in Hx. by apply Hx.
Qed.

Lemma sort_by_sort_order_sorted ms : StronglySorted by_sort_order (sort_by_sort_order ms).
Proof.
  unfold sort_by_sort_order. induction ms as [|m r IH]; simpl; [constructor|].
  by apply insert_by_sort_order_sorted.
Qed.

(** Inserting does not move a module past another of the same order. *)
Lemma insert_by_sort_order_stable k m ms :
  filter (fun x => AppModule.sort_order x = k) (insert_by_sort_order m ms)
  = filter (fun x => AppModule.sort_order x = k) (m :: ms).
Proof.
  induction ms as [|x r IH]; simpl; [done|].
  destruct (Z.leb_spec (AppModule.sort_order m) (AppModule.sort_order x)) as [Hle|Hgt];
    [done|].
  rewrite (filter_cons _ x (insert_by_sort_order m r)), IH.
  rewrite !filter_cons.
  destruct (decide (AppModule.sort_order x = k)) as [Hx|Hx];
    destruct (decide (AppModule.sort_order m = k)) as [Hm|Hm]; try done.
  lia.
Qed.

Lemma sort_by_sort_order_stable k ms :
  filter (fun x => AppModule.sort_order x = k) (sort_by_sort_order ms)
  = filter (fun x => AppModule.sort_order x = k) ms.
Proof.
  unfold sort_by_sort_order. induction ms as [|m r IH]; simpl; [done|].
  rewrite insert_by_sort_order_stable, !filter_cons. by rewrite IH.
Qed.

(** X16. Whenever [getActiveModules] returns, its list is a rearrangement
    of the active rows of the MODULES sheet, in non-decreasing sort order,
    and modules of equal sort order stay in sheet order. *)
Theorem getActiveModules_sorted `{JsRuntime} w modules w' :
  sheetsAdapter.getActiveModules w = (Ok modules, w') ->
  modules ≡ₚ stored_active_modules (spreadsheet w)
  /\ StronglySorted by_sort_order modules
  /\ forall k,
       filter (fun m => AppModule.sort_order m = k) modules
       = filter (fun m => AppModule.sort_order m = k)
                (stored_active_modules (spreadsheet w)).
Proof.
  rewrite getActiveModules_inv.
  destruct (SheetsClient.read "MODULES" w) as [[rows|e] w1] eqn:Hread; [|discriminate].
  intros Hrun. injection Hrun as <- <-.
  rewrite (read_ok_rows _ _ _ _ Hread). unfold stored_active_modules.
  split; [apply sort_by_sort_order_perm|].
  split; [apply sort_by_sort_order_sorted|].
  intros k. apply sort_by_sort_order_stable.
Qed.

(** X16 at work. *)
Lemma getActiveModules_sorted_sample :
  let w := fresh_world wildcard_spreadsheet always_ok in
  StronglySorted by_sort_order
    [@mapRowToModule sample_runtime (module_row "HR" "TRUE" 1);
     @mapRowToModule sample_runtime (module_row "DASHBOARD" "TRUE" 2)].
Proof.
  intros w.
  apply (@getActiveModules_sorted sample_runtime w _
           (snd (@sheetsAdapter.getActiveModules sample_runtime w))).
  vm_compute. reflexivity.
Defined.

(** ** Module access and the list of modules *)

(** X17. When none of the user's permissions has the wildcard module code,
    the two views of module access agree on one and the same state:
    [canAccessModule] answers [true] for a code exactly when
    [getUserModules] lists it. *)
Theorem canAccessModule_agrees_with_getUserModules `{JsRuntime} userId w permissions w' :
  getUserPermissions userId w = (Ok permissions, w') ->
  (forall perm, perm ∈ permissions -> UserPermission.module_code perm <> JStr "*") ->
  exists codes,
    getUserModules userId w = (Ok codes, w')
    /\ forall moduleCode,
         canAccessModule userId moduleCode w = (Ok true, w') <-> JStr moduleCode ∈ codes.
Proof.
  intros Hperms Hplain.
  destruct (modules_loop_plain permissions [] w' Hplain (NoDup_nil_2))
    as (codes & Hloop & _ & Hmem).
  exists codes. split.
  { unfold getUserModules. erewrite try_catch_ok; [done|].
    by rewrite (bind_ok _ _ _ _ _ Hperms). }
  intros moduleCode. rewrite (canAccessModule_run _ _ _ _ _ Hperms), Hmem. split.
  - intros Hrun. injection Hrun as Hrun. apply existsb_exists in Hrun.
    destruct Hrun as (perm & Hin & Hcode). apply list_elem_of_In in Hin.
    right. exists perm. split; [done|].
    apply orb_true_iff in Hcode as [Hcode|Hcode]; unfold strict_eq in Hcode;
      apply bool_decide_eq_true_1 in Hcode; [|done].
    by destruct (Hplain perm Hin).
  - intros [Hin|(perm & Hin & Hcode)]; [by apply elem_of_nil in Hin|].
    do 2 f_equal. apply existsb_exists. exists perm.
    split; [by apply list_elem_of_In|].
    apply orb_true_iff. right. unfold strict_eq. by apply bool_decide_eq_true_2.
Qed.

(** X17 at work. *)
Lemma canAccessModule_agrees_with_getUserModules_sample :
  let w := fresh_world (sample_spreadsheet "" "candidate") always_ok in
  exists codes,
    @getUserModules sample_runtime "U" w
    = (Ok codes, snd (@getUserPermissions sample_runtime "U" w))
    /\ forall moduleCode,
         @canAccessModule sample_runtime "U" moduleCode w
         = (Ok true, snd (@getUserPermissions sample_runtime "U" w))
         <-> JStr moduleCode ∈ codes.
Proof.
  intros w.
  apply (@canAccessModule_agrees_with_getUserModules sample_runtime "U" w
           [ {| UserPermission.module_code := JStr "HR";
                UserPermission.action := JStr "create";
                UserPermission.resource := JStr "candidate";
                UserPermission.conditions := JsonObj [] |} ]).
  - vm_compute. reflexivity.
  - intros perm Hin. apply list_elem_of_singleton in Hin. subst perm. discriminate.
Defined.

(** ** Users *)

Lemma healthy_next_uuid w : healthy w -> healthy (next_uuid w).
Proof. by intros [Hclosed Hnet]. Qed.

Lemma healthy_advance d w : healthy w -> healthy (advance d w).
Proof. by intros [Hclosed Hnet]. Qed.

Lemma find_first_app_fresh {A} (p : A -> bool) (l : list A) y :
  (forall x, x ∈ l -> p x = false) -> p y = true -> find_first p (l ++ [y]) = Some y.
Proof.
  intros Hfresh Hy. unfold find_first.
  induction l as [|x r IH]; simpl; [by rewrite Hy|].
  rewrite (Hfresh x) by by left. apply IH. intros z Hz. apply Hfresh. by right.
Qed.

Lemma findIndex_app_fresh {A} (p : A -> bool) (l : list A) y :
  (forall x, x ∈ l -> p x = false) -> p y = true ->
  findIndex p (l ++ [y]) = Some (length l).
Proof.
  intros Hfresh Hy.
  induction l as [|x r IH]; simpl; [by rewrite Hy|].
  rewrite (Hfresh x) by by left. rewrite IH; [done|].
  intros z Hz. apply Hfresh. by right.
Qed.

Lemma optional_reads_back (o : option string) :
  o <> Some "" -> js_or (js_or (optional o) (JStr "")) JUndefined = optional o.
Proof. destruct o as [[|c s]|]; done. Qed.

Lemma overridden_reads_back (c : JsValue) (o : option string) :
  o <> Some "" ->
  js_or (js_or (dataService.overridden (js_or c JUndefined) o) (JStr "")) JUndefined
  = dataService.overridden (js_or c JUndefined) o.
Proof.
  destruct o as [[|a s]|]; [done|done|]. intros _. simpl. apply js_or_reads_back.
Qed.

(** The row written for a user deserializes to that user, when the two
    optional fields are not the empty string. *)
Lemma user_row_reads_back (u : User.t) (old : list JsValue) :
  js_or (js_or (User.last_login_at u) (JStr "")) JUndefined = User.last_login_at u ->
  js_or (js_or (User.metadata u) (JStr "")) JUndefined = User.metadata u ->
  mapRowToUser (overwrite_cells 9 (dataService.user_row u) old) = u.
Proof.
  intros Hlogin Hmeta. destruct u as [id email name provider active created updated login meta].
  unfold mapRowToUser, overwrite_cells, dataService.user_row.
  cbn -[js_or]. cbn -[js_or] in Hlogin, Hmeta. rewrite Hlogin, Hmeta.
  by destruct active.
Qed.

Lemma new_user_row_reads_back (u : User.t) :
  js_or (js_or (User.last_login_at u) (JStr "")) JUndefined = User.last_login_at u ->
  js_or (js_or (User.metadata u) (JStr "")) JUndefined = User.metadata u ->
  mapRowToUser (dataService.user_row u) = u.
Proof.
  intros Hlogin Hmeta. rewrite <- (user_row_reads_back u [] Hlogin Hmeta) at 2.
  reflexivity.
Qed.

Lemma stored_users_append (s : Spreadsheet) row :
  sheet_rows s "USERS" <> [] ->
  stored_users (<["USERS" := sheet_rows s "USERS" ++ [row]]> s)
  = stored_users s ++ [mapRowToUser row].
Proof.
  intros Hheader. unfold stored_users. rewrite sheet_rows_insert.
  destruct (sheet_rows s "USERS") as [|header rest]; [done|].
  unfold slice1. simpl. rewrite !drop_0. apply List.map_app.
Qed.

Section Users.
Context `{JsRuntime}.

Lemma append_healthy sheetName values w :
  healthy w ->
  exists w',
    SheetsClient.append sheetName values w = (Ok tt, w')
    /\ healthy w'
    /\ spreadsheet w'
       = <[sheetName := sheet_rows (spreadsheet w) sheetName ++ values]> (spreadsheet w)
    /\ permissionCache w' = permissionCache w
    /\ clock w <= clock w'.
Proof.
  intros Hw. unfold SheetsClient.append, values_append.
  destruct (execute_healthy
              (fun s => (tt, <[sheetName := sheet_rows s sheetName ++ values]> s)) w Hw)
    as (w' & Hrun & Hw' & Hs & Hc & Hu & Hq & Hn & Ht).
  by exists w'.
Qed.

Lemma write_healthy sheetName range values w :
  healthy w ->
  exists w',
    SheetsClient.write sheetName range values w = (Ok tt, w')
    /\ healthy w'
    /\ spreadsheet w'
       = <[sheetName := overwrite_rows (range_width range) (range_row range - 1) values
                          (sheet_rows (spreadsheet w) sheetName)]> (spreadsheet w)
    /\ permissionCache w' = permissionCache w
    /\ clock w <= clock w'.
Proof.
  intros Hw. unfold SheetsClient.write, values_update.
  destruct (execute_healthy
              (fun s => (tt, <[sheetName := overwrite_rows (range_width range)
                                              (range_row range - 1) values
                                              (sheet_rows s sheetName)]> s)) w Hw)
    as (w' & Hrun & Hw' & Hs & Hc & Hu & Hq & Hn & Ht).
  by exists w'.
Qed.

Lemma getUsers_healthy w :
  healthy w ->
  exists w',
    dataService.getUsers w = (Ok (stored_users (spreadsheet w)), w')
    /\ healthy w'
    /\ reads_only w w'.
Proof.
  intros Hw. destruct (read_healthy "USERS" w Hw) as (w' & Hread & Hw' & Hro & _).
  exists w'. split; [|done].
  unfold dataService.getUsers. by rewrite (bind_ok _ _ _ _ _ Hread).
Qed.

Lemma getUserById_healthy userId w :
  healthy w ->
  exists w',
    dataService.getUserById userId w
    = (Ok (find_first (has_user_id userId) (stored_users (spreadsheet w))), w')
    /\ healthy w'
    /\ reads_only w w'.
Proof.
  intros Hw. destruct (getUsers_healthy w Hw) as (w' & Husers & Hw' & Hro).
  exists w'. split; [|done].
  unfold dataService.getUserById. by rewrite (bind_ok _ _ _ _ _ Husers).
Qed.

Lemma createUser_healthy user w :
  healthy w ->
  exists w',
    dataService.createUser user w = (Ok (created_user user w), w')
    /\ healthy w'
    /\ spreadsheet w'
       = <["USERS" := sheet_rows (spreadsheet w) "USERS"
                      ++ [dataService.user_row (created_user user w)]]> (spreadsheet w)
    /\ permissionCache w' = permissionCache w.
Proof.
  intros Hw. unfold dataService.createUser.
  destruct (given (NewUser.user_id user)) eqn:Hgiven.
  - destruct (append_healthy "USERS" [dataService.user_row (created_user user w)] w Hw)
      as (w' & Hrun & Hw' & Hs & Hc & _).
    exists w'. split; [|done].
    unfold created_user in Hrun |- *. rewrite Hgiven in Hrun |- *.
    unfold bind at 1, ret at 1. unfold bind at 1, now at 1. unfold bind at 1, now at 1.
    cbv beta iota zeta. by rewrite (bind_ok _ _ _ _ _ Hrun).
  - destruct (append_healthy "USERS" [dataService.user_row (created_user user w)]
                (next_uuid w) (healthy_next_uuid w Hw))
      as (w' & Hrun & Hw' & Hs & Hc & _).
    exists w'. split; [|done].
    unfold created_user in Hrun |- *. rewrite Hgiven in Hrun |- *.
    unfold bind at 1, generateId at 1. unfold bind at 1, now at 1.
    unfold bind at 1, now at 1.
    cbv beta iota zeta. by rewrite (bind_ok _ _ _ _ _ Hrun).
Qed.

Lemma updateUser_healthy userId updates w :
  healthy w ->
  exists w1,
    healthy w1 /\ reads_only w w1
    /\ match findIndex (has_user_id userId) (stored_users (spreadsheet w)) with
       | None =>
           dataService.updateUser userId updates w
           = (Throw (Error ("User not found: " +:+ userId)), w1)
       | Some index =>
           let updated :=
             updated_user (default dataService.no_user
                                   (stored_users (spreadsheet w) !! index))
                          updates (toISOString (clock w1)) in
           exists w',
             dataService.updateUser userId updates w = (Ok updated, w')
             /\ healthy w'
             /\ spreadsheet w'
                = <["USERS" := alter (overwrite_cells 9 (dataService.user_row updated))
                                     (S index) (sheet_rows (spreadsheet w) "USERS")]>
                  (spreadsheet w)
             /\ permissionCache w' = permissionCache w
       end.
Proof.
  intros Hw. destruct (getUsers_healthy w Hw) as (w1 & Husers & Hw1 & Hro).
  exists w1. split; [done|]. split; [done|].
  unfold dataService.updateUser. rewrite (bind_ok _ _ _ _ _ Husers).
  change (fun u : User.t => strict_eq (User.user_id u) (JStr userId))
    with (has_user_id userId).
  destruct (findIndex (has_user_id userId) (stored_users (spreadsheet w)))
    as [index|] eqn:Hindex; [|done].
  destruct (write_healthy "USERS" {| range_row := index + 2; range_width := 9 |}
              [dataService.user_row
                 (updated_user (default dataService.no_user
                                        (stored_users (spreadsheet w) !! index))
                               updates (toISOString (clock w1)))] w1 Hw1)
    as (w' & Hrun & Hw' & Hs & Hc & _).
  unfold updated_user in Hrun, Hs.
  exists w'. split.
  { unfold bind at 1, now at 1. cbv beta iota zeta.
    by rewrite (bind_ok _ _ _ _ _ Hrun). }
  split; [done|].
  destruct Hro as (_ & Hc1 & _ & Hs1 & _).
  split; [|congruence].
  rewrite Hs, Hs1. simpl.
  by replace (index + 2 - 1)%nat with (S index) by lia.
Qed.

End Users.

Lemma map_fmap {A B} (f : A -> B) (l : list A) : map f l = f <$> l.
Proof. done. Qed.

Lemma stored_users_alter (s : Spreadsheet) g index old user' :
  slice1 (sheet_rows s "USERS") !! index = Some old ->
  mapRowToUser (g old) = user' ->
  stored_users (<["USERS" := alter g (S index) (sheet_rows s "USERS")]> s)
  = <[index := user']> (stored_users s).
Proof.
  intros Hold Hmap. unfold stored_users. rewrite sheet_rows_insert.
  unfold slice1 in *. rewrite drop_alter_ge by lia.
  replace (S index - 1)%nat with index by lia.
  rewrite !map_fmap. apply list_eq. intros j.
  destruct (decide (index = j)) as [<-|Hne].
  - rewrite list_lookup_fmap, list_lookup_alter_eq, Hold. simpl.
    rewrite list_lookup_insert_eq; [by rewrite Hmap|].
    rewrite length_fmap. by eapply lookup_lt_Some.
  - rewrite list_lookup_insert_ne by done.
    by rewrite !list_lookup_fmap, list_lookup_alter_ne.
Qed.

Lemma find_first_None {A} (p : A -> bool) (l : list A) :
  (forall x, x ∈ l -> p x = false) -> find_first p l = None.
Proof.
  intros Hfresh. unfold find_first.
  induction l as [|x r IH]; simpl; [done|].
  rewrite (Hfresh x) by by left. apply IH. intros z Hz. apply Hfresh. by right.
Qed.

Lemma find_first_findIndex {A} (p : A -> bool) (l : list A) u :
  find_first p l = Some u ->
  exists index, findIndex p l = Some index /\ l !! index = Some u.
Proof.
  unfold find_first. induction l as [|x r IH]; simpl; [done|].
  destruct (p x).
  - intros [= ->]. by exists 0%nat.
  - intros Hfind. destruct (IH Hfind) as (index & -> & Hu). by exists (S index).
Qed.

Lemma has_user_id_fresh userId (users : list User.t) :
  (forall u, u ∈ users -> User.user_id u <> JStr userId) ->
  forall u, u ∈ users -> has_user_id userId u = false.
Proof.
  intros Hfresh u Hu. unfold has_user_id, strict_eq.
  apply bool_decide_eq_false_2. by apply Hfresh.
Qed.

Lemma healthy_fresh_world s : healthy (fresh_world s always_ok).
Proof. by split. Qed.

(** X18. On a reachable service, a user created in a USERS sheet that has
    its header row, with no optional field given as the empty string, is
    returned as stored: the sheet's users are the earlier ones followed by
    the new one, whose identifier is the given one when one is given, and
    [getUserById] finds it by an identifier no earlier user has. Into a
    sheet without its header row the user is written where the header
    belongs and is not among the users read afterwards. *)
Theorem created_user_is_found `{JsRuntime} (user : NewUser.t) (w : World) :
  healthy w ->
  NewUser.last_login_at user <> Some "" ->
  NewUser.metadata user <> Some "" ->
  exists created w',
    dataService.createUser user w = (Ok created, w')
    /\ (forall userId, NewUser.user_id user = Some userId -> userId <> "" ->
                       User.user_id created = JStr userId)
    /\ (sheet_rows (spreadsheet w) "USERS" <> [] ->
        stored_users (spreadsheet w') = stored_users (spreadsheet w) ++ [created]
        /\ forall userId,
             User.user_id created = JStr userId ->
             (forall u, u ∈ stored_users (spreadsheet w) -> User.user_id u <> JStr userId) ->
             exists w'', dataService.getUserById userId w' = (Ok (Some created), w''))
    /\ (sheet_rows (spreadsheet w) "USERS" = [] -> stored_users (spreadsheet w') = []).
Proof.
  intros Hw Hlogin Hmeta.
  destruct (createUser_healthy user w Hw) as (w' & Hrun & Hw' & Hs & _).
  exists (created_user user w), w'. split; [done|]. split; [|split].
  - intros userId Hid Hne. unfold created_user. simpl. rewrite Hid. simpl.
    by destruct userId.
  - intros Hheader.
    assert (stored_users (spreadsheet w')
            = stored_users (spreadsheet w) ++ [created_user user w]) as Hstored.
    { rewrite Hs, stored_users_append by done. f_equal. f_equal.
      apply new_user_row_reads_back; by apply optional_reads_back. }
    split; [done|]. intros userId Hid Hfresh.
    destruct (getUserById_healthy userId w' Hw') as (w'' & Hfind & _).
    exists w''. rewrite Hfind, Hstored. do 2 f_equal.
    apply find_first_app_fresh.
    + by apply has_user_id_fresh.
    + unfold has_user_id, strict_eq. by apply bool_decide_eq_true_2.
  - intros Hempty. rewrite Hs. unfold stored_users.
    by rewrite sheet_rows_insert, Hempty.
Qed.

(** X18 at work. *)
Lemma created_user_is_found_sample :
  let w := fresh_world users_spreadsheet always_ok in
  exists created w',
    @dataService.createUser sample_runtime new_user_V w = (Ok created, w')
    /\ (forall userId, NewUser.user_id new_user_V = Some userId -> userId <> "" ->
                       User.user_id created = JStr userId)
    /\ (sheet_rows (spreadsheet w) "USERS" <> [] ->
        stored_users (spreadsheet w') = stored_users (spreadsheet w) ++ [created]
        /\ forall userId,
             User.user_id created = JStr userId ->
             (forall u, u ∈ stored_users (spreadsheet w) -> User.user_id u <> JStr userId) ->
             exists w'', dataService.getUserById userId w' = (Ok (Some created), w''))
    /\ (sheet_rows (spreadsheet w) "USERS" = [] -> stored_users (spreadsheet w') = []).
Proof.
  intros w.
  apply (@created_user_is_found sample_runtime new_user_V w).
  - apply healthy_fresh_world.
  - discriminate.
  - discriminate.
Defined.

(** X19. On a reachable service, [updateUser] on the identifier of a
    stored user, with no optional field updated to the empty string,
    replaces that user, the first of that identifier, by the merge of the
    stored user and the updates, stamped with the time of the write
    whatever [updated_at] the updates carry, and returns it; every other
    user and every other sheet stay as they are. *)
Theorem updateUser_rewrites_one_user `{JsRuntime} (userId : string) (updates : UserUpdates.t)
    (w : World) (index : nat) :
  healthy w ->
  findIndex (has_user_id userId) (stored_users (spreadsheet w)) = Some index ->
  UserUpdates.last_login_at updates <> Some "" ->
  UserUpdates.metadata updates <> Some "" ->
  exists user t w',
    stored_users (spreadsheet w) !! index = Some user
    /\ clock w <= t
    /\ dataService.updateUser userId updates w
       = (Ok (updated_user user updates (toISOString t)), w')
    /\ stored_users (spreadsheet w')
       = <[index := updated_user user updates (toISOString t)]> (stored_users (spreadsheet w))
    /\ forall sheetName, sheetName <> "USERS" ->
                         sheet_rows (spreadsheet w') sheetName
                         = sheet_rows (spreadsheet w) sheetName.
Proof.
  intros Hw Hindex Hlogin Hmeta.
  destruct (updateUser_healthy userId updates w Hw) as (w1 & Hw1 & Hro & Hrun).
  rewrite Hindex in Hrun. cbv zeta in Hrun.
  destruct Hrun as (w' & Hrun & Hw' & Hs & _).
  destruct (findIndex_Some _ _ _ Hindex) as (user & Huser & _).
  rewrite Huser in Hrun, Hs. simpl in Hrun, Hs.
  exists user, (clock w1), w'. split; [done|]. split.
  { by destruct Hro as (_ & _ & _ & _ & Ht & _). }
  split; [done|].
  pose proof Huser as Hrow. unfold stored_users in Hrow.
  rewrite map_fmap in Hrow.
  apply list_lookup_fmap_Some in Hrow as (old & Hmap & Hold).
  split.
  - rewrite Hs. apply (stored_users_alter _ _ _ old); [done|].
    apply user_row_reads_back; subst user; simpl; by apply overridden_reads_back.
  - intros sheetName Hne. rewrite Hs. apply sheet_rows_insert_ne. congruence.
Qed.

(** X19 at work. *)
Lemma updateUser_rewrites_one_user_sample :
  let w := fresh_world users_spreadsheet always_ok in
  exists user t w',
    stored_users (spreadsheet w) !! 0%nat = Some user
    /\ clock w <= t
    /\ @dataService.updateUser sample_runtime "U" (rename_to "Administrator") w
       = (Ok (updated_user user (rename_to "Administrator")
                           (@toISOString sample_runtime t)), w')
    /\ stored_users (spreadsheet w')
       = <[0%nat := updated_user user (rename_to "Administrator")
                                 (@toISOString sample_runtime t)]>
           (stored_users (spreadsheet w))
    /\ forall sheetName, sheetName <> "USERS" ->
                         sheet_rows (spreadsheet w') sheetName
                         = sheet_rows (spreadsheet w) sheetName.
Proof.
  intros w.
  apply (@updateUser_rewrites_one_user sample_runtime "U" (rename_to "Administrator") w 0).
  - apply healthy_fresh_world.
  - vm_compute. reflexivity.
  - discriminate.
  - discriminate.
Defined.

(** X20. On a reachable service, [updateUser] on an identifier no stored
    user has raises [User not found] with that identifier and leaves the
    spreadsheet and the cache as they are. *)
Theorem updateUser_unknown_user `{JsRuntime} (userId : string) (updates : UserUpdates.t) (w : World) :
  healthy w ->
  (forall u, u ∈ stored_users (spreadsheet w) -> User.user_id u <> JStr userId) ->
  exists w',
    dataService.updateUser userId updates w
    = (Throw (Error ("User not found: " +:+ userId)), w')
    /\ spreadsheet w' = spreadsheet w
    /\ permissionCache w' = permissionCache w.
Proof.
  intros Hw Hfresh.
  destruct (updateUser_healthy userId updates w Hw) as (w1 & Hw1 & Hro & Hrun).
  rewrite (proj2 (findIndex_None _ _) (has_user_id_fresh _ _ Hfresh)) in Hrun.
  exists w1. split; [done|]. by destruct Hro as (_ & Hc & _ & Hs & _).
Qed.

(** X20 at work. *)
Lemma updateUser_unknown_user_sample :
  let w := fresh_world users_spreadsheet always_ok in
  exists w',
    @dataService.updateUser sample_runtime "V" (rename_to "Administrator") w
    = (Throw (Error ("User not found: " +:+ "V")), w')
    /\ spreadsheet w' = spreadsheet w
    /\ permissionCache w' = permissionCache w.
Proof.
  intros w.
  apply (@updateUser_unknown_user sample_runtime "V" (rename_to "Administrator") w).
  - apply healthy_fresh_world.
  - intros u Hu.
    assert (stored_users (spreadsheet w) = [mapRowToUser user_U_row]) as Hstored
      by (vm_compute; reflexivity).
    rewrite Hstored in Hu. apply list_elem_of_singleton in Hu. subst u. discriminate.
Defined.

Lemma stored_users_alter_ne (s : Spreadsheet) g index j :
  j <> index ->
  stored_users (<["USERS" := alter g (S index) (sheet_rows s "USERS")]> s) !! j
  = stored_users s !! j.
Proof.
  intros Hne. unfold stored_users. rewrite sheet_rows_insert.
  unfold slice1. rewrite drop_alter_ge by lia.
  replace (S index - 1)%nat with index by lia.
  rewrite !map_fmap. by rewrite !list_lookup_fmap, list_lookup_alter_ne.
Qed.

Lemma stored_users_alter_length (s : Spreadsheet) g index :
  length (stored_users (<["USERS" := alter g (S index) (sheet_rows s "USERS")]> s))
  = length (stored_users s).
Proof.
  unfold stored_users. rewrite sheet_rows_insert. unfold slice1.
  by rewrite !length_map, !length_drop, length_alter.
Qed.

(** X21. On a reachable service, the first login of a user whose
    identifier, not empty, no stored user has answers with the identifier,
    the address and the name of the verified user and appends one user of
    these to a USERS sheet that has its header row: active, of provider
    [google], and without a time of last login. *)
Theorem login_registers_unknown_user `{JsRuntime} (user : AuthUser.t) (w : World) :
  healthy w ->
  AuthUser.id user <> "" ->
  sheet_rows (spreadsheet w) "USERS" <> [] ->
  (forall u, u ∈ stored_users (spreadsheet w) ->
             User.user_id u <> JStr (AuthUser.id user)) ->
  exists created w',
    login user w
    = (Ok (JsonBody {| LoginUser.id := JStr (AuthUser.id user);
                       LoginUser.email := JStr (AuthUser.email user);
                       LoginUser.name := JStr (AuthUser.name user) |}), w')
    /\ healthy w'
    /\ stored_users (spreadsheet w') = stored_users (spreadsheet w) ++ [created]
    /\ find_first (has_user_id (AuthUser.id user)) (stored_users (spreadsheet w'))
       = Some created
    /\ User.user_id created = JStr (AuthUser.id user)
    /\ User.email created = JStr (AuthUser.email user)
    /\ User.name created = JStr (AuthUser.name user)
    /\ User.auth_provider created = JStr "google"
    /\ User.is_active created = true
    /\ User.last_login_at created = JUndefined.
Proof.
  intros Hw Hid Hheader Hfresh.
  destruct (getUserById_healthy (AuthUser.id user) w Hw) as (w1 & Hfind & Hw1 & Hro).
  rewrite (find_first_None _ _ (has_user_id_fresh _ _ Hfresh)) in Hfind.
  set (new := {| NewUser.user_id := Some (AuthUser.id user);
                 NewUser.email := AuthUser.email user;
                 NewUser.name := AuthUser.name user;
                 NewUser.auth_provider := "google";
                 NewUser.is_active := true;
                 NewUser.last_login_at := None;
                 NewUser.metadata := None |}).
  destruct (createUser_healthy new w1 Hw1) as (w' & Hrun & Hw' & Hs & _).
  destruct Hro as (_ & _ & _ & Hs1 & _).
  assert (given (Some (AuthUser.id user)) = true) as Hgiven.
  { simpl. by destruct (AuthUser.id user). }
  assert (User.user_id (created_user new w1) = JStr (AuthUser.id user)) as Hcreated.
  { unfold created_user. simpl NewUser.user_id. by rewrite Hgiven. }
  assert (stored_users (spreadsheet w')
          = stored_users (spreadsheet w) ++ [created_user new w1]) as Hstored.
  { rewrite Hs, Hs1, stored_users_append by done.
    by rewrite new_user_row_reads_back. }
  exists (created_user new w1), w'. split.
  { unfold login. erewrite try_catch_ok; [reflexivity|].
    rewrite (bind_ok _ _ _ _ _ Hfind). fold new.
    rewrite (bind_ok _ _ _ _ _ Hrun). unfold ret. by rewrite Hcreated. }
  split; [done|]. split; [done|]. split.
  { rewrite Hstored. apply find_first_app_fresh.
    - by apply has_user_id_fresh.
    - unfold has_user_id, strict_eq. by apply bool_decide_eq_true_2. }
  by repeat split.
Qed.

(** X21 at work. *)
Lemma login_registers_unknown_user_sample :
  let w := fresh_world users_spreadsheet always_ok in
  exists created w',
    @login sample_runtime auth_user_V w
    = (Ok (JsonBody {| LoginUser.id := JStr (AuthUser.id auth_user_V);
                       LoginUser.email := JStr (AuthUser.email auth_user_V);
                       LoginUser.name := JStr (AuthUser.name auth_user_V) |}), w')
    /\ healthy w'
    /\ stored_users (spreadsheet w') = stored_users (spreadsheet w) ++ [created]
    /\ find_first (has_user_id (AuthUser.id auth_user_V)) (stored_users (spreadsheet w'))
       = Some created
    /\ User.user_id created = JStr (AuthUser.id auth_user_V)
    /\ User.email created = JStr (AuthUser.email auth_user_V)
    /\ User.name created = JStr (AuthUser.name auth_user_V)
    /\ User.auth_provider created = JStr "google"
    /\ User.is_active created = true
    /\ User.last_login_at created = JUndefined.
Proof.
  intros w.
  apply (@login_registers_unknown_user sample_runtime auth_user_V w).
  - apply healthy_fresh_world.
  - discriminate.
  - vm_compute. discriminate.
  - intros u Hu.
    assert (stored_users (spreadsheet w) = [mapRowToUser user_U_row]) as Hstored
      by (vm_compute; reflexivity).
    rewrite Hstored in Hu. apply list_elem_of_singleton in Hu. subst u. discriminate.
Defined.

(** X22. On a reachable service, the login of a user the USERS sheet
    holds answers with the identifier, the address and the name of the
    stored user, not those of the verified one, and adds no user: the
    sheet holds as many users as before and all of them but the first of
    that identifier are as they were. *)
Theorem login_recognises_stored_user `{JsRuntime} (user : AuthUser.t) (w : World)
    (dbUser : User.t) :
  healthy w ->
  find_first (has_user_id (AuthUser.id user)) (stored_users (spreadsheet w)) = Some dbUser ->
  exists index w',
    login user w
    = (Ok (JsonBody {| LoginUser.id := User.user_id dbUser;
                       LoginUser.email := User.email dbUser;
                       LoginUser.name := User.name dbUser |}), w')
    /\ healthy w'
    /\ findIndex (has_user_id (AuthUser.id user)) (stored_users (spreadsheet w))
       = Some index
    /\ length (stored_users (spreadsheet w')) = length (stored_users (spreadsheet w))
    /\ forall j, j <> index ->
                 stored_users (spreadsheet w') !! j = stored_users (spreadsheet w) !! j.
Proof.
  intros Hw Hstored.
  destruct (getUserById_healthy (AuthUser.id user) w Hw) as (w1 & Hfind & Hw1 & Hro).
  rewrite Hstored in Hfind.
  destruct (find_first_findIndex _ _ _ Hstored) as (index & Hindex & Hlookup).
  destruct (updateUser_healthy (AuthUser.id user)
              (login_stamp (toISOString (clock w1))) w1 Hw1)
    as (w2 & Hw2 & Hro2 & Hrun).
  destruct Hro as (_ & _ & _ & Hs1 & _).
  rewrite Hs1, Hindex in Hrun. cbv zeta in Hrun.
  destruct Hrun as (w' & Hrun & Hw' & Hs & _).
  exists index, w'. split.
  { unfold login. erewrite try_catch_ok; [reflexivity|].
    rewrite (bind_ok _ _ _ _ _ Hfind).
    erewrite bind_ok; [reflexivity|].
    unfold bind at 1, now at 1. cbv beta iota zeta.
    unfold login_stamp in Hrun. by rewrite (bind_ok _ _ _ _ _ Hrun). }
  split; [done|]. split; [done|]. split.
  - rewrite Hs. apply stored_users_alter_length.
  - intros j Hj. rewrite Hs. by apply stored_users_alter_ne.
Qed.

(** X22 at work. *)
Lemma login_recognises_stored_user_sample :
  let w := fresh_world users_spreadsheet always_ok in
  exists index w',
    @login sample_runtime auth_user_U w
    = (Ok (JsonBody {| LoginUser.id := JStr "U";
                       LoginUser.email := JStr "admin@crystalcore.com";
                       LoginUser.name := JStr "System Administrator" |}), w')
    /\ healthy w'
    /\ findIndex (has_user_id (AuthUser.id auth_user_U)) (stored_users (spreadsheet w))
       = Some index
    /\ length (stored_users (spreadsheet w')) = length (stored_users (spreadsheet w))
    /\ forall j, j <> index ->
                 stored_users (spreadsheet w') !! j = stored_users (spreadsheet w) !! j.
Proof.
  intros w.
  apply (@login_recognises_stored_user sample_runtime auth_user_U w
           (mapRowToUser user_U_row)).
  - apply healthy_fresh_world.
  - vm_compute. reflexivity.
Defined.

(** ** Site configuration *)

(** X23. Whenever [getConfigValue] returns, its value is [null] or a
    truthy cell: never the empty string, [0], [false] or [undefined]. A
    value other than [null] is the value cell of a row of SITE_CONFIG
    below the header that is active and has that site and that key. *)
Theorem getConfigValue_null_or_stored (siteCode key : string) (w : World)
    (value : JsValue) (w' : World) :
  dataService.getConfigValue siteCode key w = (Ok value, w') ->
  (value = JNull \/ truthy value = true)
  /\ (value <> JNull ->
      exists row,
        row ∈ slice1 (sheet_rows (spreadsheet w) "SITE_CONFIG")
        /\ cell row 1 = JStr siteCode
        /\ cell row 2 = JStr key
        /\ parseBoolean (cell row 6) = true
        /\ cell row 3 = value).
Proof.
  unfold dataService.getConfigValue, dataService.getSiteConfig.
  destruct (SheetsClient.read "SITE_CONFIG" w) as [[rows|e] w1] eqn:Hread.
  2:{ rewrite (bind_throw _ _ _ _ _ (bind_throw _ _ _ _ _ Hread)). discriminate. }
  erewrite bind_ok; [|by rewrite (bind_ok _ _ _ _ _ Hread)].
  rewrite (read_ok_rows _ _ _ _ Hread).
  match goal with
  | |- context [find_first ?p ?l] => destruct (find_first p l) as [config|] eqn:Hfind
  end.
  2:{ intros [= <- <-]. split; [by left|done]. }
  intros [= <- <-]. unfold js_or.
  destruct (truthy (SiteConfig.config_value config)) eqn:Htruthy;
    [|split; [by left|done]].
  split; [by right|]. intros _.
  unfold find_first in Hfind. apply List.find_some in Hfind as [Hin Hkey].
  apply list_elem_of_In, list_elem_of_filter in Hin as [Hsite Hin].
  rewrite map_fmap in Hin. apply list_elem_of_fmap in Hin as (row & -> & Hrow).
  apply andb_prop_elim in Hsite as [Hsite Hactive].
  unfold strict_eq in Hsite, Hkey.
  apply bool_decide_unpack in Hsite. apply bool_decide_eq_true_1 in Hkey.
  exists row. simpl in *. repeat split; try done. by apply Is_true_true_1.
Qed.

(** X23 at work. *)
Lemma getConfigValue_null_or_stored_sample :
  let w := fresh_world config_spreadsheet always_ok in
  (JStr "USD" = JNull \/ truthy (JStr "USD") = true)
  /\ (JStr "USD" <> JNull ->
      exists row,
        row ∈ slice1 (sheet_rows (spreadsheet w) "SITE_CONFIG")
        /\ cell row 1 = JStr "HQ"
        /\ cell row 2 = JStr "currency"
        /\ parseBoolean (cell row 6) = true
        /\ cell row 3 = JStr "USD").
Proof.
  intros w.
  apply (getConfigValue_null_or_stored "HQ" "currency" w (JStr "USD")
           (snd (dataService.getConfigValue "HQ" "currency" w))).
  vm_compute. reflexivity.
Defined.

(** ** Reading several sheets at once *)

Lemma batch_fold_lookup (s : Spreadsheet) (ranges : list string) :
  forall (result : gmap string (list (list JsValue))) name,
    foldl (fun result range => <[range := sheet_rows s range]> result) result ranges !! name
    = if bool_decide (name ∈ ranges) then Some (sheet_rows s name) else result !! name.
Proof.
  induction ranges as [|range rest IH]; intros result name; cbn [foldl].
  - rewrite bool_decide_eq_false_2; [done|]. apply not_elem_of_nil.
  - rewrite IH. destruct (decide (name ∈ rest)) as [Hrest|Hrest].
    + rewrite (bool_decide_eq_true_2 _ Hrest).
      rewrite bool_decide_eq_true_2; [done|]. by right.
    + rewrite (bool_decide_eq_false_2 _ Hrest).
      destruct (decide (name = range)) as [->|Hne].
      * rewrite lookup_insert_eq. rewrite bool_decide_eq_true_2; [done|]. by left.
      * rewrite lookup_insert_ne by done.
        rewrite bool_decide_eq_false_2; [done|].
        intros Hin. apply elem_of_cons in Hin as [?|?]; done.
Qed.

(** X24. On a reachable service, [batchRead] answers with one request what
    [read] answers sheet by sheet: its result has an entry exactly for the
    names asked for, each holding the rows [read] returns for that name
    in the same state, and the spreadsheet stays as it is. *)
Theorem batchRead_agrees_with_read (ranges : list string) (w : World) :
  healthy w ->
  exists result w',
    batchRead ranges w = (Ok result, w')
    /\ requests w' = S (requests w)
    /\ spreadsheet w' = spreadsheet w
    /\ (forall name, name ∉ ranges -> result !! name = None)
    /\ (forall name, name ∈ ranges ->
          exists rows w'',
            SheetsClient.read name w = (Ok rows, w'')
            /\ result !! name = Some rows).
Proof.
  intros Hw. unfold batchRead, values_batchGet.
  destruct (execute_healthy (fun s => (batch_result s ranges, s)) w Hw)
    as (w' & Hrun & _ & Hs & _ & _ & Hq & _).
  simpl in Hrun, Hs.
  exists (batch_result (spreadsheet w) ranges), w'.
  split; [done|]. split; [done|]. split; [done|]. split.
  - intros name Hout. unfold batch_result. rewrite batch_fold_lookup.
    by rewrite bool_decide_eq_false_2.
  - intros name Hin.
    destruct (read_healthy name w Hw) as (w'' & Hread & _).
    exists (sheet_rows (spreadsheet w) name), w''. split; [done|].
    unfold batch_result. rewrite batch_fold_lookup.
    by rewrite bool_decide_eq_true_2.
Qed.

(** X24 at work. *)
Lemma batchRead_agrees_with_read_sample :
  let w := fresh_world (sample_spreadsheet "" "*") always_ok in
  exists result w',
    batchRead ["ROLES"; "PERMISSIONS"] w = (Ok result, w')
    /\ requests w' = S (requests w)
    /\ spreadsheet w' = spreadsheet w
    /\ (forall name, name ∉ ["ROLES"; "PERMISSIONS"] -> result !! name = None)
    /\ (forall name, name ∈ ["ROLES"; "PERMISSIONS"] ->
          exists rows w'',
            SheetsClient.read name w = (Ok rows, w'')
            /\ result !! name = Some rows).
Proof.
  intros w. apply (batchRead_agrees_with_read ["ROLES"; "PERMISSIONS"] w).
  apply healthy_fresh_world.
Defined.

(** ** The API routes *)

Lemma isAdmin_reads_only userId w r w' :
  isAdmin userId w = (r, w') -> reads_only w w'.
Proof.
  destruct (getUserRoles_returns userId w) as (roles1 & w1 & H1).
  destruct (getUserRoles_returns userId w1) as (roles2 & w2 & H2).
  rewrite (isAdmin_run _ _ _ _ _ _ H1 H2).
  pose proof (getUserRoles_reads_only _ _ _ _ H1) as Hro1.
  pose proof (getUserRoles_reads_only _ _ _ _ H2) as Hro2.
  destruct (existsb _ roles1); intros [= <- <-]; [done|].
  by eapply reads_only_trans.
Qed.

Lemma isAdmin_all_fail userId w :
  every_request_fails w ->
  exists w', isAdmin userId w = (Ok false, w') /\ reads_only w w'.
Proof.
  intros Hdown.
  destruct (hasRole_all_fail userId "SUPER_ADMIN" w Hdown) as (w1 & H1 & Hn1).
  assert (every_request_fails w1) as Hdown1 by (unfold every_request_fails; by rewrite Hn1).
  destruct (hasRole_all_fail userId "ADMIN" w1 Hdown1) as (w2 & H2 & _).
  assert (isAdmin userId w = (Ok false, w2)) as Hrun.
  { unfold isAdmin. by rewrite (bind_ok _ _ _ _ _ H1). }
  exists w2. split; [done|]. by eapply isAdmin_reads_only.
Qed.

Lemma read_all_fail sheetName w :
  every_request_fails w ->
  exists e w', SheetsClient.read sheetName w = (Throw e, w') /\ reads_only w w'.
Proof.
  intros Hdown. unfold SheetsClient.read, values_get.
  destruct (execute_all_fail (fun s => (sheet_rows s sheetName, s)) w Hdown)
    as (e & w' & Hrun & _).
  exists e, w'. split; [done|]. by eapply (read_reads_only sheetName).
Qed.

Lemma every_request_fails_call A (eff : Spreadsheet -> A * Spreadsheet) :
  keeps every_request_fails (execute (retryWithBackoff (http_request eff))).
Proof.
  intros w r w' Hdown Hrun. apply execute_frame in Hrun.
  destruct Hrun as (Hn & _). unfold every_request_fails. by rewrite Hn.
Qed.

Section RouteFrames.
Context `{JsRuntime}.

Lemma getUserPermissions_spreadsheet userId w r w' :
  getUserPermissions userId w = (r, w') -> spreadsheet w' = spreadsheet w.
Proof.
  unfold getUserPermissions.
  destruct (getCachedPermissions_returns userId w) as (cached & w0 & Hcached).
  rewrite (bind_ok _ _ _ _ _ Hcached).
  assert (spreadsheet w0 = spreadsheet w) as Hw0.
  { unfold getCachedPermissions in Hcached.
    destruct (permissionCache w !! userId) as [entry|];
      [destruct (CacheEntry.expiresAt entry <? clock w)|];
      by injection Hcached as <- <-. }
  destruct cached as [ps|].
  { intros Hrun. by injection Hrun as <- <-. }
  destruct (getUserRoles_returns userId w0) as (roles & wa & Hroles).
  pose proof (getUserRoles_reads_only _ _ _ _ Hroles) as (_ & _ & _ & Hsa & _).
  destruct (permissions_loop roles [] wa) as [[allPermissions|e] wb] eqn:Hloop;
    pose proof (permissions_loop_reads_only _ _ _ _ _ Hloop) as (_ & _ & _ & Hsb & _).
  - erewrite try_catch_ok;
      [|rewrite (bind_ok _ _ _ _ _ Hroles), (bind_ok _ _ _ _ _ Hloop); reflexivity].
    intros Hrun. injection Hrun as <- <-. simpl. congruence.
  - erewrite try_catch_throw;
      [|rewrite (bind_ok _ _ _ _ _ Hroles), (bind_throw _ _ _ _ _ Hloop); reflexivity].
    intros Hrun. injection Hrun as <- <-. congruence.
Qed.

Lemma getUserModules_spreadsheet userId w r w' :
  getUserModules userId w = (r, w') -> spreadsheet w' = spreadsheet w.
Proof.
  unfold getUserModules.
  destruct (getUserPermissions_returns userId w) as (ps & w1 & Hperms).
  pose proof (getUserPermissions_spreadsheet _ _ _ _ Hperms) as Hw1.
  destruct (modules_loop ps [] w1) as [[codes|e] w2] eqn:Hloop;
    pose proof (modules_loop_reads_only _ _ _ _ _ Hloop) as (_ & _ & _ & Hs & _).
  - erewrite try_catch_ok; [|by rewrite (bind_ok _ _ _ _ _ Hperms)].
    intros Hrun. injection Hrun as <- <-. congruence.
  - erewrite try_catch_throw; [|by rewrite (bind_ok _ _ _ _ _ Hperms)].
    intros Hrun. injection Hrun as <- <-. congruence.
Qed.

Lemma getUserModules_returns userId w :
  exists codes w', getUserModules userId w = (Ok codes, w').
Proof. apply try_catch_returns. Qed.

Lemma getUserModules_keeps_outage userId :
  keeps every_request_fails (getUserModules userId).
Proof.
  apply keeps_getUserModules; try apply every_request_fails_call; done.
Qed.

End RouteFrames.

Lemma StronglySorted_filter_by {A} (R : A -> A -> Prop) (P : A -> Prop)
    `{forall x, Decision (P x)} (l : list A) :
  StronglySorted R l -> StronglySorted R (filter P l).
Proof.
  induction 1 as [|x l Hsorted IH Hall]; [constructor|].
  rewrite filter_cons. destruct (decide (P x)); [|done].
  constructor; [done|].
  apply Forall_forall. intros y Hy. apply list_elem_of_filter in Hy as [_ Hy].
  rewrite Forall_forall in Hall. by apply Hall.
Qed.

(** X25. Whoever [isAdmin] answers [false] for is refused by both admin
    routes with status 403, whatever the request asks for, and the request
    changes neither the spreadsheet nor the permission cache. *)
Theorem non_admin_is_refused `{JsRuntime} (user_id : string) (body : RolesRequest.t)
    (w w1 : World) :
  isAdmin user_id w = (Ok false, w1) ->
  GET_admin_roles user_id w = (Ok (JsonError 403 "Forbidden - Admin access required"), w1)
  /\ POST_admin_roles user_id body w
     = (Ok (JsonError 403 "Forbidden - Admin access required"), w1)
  /\ spreadsheet w1 = spreadsheet w
  /\ permissionCache w1 = permissionCache w.
Proof.
  intros Hadmin.
  pose proof (isAdmin_reads_only _ _ _ _ Hadmin) as (_ & Hc & _ & Hs & _).
  split; [|split; [|done]].
  - unfold GET_admin_roles. erewrite try_catch_ok; [reflexivity|].
    by rewrite (bind_ok _ _ _ _ _ Hadmin).
  - unfold POST_admin_roles. erewrite try_catch_ok; [reflexivity|].
    by rewrite (bind_ok _ _ _ _ _ Hadmin).
Qed.

(** X25 at work: a user without any role asks to be made an
    administrator. *)
Lemma non_admin_is_refused_sample :
  let w := fresh_world (sample_spreadsheet "" "*") always_ok in
  let w1 := snd (isAdmin "X" w) in
  GET_admin_roles "X" w = (Ok (JsonError 403 "Forbidden - Admin access required"), w1)
  /\ @POST_admin_roles sample_runtime "X" assign_request w
     = (Ok (JsonError 403 "Forbidden - Admin access required"), w1)
  /\ spreadsheet w1 = spreadsheet w
  /\ permissionCache w1 = permissionCache w.
Proof.
  intros w w1.
  apply (@non_admin_is_refused sample_runtime "X" assign_request w w1).
  vm_compute. reflexivity.
Defined.

(** X26. While every request to the store is rejected, the routes answer
    each in its own way: the role list is empty with status 200, both
    admin routes refuse with 403 an administrator too, the module list and
    the profile fail with 500 and login fails with 401 and a message that
    is not empty; none of them raises and none changes the spreadsheet. *)
Theorem routes_during_outage `{JsRuntime} (user : AuthUser.t) (body : RolesRequest.t)
    (w : World) :
  every_request_fails w ->
  (exists w', GET_roles (AuthUser.id user) w = (Ok (JsonBody []), w')
              /\ spreadsheet w' = spreadsheet w)
  /\ (exists w', GET_admin_roles (AuthUser.id user) w
                 = (Ok (JsonError 403 "Forbidden - Admin access required"), w')
                 /\ spreadsheet w' = spreadsheet w)
  /\ (exists w', POST_admin_roles (AuthUser.id user) body w
                 = (Ok (JsonError 403 "Forbidden - Admin access required"), w')
                 /\ spreadsheet w' = spreadsheet w)
  /\ (exists e w', GET_modules (AuthUser.id user) w
                   = (Ok (JsonError 500 (err_message e)), w')
                   /\ spreadsheet w' = spreadsheet w)
  /\ (exists e w', GET_me (AuthUser.id user) w = (Ok (JsonError 500 (err_message e)), w')
                   /\ spreadsheet w' = spreadsheet w)
  /\ (exists message w', login user w = (Ok (JsonError 401 message), w')
                         /\ message <> ""
                         /\ spreadsheet w' = spreadsheet w).
Proof.
  intros Hdown. split; [|split; [|split; [|split; [|split]]]].
  - destruct (getUserRoles_all_fail (AuthUser.id user) w Hdown) as (w' & Hroles & _).
    pose proof (getUserRoles_reads_only _ _ _ _ Hroles) as (_ & _ & _ & Hs & _).
    exists w'. split; [|done].
    unfold GET_roles. erewrite try_catch_ok; [reflexivity|].
    by rewrite (bind_ok _ _ _ _ _ Hroles).
  - destruct (isAdmin_all_fail (AuthUser.id user) w Hdown)
      as (w' & Hadmin & _ & _ & _ & Hs & _).
    exists w'. split; [|done].
    unfold GET_admin_roles. erewrite try_catch_ok; [reflexivity|].
    by rewrite (bind_ok _ _ _ _ _ Hadmin).
  - destruct (isAdmin_all_fail (AuthUser.id user) w Hdown)
      as (w' & Hadmin & _ & _ & _ & Hs & _).
    exists w'. split; [|done].
    unfold POST_admin_roles. erewrite try_catch_ok; [reflexivity|].
    by rewrite (bind_ok _ _ _ _ _ Hadmin).
  - destruct (getUserModules_returns (AuthUser.id user) w) as (codes & w1 & Hcodes).
    pose proof (getUserModules_keeps_outage _ _ _ _ Hdown Hcodes) as Hdown1.
    pose proof (getUserModules_spreadsheet _ _ _ _ Hcodes) as Hs1.
    destruct (read_all_fail "MODULES" w1 Hdown1) as (e & w' & Hread & _ & _ & _ & Hs & _).
    exists e, w'. split; [|congruence].
    unfold GET_modules. erewrite try_catch_throw; [reflexivity|].
    rewrite (bind_ok _ _ _ _ _ Hcodes). apply bind_throw.
    rewrite getActiveModules_inv. by rewrite Hread.
  - destruct (read_all_fail "USERS" w Hdown) as (e & w' & Hread & _ & _ & _ & Hs & _).
    exists e, w'. split; [|done].
    unfold GET_me. erewrite try_catch_throw; [reflexivity|].
    unfold dataService.getUserById, dataService.getUsers.
    by rewrite (bind_throw _ _ _ _ _ (bind_throw _ _ _ _ _ (bind_throw _ _ _ _ _ Hread))).
  - destruct (read_all_fail "USERS" w Hdown) as (e & w' & Hread & _ & _ & _ & Hs & _).
    exists (if String.eqb (err_message e) "" then "Authentication failed"
            else err_message e), w'.
    split; [|split; [|done]].
    + unfold login. erewrite try_catch_throw; [reflexivity|].
      unfold dataService.getUserById, dataService.getUsers.
      by rewrite (bind_throw _ _ _ _ _ (bind_throw _ _ _ _ _ (bind_throw _ _ _ _ _ Hread))).
    + destruct (String.eqb (err_message e) "") eqn:Hempty; [done|].
      by apply String.eqb_neq in Hempty.
Qed.

(** X26 at work. *)
Lemma routes_during_outage_sample :
  let w := fresh_world (sample_spreadsheet "" "*") always_down in
  exists w', GET_roles "U" w = (Ok (JsonBody []), w') /\ spreadsheet w' = spreadsheet w.
Proof.
  intros w.
  apply (@routes_during_outage sample_runtime auth_user_U assign_request w).
  intros n. discriminate.
Defined.

(** X27. Whenever GET /api/modules answers with a list, the list holds
    exactly the active modules of the MODULES sheet whose code
    [getUserModules] lists for the user, in non-decreasing sort order, and
    the spreadsheet is as it was. *)
Theorem GET_modules_lists_accessible_modules `{JsRuntime} (user_id : string) (w : World)
    (modules : list AppModule.t) (w' : World) :
  GET_modules user_id w = (Ok (JsonBody modules), w') ->
  exists codes w1,
    getUserModules user_id w = (Ok codes, w1)
    /\ (forall m, m ∈ modules <->
                  m ∈ stored_active_modules (spreadsheet w)
                  /\ AppModule.module_code m ∈ codes)
    /\ StronglySorted by_sort_order modules
    /\ spreadsheet w' = spreadsheet w.
Proof.
  intros Hrun.
  destruct (getUserModules_returns user_id w) as (codes & w1 & Hcodes).
  pose proof (getUserModules_spreadsheet _ _ _ _ Hcodes) as Hs1.
  exists codes, w1. split; [done|].
  unfold GET_modules in Hrun.
  destruct (SheetsClient.read "MODULES" w1) as [[rows|e] w2] eqn:Hread.
  2:{ erewrite try_catch_throw in Hrun.
      - discriminate.
      - rewrite (bind_ok _ _ _ _ _ Hcodes). apply bind_throw.
        rewrite getActiveModules_inv. by rewrite Hread. }
  erewrite try_catch_ok in Hrun.
  2:{ rewrite (bind_ok _ _ _ _ _ Hcodes). erewrite bind_ok; [reflexivity|].
      rewrite getActiveModules_inv. by rewrite Hread. }
  injection Hrun as <- <-.
  pose proof (read_reads_only _ _ _ _ Hread) as (_ & _ & _ & Hs2 & _).
  rewrite (read_ok_rows _ _ _ _ Hread), Hs1.
  split; [|split; [|congruence]].
  - intros m. rewrite list_elem_of_filter.
    rewrite (sort_by_sort_order_perm _ : _ ≡ₚ _).
    unfold stored_active_modules. split.
    + intros [Hcode Hm]. split; [done|]. by apply bool_decide_unpack in Hcode.
    + intros [Hm Hcode]. split; [|done]. by apply bool_decide_pack.
  - apply StronglySorted_filter_by. apply sort_by_sort_order_sorted.
Qed.

(** X27 at work. *)
Lemma GET_modules_lists_accessible_modules_sample :
  let w := fresh_world wildcard_spreadsheet always_ok in
  exists codes w1,
    @getUserModules sample_runtime "U" w = (Ok codes, w1)
    /\ (forall m, m ∈ [@mapRowToModule sample_runtime (module_row "HR" "TRUE" 1);
                       @mapRowToModule sample_runtime (module_row "DASHBOARD" "TRUE" 2)] <->
                  m ∈ @stored_active_modules sample_runtime (spreadsheet w)
                  /\ AppModule.module_code m ∈ codes)
    /\ StronglySorted by_sort_order
         [@mapRowToModule sample_runtime (module_row "HR" "TRUE" 1);
          @mapRowToModule sample_runtime (module_row "DASHBOARD" "TRUE" 2)]
    /\ spreadsheet (snd (@GET_modules sample_runtime "U" w)) = spreadsheet w.
Proof.
  intros w.
  apply (@GET_modules_lists_accessible_modules sample_runtime "U" w
           [@mapRowToModule sample_runtime (module_row "HR" "TRUE" 1);
            @mapRowToModule sample_runtime (module_row "DASHBOARD" "TRUE" 2)]
           (snd (@GET_modules sample_runtime "U" w))).
  vm_compute. reflexivity.
Defined.

(** * The code against the specification's effective permissions *)

Lemma collect_permissions_concat `{JsRuntime} (s : Spreadsheet) roles :
  forall acc,
    collect_permissions s roles acc
    = acc ++ concat (map (fun role => map toUserPermission
                                          (stored_permissions s (UserRole.role_id role)))
                         roles).
Proof.
  induction roles as [|role rest IH]; intros acc; simpl.
  - by rewrite app_nil_r.
  - by rewrite IH, <- app_assoc.
Qed.

Lemma effective_assignments_all is_past (s : Spreadsheet) now userId :
  (forall a, a ∈ stored_assignments s userId ->
             expired is_past (RoleAssignment.expires_at a) now = false) ->
  effective_assignments is_past s now userId = stored_assignments s userId.
Proof.
  unfold effective_assignments.
  induction (stored_assignments s userId) as [|a rest IH]; intros Hnone; [done|].
  rewrite filter_cons, (Hnone a) by by left. simpl.
  rewrite IH; [done|]. intros b Hb. apply Hnone. by right.
Qed.

(** While no active assignment of the user has passed its expiry, what the
    sheets give the user through the code's look-ups is the user's
    effective permissions. *)
Lemma effective_permissions_stored `{JsRuntime} is_past (s : Spreadsheet) now userId :
  (forall a, a ∈ stored_assignments s userId ->
             expired is_past (RoleAssignment.expires_at a) now = false) ->
  effective_permissions is_past s now userId = stored_user_permissions s userId.
Proof.
  intros Hnone. unfold effective_permissions, effective_roles, stored_user_permissions,
    stored_user_roles.
  by rewrite (effective_assignments_all _ _ _ _ Hnone), collect_permissions_concat,
    collect_roles_omap.
Qed.

(** C3, with the empty resource taken for none and users with an active
    assignment past its expiry left aside. For a user none of whose active
    assignments has passed its expiry, however timestamps are read, when
    the store answers and nothing is cached for the user, [hasPermission]
    returns, and returns [true] exactly when one of the user's effective
    permissions matches the module (exactly or by the wildcard) and the
    action (exactly or by the wildcard) and, when a resource is given and
    is not the empty string, the resource (exactly or by the wildcard).
    With role ADMIN granted HR/create on every resource and ADMIN the only
    effective role of user U, U may create an HR candidate and may not
    create in WMS. *)
Theorem hasPermission_iff_effective `{JsRuntime} :
  (forall (is_past : string -> N -> bool) (userId moduleCode action : string)
          (resource : option string) (w : World),
      healthy w ->
      permissionCache w !! userId = None ->
      (forall a, a ∈ stored_assignments (spreadsheet w) userId ->
                 expired is_past (RoleAssignment.expires_at a) (clock w) = false) ->
      exists granted w',
        hasPermission userId moduleCode action resource w = (Ok granted, w')
        /\ (granted = true <->
            exists perm,
              perm ∈ effective_permissions is_past (spreadsheet w) (clock w) userId
              /\ matches_when_nonempty moduleCode action resource perm))
  /\ (let w := fresh_world (sample_spreadsheet "" "*") always_ok in
      (forall is_past now,
          effective_roles is_past (spreadsheet w) now "U"
          = [ {| UserRole.role_id := JStr "r-admin";
                 UserRole.role_code := JStr "ADMIN";
                 UserRole.role_name := JStr "Administrator";
                 UserRole.site_code := JUndefined |} ]
          /\ effective_permissions is_past (spreadsheet w) now "U"
             = [ {| UserPermission.module_code := JStr "HR";
                    UserPermission.action := JStr "create";
                    UserPermission.resource := JStr "*";
                    UserPermission.conditions := JsonObj [] |} ])
      /\ fst (hasPermission "U" "HR" "create" (Some "candidate") w) = Ok true
      /\ fst (hasPermission "U" "WMS" "create" None w) = Ok false).
Proof.
  split.
  - intros is_past userId moduleCode action resource w Hw Hmiss Hnone.
    destruct (getUserPermissions_healthy userId w Hw Hmiss) as (w' & Hperms & _).
    exists (existsb (permission_allows moduleCode action resource)
                    (stored_user_permissions (spreadsheet w) userId)), w'.
    split; [by apply hasPermission_run|].
    rewrite (effective_permissions_stored _ _ _ _ Hnone), existsb_exists.
    split; intros (perm & Hin & Hallow); exists perm;
      (split; [by apply list_elem_of_In|by apply permission_allows_iff]).
  - split; [|split].
    + intros is_past now. split; [vm_compute; reflexivity|].
      unfold effective_permissions, toUserPermission, safeJsonParse.
      vm_compute. reflexivity.
    + unfold hasPermission, getUserPermissions, toUserPermission, safeJsonParse.
      vm_compute. reflexivity.
    + unfold hasPermission, getUserPermissions, toUserPermission, safeJsonParse.
      vm_compute. reflexivity.
Qed.

(** C3 at work: U's assignment of ADMIN expires in 2027, after the sample
    clock. *)
Lemma hasPermission_iff_effective_sample :
  let w := fresh_world (sample_spreadsheet "2027-01-01T00:00:00.000Z" "*") always_ok in
  exists granted w',
    @hasPermission sample_runtime "U" "HR" "create" (Some "candidate") w = (Ok granted, w')
    /\ (granted = true <->
        exists perm,
          perm ∈ @effective_permissions sample_runtime sample_is_past (spreadsheet w)
                   (clock w) "U"
          /\ matches_when_nonempty "HR" "create" (Some "candidate") perm).
Proof.
  intros w.
  apply (proj1 (@hasPermission_iff_effective sample_runtime)).
  - apply healthy_fresh_world.
  - reflexivity.
  - intros a Ha.
    assert (stored_assignments (spreadsheet w) "U"
            = [mapRowToRoleAssignment (admin_assignment_row "2027-01-01T00:00:00.000Z")])
      as Hstored by (vm_compute; reflexivity).
    rewrite Hstored in Ha. apply list_elem_of_singleton in Ha. subst a.
    vm_compute. reflexivity.
Defined.

(** C5 on the code. User U holds one active assignment of ADMIN, which is
    granted everything on everything. When the assignment's expiry is set
    and, however timestamps are read, lies in the past, U has no effective
    permission, and [getUserModules] still returns the codes of all active
    modules: the full bypass. *)
Theorem getUserModules_bypass_on_expired_assignment (is_past : string -> N -> bool)
    (expires_at : string) :
  let w := fresh_world (expiring_wildcard_spreadsheet expires_at) always_ok in
  expires_at <> "" ->
  is_past expires_at (clock w) = true ->
  @effective_permissions sample_runtime is_past (spreadsheet w) (clock w) "U" = []
  /\ fst (@getUserModules sample_runtime "U" w) = Ok [JStr "HR"; JStr "DASHBOARD"].
Proof.
  intros w Hset Hpast. split; [|vm_compute; reflexivity].
  destruct expires_at as [|c rest]; [done|].
  unfold effective_permissions, effective_roles, effective_assignments.
  assert (stored_assignments (spreadsheet w) "U"
          = [mapRowToRoleAssignment (admin_assignment_row (String c rest))]) as ->
    by (vm_compute; reflexivity).
  rewrite filter_cons. simpl in Hpast |- *. by rewrite Hpast.
Qed.

(** C5 on the code, for an assignment that expired at the start of 2021. *)
Lemma getUserModules_bypass_on_expired_assignment_sample :
  let w := fresh_world (expiring_wildcard_spreadsheet "2021-01-01T00:00:00.000Z") always_ok in
  @effective_permissions sample_runtime sample_is_past (spreadsheet w) (clock w) "U" = []
  /\ fst (@getUserModules sample_runtime "U" w) = Ok [JStr "HR"; JStr "DASHBOARD"].
Proof.
  intros w.
  apply (getUserModules_bypass_on_expired_assignment sample_is_past
           "2021-01-01T00:00:00.000Z").
  - discriminate.
  - vm_compute. reflexivity.
Defined.

(** * A resolution overtaken by a mutation *)

Lemma bind_assoc {A B C} (m : Async A) (f : A -> Async B) (g : B -> Async C) w :
  bind (bind m f) g w = bind m (fun a => bind (f a) g) w.
Proof. unfold bind. by destruct (m w) as [[a|e] w']. Qed.

(** The two parts of [getUserPermissions], run one after the other, are
    [getUserPermissions]. *)
Lemma getUserPermissions_in_two_steps `{JsRuntime} userId w :
  getUserPermissions userId w
  = bind (getUserPermissions_suspended userId)
         (fun suspended =>
            match suspended with
            | inl permissions => ret permissions
            | inr roles => getUserPermissions_resumed userId roles
            end) w.
Proof.
  unfold getUserPermissions, getUserPermissions_suspended, getUserPermissions_resumed.
  destruct (getCachedPermissions_returns userId w) as (cached & w0 & Hcached).
  rewrite bind_assoc, !(bind_ok _ _ _ _ _ Hcached).
  destruct cached as [permissions|]; [reflexivity|].
  destruct (getUserRoles_returns userId w0) as (roles & w1 & Hroles).
  rewrite bind_assoc, (bind_ok _ _ _ _ _ Hroles).
  unfold try_catch at 1. by rewrite (bind_ok _ _ _ _ _ Hroles).
Qed.

(** C8 on the code. User U holds ADMIN by the assignment a-1 and nothing
    is cached. A resolution for U misses the cache, finds ADMIN and is
    suspended awaiting ADMIN's permissions. Meanwhile [revokeRole] for a-1
    and U runs to completion: the sheet grants U nothing any more and the
    cache has no entry for U. The resolution is resumed, returns ADMIN's
    permission and caches it. The next [getUserPermissions] for U, one
    second later, sends no request and returns the revoked permission. *)
Theorem revocation_overtaken_by_resolution_in_flight :
  let w := fresh_world (sample_spreadsheet "" "*") always_ok in
  let admin := {| UserRole.role_id := JStr "r-admin";
                  UserRole.role_code := JStr "ADMIN";
                  UserRole.role_name := JStr "Administrator";
                  UserRole.site_code := JUndefined |} in
  let hr_create := {| UserPermission.module_code := JStr "HR";
                      UserPermission.action := JStr "create";
                      UserPermission.resource := JStr "*";
                      UserPermission.conditions := JsonObj [] |} in
  let w1 := snd (getUserPermissions_suspended "U" w) in
  let w2 := snd (revokeRole "a-1" "U" w1) in
  let w3 := snd (@getUserPermissions_resumed sample_runtime "U" [admin] w2) in
  let w4 := snd (@getUserPermissions sample_runtime "U" (advance 1000 w3)) in
  fst (getUserPermissions_suspended "U" w) = Ok (inr [admin])
  /\ fst (revokeRole "a-1" "U" w1) = Ok tt
  /\ permissionCache w2 !! "U" = None
  /\ @stored_user_permissions sample_runtime (spreadsheet w2) "U" = []
  /\ fst (@getUserPermissions_resumed sample_runtime "U" [admin] w2) = Ok [hr_create]
  /\ spreadsheet w3 = spreadsheet w2
  /\ fst (@getUserPermissions sample_runtime "U" (advance 1000 w3)) = Ok [hr_create]
  /\ requests w4 = requests w3.
Proof. vm_compute. repeat split. Qed.
